(** * Service supervisor and credential store: a shallow embedding

    This development embeds two Python modules of the repository,

      - [src/download/AnubisV2/service_manager.py]   (class [ServiceManager])
      - [src/download/Anubis/soul/session_manager.py] (classes
        [SessionManager] and [AutoConnector])

    with the two session methods of [soul/core.py], and states the
    properties of the specification over them.

    Modelling conventions.

    - Python objects of unchecked type (everything read back from a JSON
      file) are values of the type [value]; floats are left out.
    - A Python [dict] keeps insertion order: it is an association list
      ([Dict.t]), assignment to an existing key keeps the key's position.
    - A method is a computation in a state-and-exception monad [M]; the
      state is the object ([self]) paired with the [world] (files, clock,
      child processes).  An exception does not roll the state back.
    - What the operating system decides (does a spawn succeed, does a
      signal raise, does the child exit within the grace period) is an
      oracle of the environment record [Env]; theorems quantify over it.
    - A file holds either bytes that [json.load] rejects ([Text]) or the
      document [json.load] returns for it ([Json]).  Writing a file
      replaces its content and is taken to succeed: a full disk or a
      directory that cannot be created or written is outside the model, as
      is console output ([print]).  Reading a log as text decodes its
      bytes, which can fail; the decoding is a parameter of [get_logs].
    - The calls of the host and of the modules themselves raise
      exceptions of the [Exception] hierarchy only.  A connection handler
      is code of the caller and can raise anything: there [except
      Exception] is [is_Exception], which lets a cancellation, a
      keyboard interrupt or a system exit through.
    - A child process leaves the process table of a [world] only when the
      manager reaps it; that it can exit on its own is expressed by
      stating a property for every later world.
    - The records of [SessionManager] hold their dictionaries by value.
      [save_platform] merges in place, so what it does when one
      dictionary object is reachable under two names is modelled apart,
      with a heap of dictionary objects ([Module Shared]). *)

From Stdlib Require Import List String Ascii ZArith Bool DecimalString.
Import ListNotations.
Open Scope string_scope.
Open Scope Z_scope.

#[local] Set Warnings "-register-all".

(** ** Python values *)

Inductive value : Type :=
| VNone
| VBool (b : bool)
| VInt (n : Z)
| VStr (s : string)
| VList (l : list value)
| VDict (d : list (string * value)).

(** Truth value of an object, as used by [if x:] and [x or y]. *)
Definition truthy (v : value) : bool :=
  match v with
  | VNone => false
  | VBool b => b
  | VInt n => negb (n =? 0)
  | VStr s => negb (s =? "")%string
  | VList l => match l with [] => false | _ => true end
  | VDict d => match d with [] => false | _ => true end
  end.

(** [x or y] *)
Definition py_or (x y : value) : value := if truthy x then x else y.

(** [str(n)] for an integer. *)
Definition str_of_int (n : Z) : string := NilZero.string_of_int (Z.to_int n).

(** ** Text files read line by line *)

Definition LF : ascii := "010"%char.
Definition CR : ascii := "013"%char.

(** What reading a text file in the default mode returns for the stored
    characters: a carriage return, with or without a line feed after it,
    reads as one line feed. *)
Fixpoint universal_newlines (s : string) : string :=
  match s with
  | EmptyString => EmptyString
  | String c rest =>
      if (c =? CR)%char then
        match rest with
        | String c2 rest2 =>
            if (c2 =? LF)%char then String LF (universal_newlines rest2)
            else String LF (universal_newlines rest)
        | EmptyString => String LF EmptyString
        end
      else String c (universal_newlines rest)
  end.

(** [f.readlines()]: every line keeps its line feed; the last one has
    none when the text does not end in one. *)
Fixpoint readlines (s : string) : list string :=
  match s with
  | EmptyString => []
  | String c rest =>
      if (c =? LF)%char then String c EmptyString :: readlines rest
      else match readlines rest with
           | [] => [String c EmptyString]
           | l :: ls => String c l :: ls
           end
  end.

(** [l[-n:]] for an integer [n] of either sign. *)
Definition last_lines {A : Type} (n : Z) (l : list A) : list A :=
  let len := Z.of_nat (List.length l) in
  let start := if 0 <? n then Z.max 0 (len - n) else Z.min (- n) len in
  skipn (Z.to_nat start) l.

(** ["".join(l)] *)
Definition join (l : list string) : string := String.concat "" l.

(** ** Insertion-ordered dictionaries with string keys *)

Module Dict.

Definition t (V : Type) : Type := list (string * V).

Definition empty {V : Type} : t V := [].

(** [d.get(k)] / [d[k]] *)
Fixpoint get {V : Type} (k : string) (d : t V) : option V :=
  match d with
  | [] => None
  | (k', v) :: d' => if (k =? k')%string then Some v else get k d'
  end.

(** [k in d] *)
Definition mem {V : Type} (k : string) (d : t V) : bool :=
  match get k d with Some _ => true | None => false end.

(** [d[k] = v]: an existing key keeps its place, a new one goes last. *)
Fixpoint set {V : Type} (k : string) (v : V) (d : t V) : t V :=
  match d with
  | [] => [(k, v)]
  | (k', v') :: d' =>
      if (k =? k')%string then (k, v) :: d' else (k', v') :: set k v d'
  end.

(** [del d[k]] *)
Fixpoint del {V : Type} (k : string) (d : t V) : t V :=
  match d with
  | [] => []
  | (k', v') :: d' =>
      if (k =? k')%string then del k d' else (k', v') :: del k d'
  end.

(** [list(d.keys())] *)
Definition keys {V : Type} (d : t V) : list string := map fst d.

(** [d.update(other)] *)
Definition update {V : Type} (d other : t V) : t V :=
  fold_left (fun acc kv => set (fst kv) (snd kv) acc) other d.

(** [d.get(k, default)] *)
Definition get_default {V : Type} (k : string) (default : V) (d : t V) : V :=
  match get k d with Some v => v | None => default end.

End Dict.

(** ** Exceptions and the method monad *)

(** An exception: its class name and [str(e)]. *)
Inductive exn : Type := Error (cls : string) (msg : string).

Definition exn_cls (e : exn) : string := let 'Error c _ := e in c.
Definition str_exn (e : exn) : string := let 'Error _ m := e in m.

Inductive result (A : Type) : Type :=
| Ok (a : A)
| Raise (e : exn).
Arguments Ok {A} a.
Arguments Raise {A} e.

Definition M (S A : Type) : Type := S -> result A * S.

Definition ret {S A : Type} (a : A) : M S A := fun s => (Ok a, s).

Definition bind {S A B : Type} (m : M S A) (k : A -> M S B) : M S B :=
  fun s =>
    match m s with
    | (Ok a, s') => k a s'
    | (Raise e, s') => (Raise e, s')
    end.

Definition raise {S A : Type} (e : exn) : M S A := fun s => (Raise e, s).

(** [try: body  except <classes accepted by catches> as e: handler e] *)
Definition try_except {S A : Type} (body : M S A) (catches : exn -> bool)
    (handler : exn -> M S A) : M S A :=
  fun s =>
    match body s with
    | (Ok a, s') => (Ok a, s')
    | (Raise e, s') => if catches e then handler e s' else (Raise e, s')
    end.

(** The answer and the final state of a call. *)
Definition answer {S A : Type} (r : result A * S) : result A := fst r.
Definition final {S A : Type} (r : result A * S) : S := snd r.

Declare Scope monad_scope.
Delimit Scope monad_scope with monad.
Notation "x <- m ;; k" := (bind m (fun x => k))
  (at level 100, m at next level, right associativity) : monad_scope.
Notation "m ;;; k" := (bind m (fun _ => k))
  (at level 100, right associativity) : monad_scope.
Open Scope monad_scope.

(** [except Exception] around calls of this module and of the host: what
    those raise ([OSError], [TypeError], [json.JSONDecodeError], ...) is
    always an [Exception]. *)
Definition any_exception (e : exn) : bool := true.



(** [for x in xs: body x] *)
Fixpoint for_each {S A : Type} (xs : list A) (body : A -> M S unit) : M S unit :=
  match xs with
  | [] => ret tt
  | x :: xs' => body x ;;; for_each xs' body
  end.

(** ** The world: files, clock, child processes *)

Inductive file_content : Type :=
| Text (raw : string)      (* bytes json.load raises on *)
| Json (doc : value).      (* bytes json.load decodes to doc *)

Inductive signal : Type := SIGTERM | SIGKILL.

Record world : Type := mkWorld {
  files : Dict.t file_content;   (* path -> content; absent = nothing at the path *)
  ticks : nat;                   (* number of clock readings so far *)
  running : list Z               (* pids of child processes still running *)
}.

(** What the host decides. *)
Record Env : Type := mkEnv {
  install_dir : string;                        (* dirname(dirname(__file__)) *)
  isoformat_at : nat -> string;                (* the n-th clock reading *)
  open_append : world -> value -> option exn;  (* open(path, 'a'); None = opened *)
  spawn : world -> value -> result Z;          (* subprocess.Popen(command, shell=True, ...) *)
  signal_group : world -> Z -> signal -> option exn;
                                               (* os.killpg(os.getpgid(pid), sig) *)
  exits_in_grace : world -> Z -> bool          (* wait(timeout=5) returns *)
}.

(** [os.path.join(a, b)] on POSIX. *)
Definition ends_with_slash (a : string) : bool :=
  match rev (list_ascii_of_string a) with
  | c :: _ => (c =? "/")%char
  | [] => false
  end.

Definition path_join (a b : string) : string :=
  match b with
  | String c _ =>
      if (c =? "/")%char then b
      else if (a =? "")%string then b
      else if ends_with_slash a then a ++ b
      else a ++ "/" ++ b
  | EmptyString =>
      if (a =? "")%string then "" else if ends_with_slash a then a else a ++ "/"
  end.

(** The file is not there, or [json.load] raises on it. *)
Definition missing_or_unparsable (c : option file_content) : bool :=
  match c with
  | None => true
  | Some (Text _) => true
  | Some (Json _) => false
  end.

(** A JSON object, as opposed to any other JSON value. *)
Definition is_object (v : value) : bool :=
  match v with
  | VDict _ => true
  | _ => false
  end.

(** [dir or os.path.join(os.path.dirname(os.path.dirname(__file__)), leaf)] *)
Definition dir_or_default (E : Env) (dir : option string) (leaf : string) : string :=
  match dir with
  | Some x => if (x =? "")%string then path_join (install_dir E) leaf else x
  | None => path_join (install_dir E) leaf
  end.

(** A method's state: the object and the world. *)
Section WorldOps.
Context {T : Type}.

Definition get_self : M (T * world) T := fun s => (Ok (fst s), s).
Definition set_self (x : T) : M (T * world) unit := fun s => (Ok tt, (x, snd s)).
Definition get_world : M (T * world) world := fun s => (Ok (snd s), s).
Definition set_world (w : world) : M (T * world) unit := fun s => (Ok tt, (fst s, w)).

(** [datetime.now().isoformat()] *)
Definition now_isoformat (E : Env) : M (T * world) string :=
  w <- get_world ;;
  set_world (mkWorld (files w) (S (ticks w)) (running w)) ;;;
  ret (isoformat_at E (ticks w)).

(** [os.path.exists(path)] *)
Definition path_exists (path : string) : M (T * world) bool :=
  w <- get_world ;; ret (Dict.mem path (files w)).

(** [with open(path, 'r') as f: json.load(f)] *)
Definition json_load_file (path : string) : M (T * world) value :=
  w <- get_world ;;
  match Dict.get path (files w) with
  | None => raise (Error "FileNotFoundError" ("No such file or directory: " ++ path))
  | Some (Text _) => raise (Error "JSONDecodeError" "Expecting value")
  | Some (Json doc) => ret doc
  end.

(** [with open(path, 'w') as f: json.dump(data, f, indent=2)] *)
Definition json_dump_file (path : string) (data : value) : M (T * world) unit :=
  w <- get_world ;;
  set_world (mkWorld (Dict.set path (Json data) (files w)) (ticks w) (running w)).

(** [d.get(key, default)] on an object of unknown type. *)
Definition py_get (d : value) (key : string) (default : value) : M (T * world) value :=
  match d with
  | VDict kv => ret (Dict.get_default key default kv)
  | _ => raise (Error "AttributeError" "object has no attribute 'get'")
  end.

(** [d.items()] on an object of unknown type. *)
Definition py_items (d : value) : M (T * world) (list (string * value)) :=
  match d with
  | VDict kv => ret kv
  | _ => raise (Error "AttributeError" "object has no attribute 'items'")
  end.
End WorldOps.

(** ** service_manager.py *)

Module ServiceManager.

(** [@dataclass class Service].  The fields filled from the services file
    hold whatever the file holds. *)
Record Service : Type := mkService {
  name : value;
  platform : value;
  command : value;
  pid : value;
  status : string;          (* "stopped", "running", "crashed" *)
  started_at : value;
  log_file : value;
  auto_restart : value;
  restart_count : Z;
  max_restarts : Z
}.

(** A [subprocess.Popen] handle; [process.pid]. *)
Record Popen : Type := mkPopen { popen_pid : Z }.

Record t : Type := mk {
  services_dir : string;
  services_file : string;
  logs_dir : string;
  services : Dict.t Service;
  processes : Dict.t Popen
}.

Definition Meth (A : Type) : Type := M (t * world) A.

Definition set_services (d : Dict.t Service) (self : t) : t :=
  mk (services_dir self) (services_file self) (logs_dir self) d (processes self).

Definition set_processes (d : Dict.t Popen) (self : t) : t :=
  mk (services_dir self) (services_file self) (logs_dir self) (services self) d.

Definition set_status (st : string) (s : Service) : Service :=
  mkService (name s) (platform s) (command s) (pid s) st (started_at s)
    (log_file s) (auto_restart s) (restart_count s) (max_restarts s).

Definition set_pid (p : value) (s : Service) : Service :=
  mkService (name s) (platform s) (command s) p (status s) (started_at s)
    (log_file s) (auto_restart s) (restart_count s) (max_restarts s).

Definition set_started_at (ts : value) (s : Service) : Service :=
  mkService (name s) (platform s) (command s) (pid s) (status s) ts
    (log_file s) (auto_restart s) (restart_count s) (max_restarts s).

(** Assignment to attributes of the object [self.services[nm]]. *)
Definition update_service (nm : string) (f : Service -> Service) : Meth unit :=
  self <- get_self ;;
  match Dict.get nm (services self) with
  | Some svc => set_self (set_services (Dict.set nm (f svc) (services self)) self)
  | None => ret tt
  end.

(** [process.poll() is None] *)
Definition poll_is_none (w : world) (p : Popen) : bool :=
  existsb (Z.eqb (popen_pid p)) (running w).

Definition remove_pid (p : Z) (l : list Z) : list Z :=
  filter (fun q => negb (q =? p)) l.

Definition failure (msg : string) : value :=
  VDict [("success", VBool false); ("error", VStr msg)].

Definition success_message (msg : string) : value :=
  VDict [("success", VBool true); ("message", VStr msg)].

(** [result["success"]] read as a flag. *)
Definition is_success (r : value) : bool :=
  match r with
  | VDict d => match Dict.get "success" d with Some (VBool true) => true | _ => false end
  | _ => false
  end.

Section Methods.
Variable E : Env.

Definition service_to_json (svc : Service) : value :=
  VDict [("name", name svc); ("platform", platform svc); ("command", command svc);
         ("pid", pid svc); ("started_at", started_at svc);
         ("log_file", log_file svc); ("auto_restart", auto_restart svc)].

Definition services_document (d : Dict.t Service) (stamp : string) : value :=
  VDict [("services", VDict (map (fun kv => (fst kv, service_to_json (snd kv))) d));
         ("last_saved", VStr stamp)].

Definition _save_services : Meth unit :=
  self <- get_self ;;
  stamp <- now_isoformat E ;;
  json_dump_file (services_file self) (services_document (services self) stamp).

Definition load_entry (entry : string * value) : Meth unit :=
  let (nm, svc_data) := entry in
  n <- py_get svc_data "name" (VStr nm) ;;
  p <- py_get svc_data "platform" (VStr "unknown") ;;
  c <- py_get svc_data "command" (VStr "") ;;
  i <- py_get svc_data "pid" VNone ;;
  ts <- py_get svc_data "started_at" VNone ;;
  lf <- py_get svc_data "log_file" (VStr "") ;;
  ar <- py_get svc_data "auto_restart" (VBool true) ;;
  self <- get_self ;;
  set_self (set_services
              (Dict.set nm (mkService n p c i "stopped" ts lf ar 0 5) (services self))
              self).

Definition _load_services : Meth unit :=
  self <- get_self ;;
  present <- path_exists (services_file self) ;;
  if present then
    try_except
      (data <- json_load_file (services_file self) ;;
       svcs <- py_get data "services" (VDict []) ;;
       items <- py_items svcs ;;
       for_each items load_entry)
      any_exception
      (fun e => ret tt)
  else ret tt.

(** [ServiceManager(services_dir)]; the directories are taken to be
    creatable ([os.makedirs(..., exist_ok=True)]). *)
Definition __init__ (dir : option string) (w : world) : result t * world :=
  let d := dir_or_default E dir "services" in
  let self := mk d (path_join d "services.json") (path_join d "logs")
                 Dict.empty Dict.empty in
  match _load_services (self, w) with
  | (Ok _, (self', w')) => (Ok self', w')
  | (Raise e, (_, w')) => (Raise e, w')
  end.

Definition create_service (nm plat cmd : string) (auto : bool) : Meth Service :=
  self <- get_self ;;
  let lf := path_join (logs_dir self) (nm ++ ".log") in
  let service := mkService (VStr nm) (VStr plat) (VStr cmd) VNone "stopped" VNone
                           (VStr lf) (VBool auto) 0 5 in
  set_self (set_services (Dict.set nm service (services self)) self) ;;;
  _save_services ;;;
  ret service.

(** Opening a path for appending creates the file when it is not there. *)
Definition touch (w : world) (log_path : value) : world :=
  match log_path with
  | VStr p =>
      if Dict.mem p (files w) then w
      else mkWorld (Dict.set p (Text "") (files w)) (ticks w) (running w)
  | _ => w
  end.

(** [open(log_path, 'a')] *)
Definition open_log (log_path : value) : Meth unit :=
  w <- get_world ;;
  match open_append E w log_path with
  | Some e => raise e
  | None => set_world (touch w log_path)
  end.

(** [service.log_file or os.path.join(self.logs_dir, f"{name}.log")] *)
Definition log_path_of (self : t) (nm : string) (service : Service) : value :=
  py_or (log_file service) (VStr (path_join (logs_dir self) (nm ++ ".log"))).

(** [subprocess.Popen(command, shell=True, stdout=log_file, ...)] *)
Definition Popen_shell (cmd : value) : Meth Popen :=
  w <- get_world ;;
  match spawn E w cmd with
  | Raise e => raise e
  | Ok child =>
      set_world (mkWorld (files w) (ticks w) (child :: running w)) ;;;
      ret (mkPopen child)
  end.

Definition start_service (nm : string) : Meth value :=
  self <- get_self ;;
  match Dict.get nm (services self) with
  | None => ret (failure ("Service '" ++ nm ++ "' not found"))
  | Some service =>
      w <- get_world ;;
      if match Dict.get nm (processes self) with
         | Some p => poll_is_none w p
         | None => false
         end
      then ret (failure ("Service '" ++ nm ++ "' is already running"))
      else
        try_except
          (let log_path := log_path_of self nm service in
           open_log log_path ;;;
           process <- Popen_shell (command service) ;;
           self1 <- get_self ;;
           set_self (set_processes (Dict.set nm process (processes self1)) self1) ;;;
           update_service nm (set_pid (VInt (popen_pid process))) ;;;
           update_service nm (set_status "running") ;;;
           stamp <- now_isoformat E ;;
           update_service nm (set_started_at (VStr stamp)) ;;;
           _save_services ;;;
           ret (VDict [("success", VBool true);
                       ("pid", VInt (popen_pid process));
                       ("message", VStr ("Service '" ++ nm ++ "' started with PID "
                                           ++ str_of_int (popen_pid process)))]))
          any_exception
          (fun e =>
             update_service nm (set_status "crashed") ;;;
             ret (failure (str_exn e)))
  end.

(** [os.killpg(os.getpgid(pid), sig)] *)
Definition killpg (p : Z) (sig : signal) : Meth unit :=
  w <- get_world ;;
  match signal_group E w p sig with
  | Some e => raise e
  | None => ret tt
  end.

(** The child has exited and been waited for. *)
Definition reaped (p : Z) : Meth unit :=
  w <- get_world ;;
  set_world (mkWorld (files w) (ticks w) (remove_pid p (running w))).

(** [process.wait(timeout=5)] *)
Definition wait_timeout (process : Popen) : Meth unit :=
  w <- get_world ;;
  if poll_is_none w process && negb (exits_in_grace E w (popen_pid process))
  then raise (Error "TimeoutExpired" "timed out after 5 seconds")
  else reaped (popen_pid process).

(** [process.wait()] *)
Definition wait (process : Popen) : Meth unit := reaped (popen_pid process).

Definition is_TimeoutExpired (e : exn) : bool := (exn_cls e =? "TimeoutExpired")%string.

Definition stop_service (nm : string) : Meth value :=
  self <- get_self ;;
  match Dict.get nm (services self) with
  | None => ret (failure ("Service '" ++ nm ++ "' not found"))
  | Some service =>
      match Dict.get nm (processes self) with
      | None =>
          update_service nm (set_status "stopped") ;;;
          _save_services ;;;
          ret (success_message ("Service '" ++ nm ++ "' was not running"))
      | Some process =>
          try_except
            (killpg (popen_pid process) SIGTERM ;;;
             try_except
               (wait_timeout process)
               is_TimeoutExpired
               (fun _ => killpg (popen_pid process) SIGKILL ;;; wait process) ;;;
             update_service nm (set_status "stopped") ;;;
             update_service nm (set_pid VNone) ;;;
             self1 <- get_self ;;
             set_self (set_processes (Dict.del nm (processes self1)) self1) ;;;
             _save_services ;;;
             ret (success_message ("Service '" ++ nm ++ "' stopped")))
            any_exception
            (fun e => ret (failure (str_exn e)))
      end
  end.

(** [time.sleep(1)] between the two calls is not modelled. *)
Definition restart_service (nm : string) : Meth value :=
  stop_service nm ;;; start_service nm.

Definition get_service_status (nm : string) : Meth value :=
  self <- get_self ;;
  match Dict.get nm (services self) with
  | None => ret (VDict [("exists", VBool false)])
  | Some _ =>
      w <- get_world ;;
      match Dict.get nm (processes self) with
      | Some process =>
          if poll_is_none w process
          then update_service nm (set_status "running")
          else update_service nm (set_status "crashed")
      | None => update_service nm (set_status "stopped")
      end ;;;
      self1 <- get_self ;;
      match Dict.get nm (services self1) with
      | None => ret (VDict [("exists", VBool false)])
      | Some service =>
          ret (VDict [("exists", VBool true);
                      ("name", name service);
                      ("platform", platform service);
                      ("status", VStr (status service));
                      ("pid", pid service);
                      ("started_at", started_at service);
                      ("restart_count", VInt (restart_count service));
                      ("log_file", log_file service)])
      end
  end.

(** [results = {}; for nm in names: results[nm] = call(nm); return results] *)
Fixpoint collect (names : list string) (call : string -> Meth value)
    (results : Dict.t value) : Meth (Dict.t value) :=
  match names with
  | [] => ret results
  | nm :: rest => r <- call nm ;; collect rest call (Dict.set nm r results)
  end.

Definition start_all : Meth (Dict.t value) :=
  self <- get_self ;;
  collect (Dict.keys (services self)) start_service Dict.empty.

Definition stop_all : Meth (Dict.t value) :=
  self <- get_self ;;
  collect (Dict.keys (processes self)) stop_service Dict.empty.

Definition delete_service (nm : string) : Meth bool :=
  self <- get_self ;;
  (if Dict.mem nm (processes self) then stop_service nm ;;; ret tt else ret tt) ;;;
  self1 <- get_self ;;
  if Dict.mem nm (services self1) then
    set_self (set_services (Dict.del nm (services self1)) self1) ;;;
    _save_services ;;;
    ret true
  else ret false.

(** [result = []; for name in names: result.append(self.get_service_status(name))] *)
Fixpoint status_reports (names : list string) : Meth (list value) :=
  match names with
  | [] => ret []
  | nm :: rest =>
      r <- get_service_status nm ;;
      rs <- status_reports rest ;;
      ret (r :: rs)
  end.

Definition list_services : Meth (list value) :=
  self <- get_self ;;
  status_reports (Dict.keys (services self)).

Section Logs.
(** The characters [json.dump] wrote for a document, needed when a log
    path names a file that holds one.  They are ASCII ([ensure_ascii] is
    left at its default), so reading them back as text cannot fail. *)
Variable json_text : value -> string.

(** Reading a file in text mode decodes its bytes with the encoding of
    the host's locale: [decode raw] is the text that gives, or the
    [UnicodeDecodeError] it raises on bytes that are not valid in that
    encoding. *)
Variable decode : string -> result string.

(** [with open(log_file, 'r') as f: f.readlines()] *)
Definition read_lines (path : string) : Meth (list string) :=
  w <- get_world ;;
  match Dict.get path (files w) with
  | None => raise (Error "FileNotFoundError" ("No such file or directory: " ++ path))
  | Some (Text raw) =>
      match decode raw with
      | Ok text => ret (readlines (universal_newlines text))
      | Raise e => raise e
      end
  | Some (Json doc) => ret (readlines (universal_newlines (json_text doc)))
  end.

(** [get_logs(name, lines)].  A [log_file] that is not a string: a list
    or a dictionary makes [os.path.exists] raise; an integer names a file
    descriptor, and descriptors, which are not part of the world, are
    taken to be closed. *)
Definition get_logs (nm : string) (lines : Z) : Meth string :=
  self <- get_self ;;
  match Dict.get nm (services self) with
  | None => ret ("Service '" ++ nm ++ "' not found")
  | Some service =>
      if negb (truthy (log_file service)) then ret "No logs available"
      else
        match log_file service with
        | VStr path =>
            present <- path_exists path ;;
            if negb present then ret "No logs available"
            else
              try_except
                (all_lines <- read_lines path ;;
                 ret (join (last_lines lines all_lines)))
                any_exception
                (fun e => ret ("Error reading logs: " ++ str_exn e))
        | VList _ | VDict _ =>
            raise (Error "TypeError" "stat: path should be string, bytes, os.PathLike or integer")
        | _ => ret "No logs available"
        end
  end.
End Logs.

End Methods.

(** *** Vocabulary for the properties *)

(** The ["status"] entry of a status report. *)
Definition reported_status (r : result value) : option value :=
  match r with
  | Ok (VDict d) => Dict.get "status" d
  | _ => None
  end.

(** The record [_load_services] builds for the entry [nm : fields] of the
    services file. *)
Definition service_of_fields (nm : string) (fields : Dict.t value) : Service :=
  mkService (Dict.get_default "name" (VStr nm) fields)
            (Dict.get_default "platform" (VStr "unknown") fields)
            (Dict.get_default "command" (VStr "") fields)
            (Dict.get_default "pid" VNone fields)
            "stopped"
            (Dict.get_default "started_at" VNone fields)
            (Dict.get_default "log_file" (VStr "") fields)
            (Dict.get_default "auto_restart" (VBool true) fields)
            0 5.

(** The entries of the ["services"] object of a services file. *)
Definition persisted_entries (c : option file_content) : list (string * value) :=
  match c with
  | Some (Json (VDict top)) =>
      match Dict.get "services" top with
      | Some (VDict entries) => entries
      | _ => []
      end
  | _ => []
  end.

(** The records that loading makes of the entries of a services file: one
    per entry, in the order of the file, up to the first entry that is
    not an object. *)
Fixpoint records_of (entries : list (string * value)) : Dict.t Service :=
  match entries with
  | (nm, VDict fields) :: rest => (nm, service_of_fields nm fields) :: records_of rest
  | _ => []
  end.

(** Launching [service] in world [w] raises [e]: the log cannot be opened,
    or the process cannot be spawned. *)
Definition launch_raises (E : Env) (self : t) (w : world) (nm : string)
    (service : Service) (e : exn) : Prop :=
  let log_path := log_path_of self nm service in
  open_append E w log_path = Some e \/
  (open_append E w log_path = None /\
   spawn E (touch w log_path) (command service) = Raise e).

(** The tracked handle of [nm], if any, polls as running. *)
Definition tracked_running (self : t) (w : world) (nm : string) : bool :=
  match Dict.get nm (processes self) with
  | Some p => poll_is_none w p
  | None => false
  end.

(** The exception, if any, in which the signalling of [stop_service] ends:
    SIGTERM to the group, then SIGKILL when the child is still there after
    the grace period. *)
Definition signalling (E : Env) (w : world) (p : Popen) : option exn :=
  match signal_group E w (popen_pid p) SIGTERM with
  | Some e => Some e
  | None =>
      if poll_is_none w p && negb (exits_in_grace E w (popen_pid p))
      then signal_group E w (popen_pid p) SIGKILL
      else None
  end.

(** The manager after [nm] was stopped: record cleared, handle dropped. *)
Definition stopped (nm : string) (svc : Service) (self : t) : t :=
  set_processes (Dict.del nm (processes self))
    (set_services (Dict.set nm (set_pid VNone (set_status "stopped" svc)) (services self))
       self).

(** What one service sees of the manager: its record and its handle. *)
Definition same_view (nm : string) (a b : t) : Prop :=
  Dict.get nm (services a) = Dict.get nm (services b) /\
  Dict.get nm (processes a) = Dict.get nm (processes b).

(** The calls of a batch, one after the other, none of them raising:
    [threaded call self0 names st outs st'] says that [call], run on the
    names in turn from the state [st], returned the results [outs], in
    that order, and left the state [st'], and that each call found the
    record and the handle of its service as they are in [self0]. *)
Inductive threaded (call : string -> Meth value) (self0 : t)
    : list string -> t * world -> list (string * value) -> t * world -> Prop :=
| threaded_nil (st : t * world) : threaded call self0 [] st [] st
| threaded_cons (nm : string) (rest : list string) (st st1 st' : t * world)
    (r : value) (outs : list (string * value)) :
    same_view nm self0 (fst st) ->
    call nm st = (Ok r, st1) ->
    threaded call self0 rest st1 outs st' ->
    threaded call self0 (nm :: rest) st ((nm, r) :: outs) st'.

(** What a reload makes of a record: the persisted fields as they are,
    status, restart_count and max_restarts as [_load_services] sets them. *)
Definition reloaded (s : Service) : Service :=
  mkService (name s) (platform s) (command s) (pid s) "stopped" (started_at s)
    (log_file s) (auto_restart s) 0 5.

(** The status that the handles and the process table give a service. *)
Definition status_of (self : t) (w : world) (nm : string) : string :=
  match Dict.get nm (processes self) with
  | Some p => if poll_is_none w p then "running" else "crashed"
  | None => "stopped"
  end.

(** The report of [get_service_status] for a record with a given status. *)
Definition report (service : Service) (st : string) : value :=
  VDict [("exists", VBool true);
         ("name", name service);
         ("platform", platform service);
         ("status", VStr st);
         ("pid", pid service);
         ("started_at", started_at service);
         ("restart_count", VInt (restart_count service));
         ("log_file", log_file service)].

(** A record with its status set to what handle and process table give. *)
Definition refreshed (self : t) (w : world) (kv : string * Service) : string * Service :=
  (fst kv, set_status (status_of self w (fst kv)) (snd kv)).

(** The manager built for a directory, with the given dictionaries. *)
Definition at_dir (d : string) (svcs : Dict.t Service) (procs : Dict.t Popen) : t :=
  mk d (path_join d "services.json") (path_join d "logs") svcs procs.

(** Every name with a tracked handle is a registered service. *)
Definition tracked_registered (self : t) : Prop :=
  forall k, Dict.mem k (processes self) = true -> Dict.mem k (services self) = true.

(** No signal call raises on this host, in any world. *)
Definition signals_delivered (E : Env) : Prop :=
  forall w p sig, signal_group E w p sig = None.

(** The world after [_save_services] ran for the manager [self]. *)
Definition saved (E : Env) (self : t) (w : world) : world :=
  mkWorld (Dict.set (services_file self)
             (Json (services_document (services self) (isoformat_at E (ticks w))))
             (files w))
          (S (ticks w)) (running w).

(** The record of a service after a launch that gave the child [child]
    at the clock reading [stamp]. *)
Definition launched (child : Z) (stamp : string) (svc : Service) : Service :=
  set_started_at (VStr stamp) (set_status "running" (set_pid (VInt child) svc)).

(** The manager after that launch of [nm]. *)
Definition started (nm : string) (child : Z) (stamp : string) (svc : Service)
    (self : t) : t :=
  set_services (Dict.set nm (launched child stamp svc) (services self))
    (set_processes (Dict.set nm (mkPopen child) (processes self)) self).

(** The answer of a successful [start_service]. *)
Definition start_answer (nm : string) (child : Z) : value :=
  VDict [("success", VBool true);
         ("pid", VInt child);
         ("message", VStr ("Service '" ++ nm ++ "' started with PID " ++ str_of_int child))].

End ServiceManager.

(** ** soul/session_manager.py *)

(** [@dataclass class PlatformSession] *)
Module PlatformSession.

Record t : Type := mk {
  platform : value;
  credentials : value;
  created_at : value;
  last_used : value;
  is_active : value;
  settings : value;
  metadata : value
}.

Definition set_credentials (v : value) (s : t) : t :=
  mk (platform s) v (created_at s) (last_used s) (is_active s) (settings s) (metadata s).

Definition set_last_used (v : value) (s : t) : t :=
  mk (platform s) (credentials s) (created_at s) v (is_active s) (settings s) (metadata s).

Definition set_is_active (v : value) (s : t) : t :=
  mk (platform s) (credentials s) (created_at s) (last_used s) v (settings s) (metadata s).

Definition set_settings (v : value) (s : t) : t :=
  mk (platform s) (credentials s) (created_at s) (last_used s) (is_active s) v (metadata s).

Definition set_metadata (v : value) (s : t) : t :=
  mk (platform s) (credentials s) (created_at s) (last_used s) (is_active s) (settings s) v.

Definition to_dict (s : t) : value :=
  VDict [("platform", platform s); ("credentials", credentials s);
         ("created_at", created_at s); ("last_used", last_used s);
         ("is_active", is_active s); ("settings", settings s);
         ("metadata", metadata s)].

Definition from_dict {T : Type} (data : value) : M (T * world) t :=
  p <- py_get data "platform" (VStr "unknown") ;;
  c <- py_get data "credentials" (VDict []) ;;
  ca <- py_get data "created_at" (VStr "") ;;
  lu <- py_get data "last_used" (VStr "") ;;
  ia <- py_get data "is_active" (VBool false) ;;
  st <- py_get data "settings" (VDict []) ;;
  md <- py_get data "metadata" (VDict []) ;;
  ret (mk p c ca lu ia st md).

End PlatformSession.

(** [@dataclass class APIKey] *)
Module APIKey.

Record t : Type := mk {
  provider : value;
  key : value;
  added_at : value;
  tokens_used : value;         (* default 0 *)
  tokens_remaining : value;    (* default -1: unknown/unlimited *)
  is_active : value;           (* default True *)
  last_used : value            (* default "" *)
}.

(** [asdict(self)] *)
Definition to_dict (k : t) : value :=
  VDict [("provider", provider k); ("key", key k); ("added_at", added_at k);
         ("tokens_used", tokens_used k); ("tokens_remaining", tokens_remaining k);
         ("is_active", is_active k); ("last_used", last_used k)].

Definition fields : list string :=
  ["provider"; "key"; "added_at"; "tokens_used"; "tokens_remaining";
   "is_active"; "last_used"].

(** The dataclass constructor applied to the entries of [data] as keyword
    arguments: an unknown keyword or a missing [provider], [key] or
    [added_at] is a [TypeError]. *)
Definition from_dict {T : Type} (data : value) : M (T * world) t :=
  match data with
  | VDict kv =>
      if forallb (fun k => existsb (String.eqb k) fields) (Dict.keys kv) then
        match Dict.get "provider" kv, Dict.get "key" kv, Dict.get "added_at" kv with
        | Some p, Some k, Some a =>
            ret (mk p k a
                   (Dict.get_default "tokens_used" (VInt 0) kv)
                   (Dict.get_default "tokens_remaining" (VInt (-1)) kv)
                   (Dict.get_default "is_active" (VBool true) kv)
                   (Dict.get_default "last_used" (VStr "") kv))
        | _, _, _ =>
            raise (Error "TypeError" "__init__() missing required positional arguments")
        end
      else raise (Error "TypeError" "__init__() got an unexpected keyword argument")
  | _ => raise (Error "TypeError" "argument after ** must be a mapping")
  end.

Definition set_last_used (v : value) (k : t) : t :=
  mk (provider k) (key k) (added_at k) (tokens_used k) (tokens_remaining k)
     (is_active k) v.

Definition set_tokens_used (v : value) (k : t) : t :=
  mk (provider k) (key k) (added_at k) v (tokens_remaining k) (is_active k)
     (last_used k).

Definition set_tokens_remaining (v : value) (k : t) : t :=
  mk (provider k) (key k) (added_at k) (tokens_used k) v (is_active k)
     (last_used k).

End APIKey.

Module SessionManager.

Record t : Type := mk {
  sessions_path : string;
  sessions_file : string;
  api_keys_file : string;
  settings_file : string;
  platforms : Dict.t PlatformSession.t;
  api_keys : Dict.t APIKey.t;
  settings : value
}.

Definition Meth (A : Type) : Type := M (t * world) A.

Definition set_platforms (d : Dict.t PlatformSession.t) (self : t) : t :=
  mk (sessions_path self) (sessions_file self) (api_keys_file self)
     (settings_file self) d (api_keys self) (settings self).

Definition set_api_keys (d : Dict.t APIKey.t) (self : t) : t :=
  mk (sessions_path self) (sessions_file self) (api_keys_file self)
     (settings_file self) (platforms self) d (settings self).

Definition set_settings (v : value) (self : t) : t :=
  mk (sessions_path self) (sessions_file self) (api_keys_file self)
     (settings_file self) (platforms self) (api_keys self) v.

(** Assignment to attributes of the object [self.platforms[p]]. *)
Definition update_session (p : string) (f : PlatformSession.t -> PlatformSession.t)
    : Meth unit :=
  self <- get_self ;;
  match Dict.get p (platforms self) with
  | Some s => set_self (set_platforms (Dict.set p (f s) (platforms self)) self)
  | None => ret tt
  end.

(** [target.update(other)] where [target] is an attribute of unknown type. *)
Definition py_update (target : value) (other : Dict.t value) : Meth value :=
  match target with
  | VDict d => ret (VDict (Dict.update d other))
  | _ => raise (Error "AttributeError" "object has no attribute 'update'")
  end.

(** An optional dictionary argument that is neither [None] nor empty. *)
Definition nonempty (d : option (Dict.t value)) : option (Dict.t value) :=
  match d with
  | Some (_ :: _) => d
  | _ => None
  end.

(** [d or {}] for an optional dictionary argument. *)
Definition dict_or_empty (d : option (Dict.t value)) : value :=
  match nonempty d with
  | Some kv => VDict kv
  | None => VDict []
  end.

Section Methods.
Variable E : Env.

Definition load_platform (entry : string * value) : Meth unit :=
  let (p, session_data) := entry in
  s <- PlatformSession.from_dict session_data ;;
  self <- get_self ;;
  set_self (set_platforms (Dict.set p s (platforms self)) self).

Definition load_api_key (entry : string * value) : Meth unit :=
  let (p, key_data) := entry in
  k <- APIKey.from_dict key_data ;;
  self <- get_self ;;
  set_self (set_api_keys (Dict.set p k (api_keys self)) self).

(** The three blocks of [_load_all], in the order of the source:
    "# Load platforms", "# Load API keys", "# Load settings". *)
Definition load_platforms_block : Meth unit :=
  self <- get_self ;;
  present <- path_exists (sessions_file self) ;;
  if present then
    try_except
      (data <- json_load_file (sessions_file self) ;;
       ps <- py_get data "platforms" (VDict []) ;;
       items <- py_items ps ;;
       for_each items load_platform)
      any_exception
      (fun e => ret tt)
  else ret tt.

Definition load_api_keys_block : Meth unit :=
  self <- get_self ;;
  present <- path_exists (api_keys_file self) ;;
  if present then
    try_except
      (data <- json_load_file (api_keys_file self) ;;
       ks <- py_get data "keys" (VDict []) ;;
       items <- py_items ks ;;
       for_each items load_api_key)
      any_exception
      (fun e => ret tt)
  else ret tt.

Definition load_settings_block : Meth unit :=
  self <- get_self ;;
  present <- path_exists (settings_file self) ;;
  if present then
    try_except
      (data <- json_load_file (settings_file self) ;;
       self1 <- get_self ;;
       set_self (set_settings data self1))
      any_exception
      (fun e => ret tt)
  else ret tt.

Definition _load_all : Meth unit :=
  load_platforms_block ;;;
  load_api_keys_block ;;;
  load_settings_block.

(** [SessionManager(sessions_path)]; the directory is taken to be
    creatable ([os.makedirs(..., exist_ok=True)]). *)
Definition __init__ (dir : option string) (w : world) : result t * world :=
  let d := dir_or_default E dir "sessions" in
  let self := mk d (path_join d "platforms.json") (path_join d "api_keys.json")
                 (path_join d "settings.json") Dict.empty Dict.empty (VDict []) in
  match _load_all (self, w) with
  | (Ok _, (self', w')) => (Ok self', w')
  | (Raise e, (_, w')) => (Raise e, w')
  end.

Definition _save_platforms : Meth unit :=
  self <- get_self ;;
  stamp <- now_isoformat E ;;
  json_dump_file (sessions_file self)
    (VDict [("platforms",
             VDict (map (fun kv => (fst kv, PlatformSession.to_dict (snd kv))) (platforms self)));
            ("last_saved", VStr stamp)]).

Definition _save_api_keys : Meth unit :=
  self <- get_self ;;
  stamp <- now_isoformat E ;;
  json_dump_file (api_keys_file self)
    (VDict [("keys",
             VDict (map (fun kv => (fst kv, APIKey.to_dict (snd kv))) (api_keys self)));
            ("last_saved", VStr stamp)]).

(** [if other: session.<field>.update(other)].  The records of this module
    hold their dictionaries by value: the merge is right for a record
    whose dictionaries are not shared with another name.  What the call
    does to a dictionary object that is reachable under two names is
    modelled in [Module Shared] below. *)
Definition merge_into (p : string) (field : PlatformSession.t -> value)
    (set_field : value -> PlatformSession.t -> PlatformSession.t)
    (other : option (Dict.t value)) : Meth unit :=
  match nonempty other with
  | Some kv =>
      self <- get_self ;;
      match Dict.get p (platforms self) with
      | Some s =>
          merged <- py_update (field s) kv ;;
          update_session p (set_field merged)
      | None => ret tt
      end
  | None => ret tt
  end.

Definition save_platform (p : string) (creds : Dict.t value)
    (sett meta : option (Dict.t value)) : Meth PlatformSession.t :=
  stamp <- now_isoformat E ;;
  self <- get_self ;;
  (if Dict.mem p (platforms self) then
     update_session p (PlatformSession.set_credentials (VDict creds)) ;;;
     update_session p (PlatformSession.set_last_used (VStr stamp)) ;;;
     update_session p (PlatformSession.set_is_active (VBool true)) ;;;
     merge_into p PlatformSession.settings PlatformSession.set_settings sett ;;;
     merge_into p PlatformSession.metadata PlatformSession.set_metadata meta
   else
     let session := PlatformSession.mk (VStr p) (VDict creds) (VStr stamp) (VStr stamp)
                      (VBool true) (dict_or_empty sett) (dict_or_empty meta) in
     set_self (set_platforms (Dict.set p session (platforms self)) self)) ;;;
  _save_platforms ;;;
  self1 <- get_self ;;
  match Dict.get p (platforms self1) with
  | Some session => ret session
  | None => raise (Error "KeyError" p)
  end.

Definition get_platform (p : string) : Meth (option PlatformSession.t) :=
  self <- get_self ;; ret (Dict.get p (platforms self)).

Definition has_platform (p : string) : Meth bool :=
  self <- get_self ;;
  ret match Dict.get p (platforms self) with
      | Some s => truthy (PlatformSession.is_active s)
      | None => false
      end.

Definition list_platforms : Meth (list string) :=
  self <- get_self ;;
  ret (map fst (filter (fun kv => truthy (PlatformSession.is_active (snd kv))) (platforms self))).

Definition deactivate_platform (p : string) : Meth unit :=
  self <- get_self ;;
  if Dict.mem p (platforms self) then
    update_session p (PlatformSession.set_is_active (VBool false)) ;;; _save_platforms
  else ret tt.

Definition delete_platform (p : string) : Meth unit :=
  self <- get_self ;;
  if Dict.mem p (platforms self) then
    set_self (set_platforms (Dict.del p (platforms self)) self) ;;; _save_platforms
  else ret tt.

Definition save_api_key (prov k : string) : Meth APIKey.t :=
  stamp <- now_isoformat E ;;
  let api_key := APIKey.mk (VStr prov) (VStr k) (VStr stamp) (VInt 0) (VInt (-1))
                          (VBool true) (VStr stamp) in
  self <- get_self ;;
  set_self (set_api_keys (Dict.set prov api_key (api_keys self)) self) ;;;
  _save_api_keys ;;;
  ret api_key.

(** Assignment to attributes of the object [self.api_keys[prov]]. *)
Definition update_api_key (prov : string) (f : APIKey.t -> APIKey.t) : Meth unit :=
  self <- get_self ;;
  match Dict.get prov (api_keys self) with
  | Some k => set_self (set_api_keys (Dict.set prov (f k) (api_keys self)) self)
  | None => ret tt
  end.

Definition get_all_credentials : Meth (Dict.t value) :=
  self <- get_self ;;
  ret (map (fun kv => (fst kv, PlatformSession.credentials (snd kv)))
           (filter (fun kv => truthy (PlatformSession.is_active (snd kv)))
                   (platforms self))).

(** Returns the key, or [None]. *)
Definition get_api_key (prov : string) : Meth value :=
  self <- get_self ;;
  match Dict.get prov (api_keys self) with
  | Some k =>
      if truthy (APIKey.is_active k) then
        stamp <- now_isoformat E ;;
        update_api_key prov (APIKey.set_last_used (VStr stamp)) ;;;
        _save_api_keys ;;;
        ret (APIKey.key k)
      else ret VNone
  | None => ret VNone
  end.

Definition has_api_key (prov : string) : Meth bool :=
  self <- get_self ;;
  ret match Dict.get prov (api_keys self) with
      | Some k => truthy (APIKey.is_active k)
      | None => false
      end.

(** [x += n] for an attribute of unknown type and an integer [n]. *)
Definition py_iadd_int (x : value) (n : Z) : Meth value :=
  match x with
  | VInt a => ret (VInt (a + n))
  | VBool b => ret (VInt ((if b then 1 else 0) + n))
  | _ => raise (Error "TypeError" "unsupported operand type(s) for +=")
  end.

(** [update_token_usage(provider, tokens_used, remaining=-1)] *)
Definition update_token_usage (prov : string) (used : Z) (remaining : option Z)
    : Meth unit :=
  let remaining := match remaining with Some r => r | None => -1 end in
  self <- get_self ;;
  match Dict.get prov (api_keys self) with
  | Some k =>
      total <- py_iadd_int (APIKey.tokens_used k) used ;;
      update_api_key prov (APIKey.set_tokens_used total) ;;;
      update_api_key prov (APIKey.set_tokens_remaining (VInt remaining)) ;;;
      _save_api_keys
  | None => ret tt
  end.

Definition list_api_keys : Meth (list value) :=
  self <- get_self ;;
  ret (map (fun kv =>
              VDict [("provider", VStr (fst kv));
                     ("added_at", APIKey.added_at (snd kv));
                     ("tokens_used", APIKey.tokens_used (snd kv));
                     ("tokens_remaining", APIKey.tokens_remaining (snd kv));
                     ("is_active", APIKey.is_active (snd kv))])
           (api_keys self)).

Definition _save_settings : Meth unit :=
  self <- get_self ;;
  json_dump_file (settings_file self) (settings self).

(** [target[key] = v] where [target] is an attribute of unknown type. *)
Definition py_setitem (target : value) (k : string) (v : value) : Meth value :=
  match target with
  | VDict d => ret (VDict (Dict.set k v d))
  | _ => raise (Error "TypeError" "object does not support item assignment")
  end.

Definition save_setting (k : string) (v : value) : Meth unit :=
  self <- get_self ;;
  updated <- py_setitem (settings self) k v ;;
  set_self (set_settings updated self) ;;;
  _save_settings.

(** [get_setting(key, default=None)] *)
Definition get_setting (k : string) (default : value) : Meth value :=
  self <- get_self ;;
  py_get (settings self) k default.

End Methods.

(** *** Vocabulary for the properties *)

(** The dictionary a caller supplied for an optional argument. *)
Definition supplied (d : option (Dict.t value)) : Dict.t value :=
  match d with
  | Some kv => kv
  | None => []
  end.

(** The store built for a directory, with the given contents. *)
Definition at_dir (d : string) (ps : Dict.t PlatformSession.t) (ks : Dict.t APIKey.t)
    (st : value) : t :=
  mk d (path_join d "platforms.json") (path_join d "api_keys.json")
     (path_join d "settings.json") ps ks st.

(** The world after [_save_api_keys] ran for the store [self]. *)
Definition keys_saved (E : Env) (self : t) (w : world) : world :=
  mkWorld (Dict.set (api_keys_file self)
             (Json (VDict [("keys",
                            VDict (map (fun kv => (fst kv, APIKey.to_dict (snd kv)))
                                       (api_keys self)));
                           ("last_saved", VStr (isoformat_at E (ticks w)))]))
             (files w))
          (S (ticks w)) (running w).

(** The world after [_save_platforms] ran for the store [self]. *)
Definition platforms_saved (E : Env) (self : t) (w : world) : world :=
  mkWorld (Dict.set (sessions_file self)
             (Json (VDict [("platforms",
                            VDict (map (fun kv => (fst kv, PlatformSession.to_dict (snd kv)))
                                       (platforms self)));
                           ("last_saved", VStr (isoformat_at E (ticks w)))]))
             (files w))
          (S (ticks w)) (running w).

(** The session [s], whose settings and metadata are [s0] and [m0], after
    a save at time [stamp] with the given arguments. *)
Definition merged (s : PlatformSession.t) (s0 m0 : Dict.t value) (stamp : value)
    (creds : Dict.t value) (sett meta : option (Dict.t value)) : PlatformSession.t :=
  PlatformSession.mk (PlatformSession.platform s) (VDict creds)
    (PlatformSession.created_at s) stamp (VBool true)
    (VDict (Dict.update s0 (supplied sett)))
    (VDict (Dict.update m0 (supplied meta))).

End SessionManager.

(** ** Dictionaries as objects

    [save_platform] keeps the dictionaries it is given, not copies of
    them, and merges into the stored ones in place.  Where one dictionary
    is reachable under two names (two fields of a record, a field and an
    argument), a record that holds its dictionaries by value cannot tell
    what the call does.  In this module the dictionaries of the platform
    sessions are objects of a heap and the records hold references to
    them; settings and metadata are dictionaries, as the dataclass
    declares them. *)
Module Shared.

Definition ref : Type := nat.

(** The dictionary objects, by address. *)
Definition heap : Type := list (Dict.t value).

Definition at_ref (h : heap) (r : ref) : Dict.t value := nth r h [].

Fixpoint assign (h : heap) (r : ref) (d : Dict.t value) : heap :=
  match h, r with
  | [], _ => []
  | _ :: rest, O => d :: rest
  | x :: rest, S r' => x :: assign rest r' d
  end.

(** A [PlatformSession] object. *)
Record session : Type := mkSession {
  platform : value;
  credentials : ref;
  created_at : value;
  last_used : value;
  is_active : value;
  settings : ref;
  metadata : ref
}.

(** The part of a [SessionManager] that [save_platform] works on. *)
Record t : Type := mk {
  sessions_file : string;
  platforms : Dict.t session;
  objects : heap
}.

Definition Meth (A : Type) : Type := M (t * world) A.

(** The record as a reader of its attributes sees it now. *)
Definition view (h : heap) (s : session) : PlatformSession.t :=
  PlatformSession.mk (platform s) (VDict (at_ref h (credentials s))) (created_at s)
    (last_used s) (is_active s) (VDict (at_ref h (settings s)))
    (VDict (at_ref h (metadata s))).

Section Methods.
Variable E : Env.

Definition _save_platforms : Meth unit :=
  self <- get_self ;;
  stamp <- now_isoformat E ;;
  json_dump_file (sessions_file self)
    (VDict [("platforms",
             VDict (map (fun kv => (fst kv,
                                    PlatformSession.to_dict (view (objects self) (snd kv))))
                        (platforms self)));
            ("last_saved", VStr stamp)]).

(** [{}]: a new, empty dictionary. *)
Definition new_dict : Meth ref :=
  self <- get_self ;;
  set_self (mk (sessions_file self) (platforms self) (objects self ++ [[]])%list) ;;;
  ret (List.length (objects self)).

(** [other or {}] *)
Definition or_new_dict (other : option ref) : Meth ref :=
  self <- get_self ;;
  match other with
  | Some r => if truthy (VDict (at_ref (objects self) r)) then ret r else new_dict
  | None => new_dict
  end.

(** [if other: target.update(other)] *)
Definition update_if_given (target : ref) (other : option ref) : Meth unit :=
  self <- get_self ;;
  match other with
  | Some r =>
      let h := objects self in
      if truthy (VDict (at_ref h r)) then
        set_self (mk (sessions_file self) (platforms self)
                     (assign h target (Dict.update (at_ref h target) (at_ref h r))))
      else ret tt
  | None => ret tt
  end.

(** [self.platforms[p] = s], and the assignments to the attributes of the
    object [self.platforms[p]]. *)
Definition set_session (p : string) (s : session) : Meth unit :=
  self <- get_self ;;
  set_self (mk (sessions_file self) (Dict.set p s (platforms self)) (objects self)).

Definition save_platform (p : string) (creds : ref) (sett meta : option ref)
    : Meth session :=
  stamp <- now_isoformat E ;;
  self <- get_self ;;
  session <-
    match Dict.get p (platforms self) with
    | Some s =>
        let s1 := mkSession (platform s) creds (created_at s) (VStr stamp) (VBool true)
                            (settings s) (metadata s) in
        set_session p s1 ;;;
        update_if_given (settings s) sett ;;;
        update_if_given (metadata s) meta ;;;
        ret s1
    | None =>
        sl <- or_new_dict sett ;;
        ml <- or_new_dict meta ;;
        ret (mkSession (VStr p) creds (VStr stamp) (VStr stamp) (VBool true) sl ml)
    end ;;
  set_session p session ;;;
  _save_platforms ;;;
  ret session.

End Methods.

(** *** Vocabulary for the properties *)

(** The dictionary an optional argument refers to; empty when there is
    none. *)
Definition given (h : heap) (other : option ref) : Dict.t value :=
  match other with
  | Some r => at_ref h r
  | None => []
  end.

(** The heap after [if other: target.update(other)]. *)
Definition merged_into (h : heap) (target : ref) (other : option ref) : heap :=
  match other with
  | Some r =>
      if truthy (VDict (at_ref h r))
      then assign h target (Dict.update (at_ref h target) (at_ref h r))
      else h
  | None => h
  end.

(** The reference names an object of the heap. *)
Definition allocated (h : heap) (r : ref) : Prop := (r < List.length h)%nat.

Definition allocated_if_given (h : heap) (other : option ref) : Prop :=
  match other with
  | Some r => allocated h r
  | None => True
  end.

(** The platforms file as [_save_platforms] writes it. *)
Definition platforms_document (self : t) (stamp : string) : value :=
  VDict [("platforms",
          VDict (map (fun kv => (fst kv,
                                 PlatformSession.to_dict (view (objects self) (snd kv))))
                     (platforms self)));
         ("last_saved", VStr stamp)].

End Shared.

(** [class AutoConnector].  A connection handler is taken by what it
    returns or raises for the credentials it is given; what else it does
    is not modelled. *)
Module AutoConnector.

Definition handler : Type := value -> result value.

Record t : Type := mk {
  session_manager : SessionManager.t;
  connection_handlers : Dict.t handler
}.

Definition Meth (A : Type) : Type := M (t * world) A.


Definition register_handler (p : string) (h : handler) : Meth unit :=
  self <- get_self ;;
  set_self (mk (session_manager self) (Dict.set p h (connection_handlers self))).









End AutoConnector.

(** The two session methods of [class AnubisSoul] (soul/core.py), on the
    store the object holds in [self.sessions]. *)
Module AnubisSoul.
Section Methods.
Variable E : Env.



End Methods.
End AnubisSoul.

(** ** Sample hosts and states

    Concrete environments and objects on which the properties below are
    evaluated. *)

Module Samples.
Import ServiceManager.

Definition clock (n : nat) : string := "2024-05-01T12:00:0" ++ str_of_int (Z.of_nat n).

(** A host on which everything works: logs open, commands spawn, signals
    are delivered and children exit on SIGTERM. *)
Definition calm : Env :=
  mkEnv "/opt/anubis" clock
        (fun _ _ => None)
        (fun w _ => Ok (4000 + Z.of_nat (List.length (running w))))
        (fun _ _ _ => None)
        (fun _ _ => true).

(** A host that refuses to spawn. *)
Definition no_fork : Env :=
  mkEnv "/opt/anubis" clock
        (fun _ _ => None)
        (fun _ _ => Raise (Error "OSError" "[Errno 11] Resource temporarily unavailable"))
        (fun _ _ _ => None)
        (fun _ _ => true).

(** A host on which signalling the process group raises. *)
Definition no_signal : Env :=
  mkEnv "/opt/anubis" clock
        (fun _ _ => None)
        (fun w _ => Ok (4000 + Z.of_nat (List.length (running w))))
        (fun _ _ _ => Some (Error "PermissionError" "[Errno 1] Operation not permitted"))
        (fun _ _ => true).

(** A host whose children ignore SIGTERM. *)
Definition stubborn : Env :=
  mkEnv "/opt/anubis" clock
        (fun _ _ => None)
        (fun w _ => Ok (4000 + Z.of_nat (List.length (running w))))
        (fun _ _ _ => None)
        (fun _ _ => false).

Definition bot : Service :=
  mkService (VStr "bot") (VStr "telegram") (VStr "python3 bot.py") (VInt 4242)
            "running" (VStr "2024-05-01T11:59:00") (VStr "/srv/logs/bot.log")
            (VBool true) 0 5.

Definition idle_bot : Service :=
  mkService (VStr "bot") (VStr "telegram") (VStr "python3 bot.py") VNone
            "stopped" VNone (VStr "/srv/logs/bot.log") (VBool true) 0 5.

Definition crashed_bot : Service := set_status "crashed" idle_bot.

Definition manager (svcs : Dict.t Service) (procs : Dict.t Popen) : ServiceManager.t :=
  ServiceManager.mk "/srv" "/srv/services.json" "/srv/logs" svcs procs.

(** One service, started, its child 4242 alive. *)
Definition manager_running : ServiceManager.t :=
  manager [("bot", bot)] [("bot", mkPopen 4242)].

Definition world_running : world := mkWorld [] 0 [4242].

(** One service, registered and never started. *)
Definition manager_idle : ServiceManager.t := manager [("bot", idle_bot)] [].

(** One service whose last launch failed. *)
Definition manager_crashed : ServiceManager.t := manager [("bot", crashed_bot)] [].

Definition world_quiet : world := mkWorld [] 0 [].

(** A services file as [_save_services] leaves it while [bot] runs. *)
Definition saved_services : value :=
  services_document [("bot", bot)] "2024-05-01T11:59:01".

Definition world_saved : world :=
  mkWorld [("/srv/services.json", Json saved_services)] 0 [].

(** A services file whose second entry is not an object; the first one
    carries a status and counters of its own. *)
Definition world_services_damaged : world :=
  mkWorld [("/srv/services.json",
            Json (VDict [("services",
                          VDict [("alpha", VDict [("command", VStr "sleep 30");
                                                  ("pid", VInt 77);
                                                  ("status", VStr "running");
                                                  ("restart_count", VInt 7);
                                                  ("max_restarts", VInt 9)]);
                                 ("bad", VInt 5);
                                 ("gamma", VDict [("command", VStr "sleep 30")])])]))]
          0 [].

Definition world_garbled : world :=
  mkWorld [("/srv/services.json", Text "{ services: ");
           ("/srv/platforms.json", Text "<html>");
           ("/srv/api_keys.json", Text "")] 0 [].

(** A host as any is for a command that is not a sequence:
    [Popen(None, shell=True)] raises a [TypeError]. *)
Definition picky : Env :=
  mkEnv "/opt/anubis" clock
        (fun _ _ => None)
        (fun w cmd =>
           match cmd with
           | VNone => Raise (Error "TypeError" "'NoneType' object is not iterable")
           | VBool _ => Raise (Error "TypeError" "'bool' object is not iterable")
           | VInt _ => Raise (Error "TypeError" "'int' object is not iterable")
           | _ => Ok (4000 + Z.of_nat (List.length (running w)))
           end)
        (fun _ _ _ => None)
        (fun _ _ => true).

Definition idle (nm cmd : string) : Service :=
  mkService (VStr nm) (VStr "telegram") (VStr cmd) VNone "stopped" VNone
            (VStr ("/srv/logs/" ++ nm ++ ".log")) (VBool true) 0 5.

(** A service as a services file with a null command loads it. *)
Definition no_command (nm : string) : Service :=
  mkService (VStr nm) (VStr "telegram") VNone VNone "stopped" VNone
            (VStr ("/srv/logs/" ++ nm ++ ".log")) (VBool true) 0 5.

(** Three registered services, the second without a command; none
    started. *)
Definition manager_trio : ServiceManager.t :=
  manager [("alpha", idle "alpha" "sleep 9999");
           ("broken", no_command "broken");
           ("gamma", idle "gamma" "sleep 9999")] [].

(** A host on which signalling a process that is gone raises. *)
Definition lookup : Env :=
  mkEnv "/opt/anubis" clock
        (fun _ _ => None)
        (fun w _ => Ok (4000 + Z.of_nat (List.length (running w))))
        (fun w p _ =>
           if existsb (Z.eqb p) (running w) then None
           else Some (Error "ProcessLookupError" "[Errno 3] No such process"))
        (fun _ _ => true).

Definition started_as (nm : string) (p : Z) : Service :=
  mkService (VStr nm) (VStr "telegram") (VStr "sleep 9999") (VInt p) "running"
            (VStr "2024-05-01T11:59:00") (VStr ("/srv/logs/" ++ nm ++ ".log"))
            (VBool true) 0 5.

(** Two services with tracked handles; the child of the first is gone. *)
Definition manager_pair : ServiceManager.t :=
  manager [("alpha", started_as "alpha" 4000); ("gamma", started_as "gamma" 4001)]
          [("alpha", mkPopen 4000); ("gamma", mkPopen 4001)].

Definition world_pair : world := mkWorld [] 0 [4001].

(** Both children running. *)
Definition world_pair_live : world := mkWorld [] 0 [4000; 4001].

(** A credential store with one platform. *)
Definition telegram_session : PlatformSession.t :=
  PlatformSession.mk (VStr "telegram")
    (VDict [("token", VStr "A")]) (VStr "2024-04-30T08:00:00")
    (VStr "2024-04-30T08:00:00") (VBool false)
    (VDict [("parse_mode", VStr "html")]) (VDict [("x", VInt 1)]).

Definition openai_key : APIKey.t :=
  APIKey.mk (VStr "openai") (VStr "sk-old") (VStr "2024-01-01T00:00:00")
    (VInt 1500) (VInt 8500) (VBool false) (VStr "2024-04-01T00:00:00").

Definition store (ps : Dict.t PlatformSession.t)
    (ks : Dict.t APIKey.t) : SessionManager.t :=
  SessionManager.mk "/srv" "/srv/platforms.json" "/srv/api_keys.json"
    "/srv/settings.json" ps ks (VDict []).

Definition store_one : SessionManager.t :=
  store [("telegram", telegram_session)] [("openai", openai_key)].

Definition store_empty : SessionManager.t := store [] [].

(** Constructing both stores over the unparsable files. *)
Definition init_services : result ServiceManager.t * world :=
  ServiceManager.__init__ calm (Some "/srv") world_garbled.

Definition init_sessions : result SessionManager.t * world :=
  SessionManager.__init__ calm (Some "/srv") world_garbled.

(** A log of three lines, the second ended by a carriage return and a
    line feed. *)
Definition bot_log : string :=
  "boot" ++ String LF ("ready" ++ String CR (String LF ("tick" ++ String LF ""))).

Definition world_logged : world :=
  mkWorld [("/srv/logs/bot.log", Text bot_log)] 0 [4242].

Definition permission_denied : exn :=
  Error "PermissionError" "[Errno 1] Operation not permitted".

(** A second platform, in use. *)
Definition discord_session : PlatformSession.t :=
  PlatformSession.mk (VStr "discord")
    (VDict [("token", VStr "D")]) (VStr "2024-04-30T09:00:00")
    (VStr "2024-04-30T09:30:00") (VBool true) (VDict []) (VDict []).

Definition matrix_session : PlatformSession.t :=
  PlatformSession.mk (VStr "matrix")
    (VDict [("token", VStr "M")]) (VStr "2024-04-30T10:00:00")
    (VStr "2024-04-30T10:30:00") (VBool true) (VDict []) (VDict []).

(** Three platforms, the first one deactivated. *)
Definition store_three : SessionManager.t :=
  store [("telegram", telegram_session); ("discord", discord_session);
         ("matrix", matrix_session)]
        [("openai", openai_key)].


(** A keys file whose second entry has no "key" field. *)
Definition groq_key : APIKey.t :=
  APIKey.mk (VStr "groq") (VStr "gsk-1") (VStr "2024-02-01T00:00:00")
    (VInt 0) (VInt (-1)) (VBool true) (VStr "").

Definition world_keys_damaged : world :=
  mkWorld [("/srv/api_keys.json",
            Json (VDict [("keys",
                          VDict [("openai", APIKey.to_dict openai_key);
                                 ("mistral", VDict [("provider", VStr "mistral")]);
                                 ("groq", APIKey.to_dict groq_key)])]))] 0 [].

(** A later world in which the child 4000 still runs, and one in which it
    has exited. *)
Definition world_later : world := mkWorld [] 7 [4000].
Definition world_after_exit : world := mkWorld [] 7 [].

(** A host locale whose encoding is ASCII. *)
Definition ascii_codec (raw : string) : result string :=
  if forallb (fun c => (nat_of_ascii c <? 128)%nat) (list_ascii_of_string raw)
  then Ok raw
  else Raise (Error "UnicodeDecodeError"
                "'ascii' codec can't decode byte: ordinal not in range(128)").

(** A log with a byte that is not ASCII. *)
Definition world_logged_binary : world :=
  mkWorld [("/srv/logs/bot.log", Text ("boot" ++ String "255"%char ""))] 0 [4242].

(** The dictionaries of a caller of [save_platform], as objects. *)
Definition caller_dicts : Shared.heap :=
  [ [("token", VStr "A")]; [("x", VInt 1)]; [("token", VStr "B")]; [("y", VInt 2)] ].

Definition shared_empty : Shared.t := Shared.mk "/srv/platforms.json" [] caller_dicts.

(** A store with one record whose three dictionaries are three objects
    (0, 1 and 2); objects 3 and 4 are dictionaries of the caller. *)
Definition shared_telegram : Shared.session :=
  Shared.mkSession (VStr "telegram") 0%nat (VStr "2024-04-30T08:00:00")
    (VStr "2024-04-30T08:00:00") (VBool false) 1%nat 2%nat.

Definition shared_store : Shared.t :=
  Shared.mk "/srv/platforms.json" [("telegram", shared_telegram)]
    [ [("token", VStr "A")]; [("parse_mode", VStr "html")]; [("x", VInt 1)];
      [("token", VStr "B")]; [("y", VInt 2)] ].


(** A settings file that holds a list. *)
Definition world_settings_list : world :=
  mkWorld [("/srv/settings.json", Json (VList [VStr "dark"]))] 0 [].

End Samples.

(** * Properties *)

(** ** Dictionaries *)

Module DictFacts.

Lemma get_set_eq {V : Type} (k : string) (v : V) (d : Dict.t V) :
  Dict.get k (Dict.set k v d) = Some v.
Proof.
  induction d as [|[k' v'] d IH]; simpl.
  - now rewrite String.eqb_refl.
  - destruct (k =? k')%string eqn:Hk; simpl; rewrite ?String.eqb_refl, ?Hk; auto.
Qed.

Lemma get_set_ne {V : Type} (k k' : string) (v : V) (d : Dict.t V) :
  k <> k' -> Dict.get k' (Dict.set k v d) = Dict.get k' d.
Proof.
  intros Hne. apply String.eqb_neq in Hne.
  induction d as [|[k0 v0] d IH]; simpl.
  - rewrite String.eqb_sym. now rewrite Hne.
  - destruct (k =? k0)%string eqn:Hk; simpl.
    + apply String.eqb_eq in Hk. subst k0.
      rewrite String.eqb_sym. now rewrite Hne.
    + now rewrite IH.
Qed.

Lemma set_set {V : Type} (k : string) (v v' : V) (d : Dict.t V) :
  Dict.set k v (Dict.set k v' d) = Dict.set k v d.
Proof.
  induction d as [|[k0 v0] d IH]; simpl.
  - now rewrite String.eqb_refl.
  - destruct (k =? k0)%string eqn:Hk; simpl; rewrite ?String.eqb_refl, ?Hk; auto.
    now rewrite IH.
Qed.

Lemma set_same {V : Type} (k : string) (v : V) (d : Dict.t V) :
  Dict.get k d = Some v -> Dict.set k v d = d.
Proof.
  induction d as [|[k0 v0] d IH]; simpl; [discriminate|].
  destruct (k =? k0)%string eqn:Hk.
  - apply String.eqb_eq in Hk. intros [= ->]. now subst.
  - intros H. now rewrite IH.
Qed.

Lemma get_del_eq {V : Type} (k : string) (d : Dict.t V) :
  Dict.get k (Dict.del k d) = None.
Proof.
  induction d as [|[k' v'] d IH]; simpl; auto.
  destruct (k =? k')%string eqn:Hk; simpl; rewrite ?Hk; auto.
Qed.

Lemma get_del_ne {V : Type} (k k' : string) (d : Dict.t V) :
  k <> k' -> Dict.get k' (Dict.del k d) = Dict.get k' d.
Proof.
  intros Hne. apply String.eqb_neq in Hne.
  induction d as [|[k0 v0] d IH]; simpl; auto.
  destruct (k =? k0)%string eqn:Hk; simpl.
  - apply String.eqb_eq in Hk. subst k0.
    rewrite String.eqb_sym, Hne. exact IH.
  - now rewrite IH.
Qed.

Lemma keys_set_present {V : Type} (k : string) (v : V) (d : Dict.t V) :
  Dict.mem k d = true -> Dict.keys (Dict.set k v d) = Dict.keys d.
Proof.
  unfold Dict.mem, Dict.keys.
  induction d as [|[k' v'] d IH]; simpl; [discriminate|].
  destruct (k =? k')%string eqn:Hk; simpl; intros H.
  - apply String.eqb_eq in Hk. now subst.
  - now rewrite IH.
Qed.

Lemma mem_get {V : Type} (k : string) (d : Dict.t V) (v : V) :
  Dict.get k d = Some v -> Dict.mem k d = true.
Proof. unfold Dict.mem. now intros ->. Qed.

Lemma mem_keys {V : Type} (k : string) (d : Dict.t V) :
  Dict.mem k d = true <-> In k (Dict.keys d).
Proof.
  unfold Dict.mem, Dict.keys.
  induction d as [|[k' v'] d IH]; simpl.
  - split; [discriminate | tauto].
  - destruct (k =? k')%string eqn:Hk.
    + apply String.eqb_eq in Hk. subst. tauto.
    + apply String.eqb_neq in Hk. rewrite IH. split; [tauto|].
      intros [H|H]; [congruence | exact H].
Qed.

Lemma get_in {V : Type} (k : string) (v : V) (d : Dict.t V) :
  Dict.get k d = Some v -> In (k, v) d.
Proof.
  induction d as [|[k' v'] d IH]; simpl; [discriminate|].
  destruct (k =? k')%string eqn:Hk.
  - apply String.eqb_eq in Hk. intros [= ->]. subst. now left.
  - intros H. right. now apply IH.
Qed.

Lemma in_get {V : Type} (k : string) (v : V) (d : Dict.t V) :
  NoDup (Dict.keys d) -> In (k, v) d -> Dict.get k d = Some v.
Proof.
  unfold Dict.keys.
  induction d as [|[k' v'] d IH]; simpl; [tauto|].
  intros Hnd [H|H].
  - injection H as -> ->. now rewrite String.eqb_refl.
  - inversion Hnd as [|? ? Hnotin Hnd']; subst.
    destruct (k =? k')%string eqn:Hk.
    + apply String.eqb_eq in Hk. subst k'.
      exfalso. apply Hnotin. apply in_map_iff. now exists (k, v).
    + now apply IH.
Qed.

(** [d.update(other)]: the keys of [other] win, the others are kept. *)
Lemma get_update_rev {V : Type} (k : string) (d other : Dict.t V) :
  Dict.get k (Dict.update d other) =
  match Dict.get k (rev other) with
  | Some v => Some v
  | None => Dict.get k d
  end.
Proof.
  unfold Dict.update.
  rewrite <- (fold_left_rev_right (fun kv acc => Dict.set (fst kv) (snd kv) acc)).
  induction (rev other) as [|[k' v'] o IH]; simpl; auto.
  destruct (k =? k')%string eqn:Hk.
  - apply String.eqb_eq in Hk. subst k'. apply get_set_eq.
  - apply String.eqb_neq in Hk. rewrite get_set_ne by congruence. exact IH.
Qed.

Lemma get_rev {V : Type} (k : string) (d : Dict.t V) :
  NoDup (Dict.keys d) -> Dict.get k (rev d) = Dict.get k d.
Proof.
  intros Hnd.
  assert (Hnd' : NoDup (Dict.keys (rev d))).
  { unfold Dict.keys. rewrite map_rev. now apply NoDup_rev. }
  destruct (Dict.get k d) as [v|] eqn:Hg.
  - apply in_get; auto. apply in_rev. rewrite rev_involutive. now apply get_in.
  - destruct (Dict.get k (rev d)) as [v|] eqn:Hr; auto.
    apply get_in in Hr. apply in_rev in Hr.
    apply (in_get _ _ _ Hnd) in Hr. congruence.
Qed.

Lemma get_update {V : Type} (k : string) (d other : Dict.t V) :
  NoDup (Dict.keys other) ->
  Dict.get k (Dict.update d other) =
  match Dict.get k other with
  | Some v => Some v
  | None => Dict.get k d
  end.
Proof. intros Hnd. rewrite get_update_rev. now rewrite get_rev. Qed.

End DictFacts.

(** ** Running a method *)

Create HintDb meth.
#[local] Hint Unfold bind ret raise try_except get_self set_self get_world set_world
  now_isoformat path_exists json_load_file json_dump_file any_exception : meth.

Ltac run_meth := autounfold with meth; cbn.

Lemma bind_ok {S A B : Type} (m : M S A) (k : A -> M S B) (s s' : S) (a : A) :
  m s = (Ok a, s') -> bind m k s = k a s'.
Proof. unfold bind. now intros ->. Qed.

Lemma bind_raise {S A B : Type} (m : M S A) (k : A -> M S B) (s s' : S) (e : exn) :
  m s = (Raise e, s') -> bind m k s = (Raise e, s').
Proof. unfold bind. now intros ->. Qed.

Ltac step H := erewrite bind_ok; [| exact H].

(** ** More on dictionaries and text *)

Lemma dict_get_none_keys {V : Type} (k : string) (d : Dict.t V) :
  Dict.get k d = None <-> ~ In k (Dict.keys d).
Proof.
  rewrite <- DictFacts.mem_keys. unfold Dict.mem.
  destruct (Dict.get k d); split; intros H; try reflexivity; try discriminate.
  - exfalso. now apply H.
Qed.

Lemma dict_get_app {V : Type} (k : string) (a b : Dict.t V) :
  Dict.get k (a ++ b)%list =
  match Dict.get k a with
  | Some v => Some v
  | None => Dict.get k b
  end.
Proof.
  induction a as [|[k0 v0] a IH]; cbn; [reflexivity|].
  now destruct (k =? k0)%string.
Qed.

Lemma dict_set_app {V : Type} (k : string) (v : V) (a b : Dict.t V) :
  Dict.get k a = None -> Dict.set k v (a ++ b)%list = (a ++ Dict.set k v b)%list.
Proof.
  induction a as [|[k0 v0] a IH]; cbn; [reflexivity|].
  destruct (k =? k0)%string; [discriminate|]. intros H. now rewrite IH.
Qed.

Lemma dict_set_fresh {V : Type} (k : string) (v : V) (d : Dict.t V) :
  Dict.get k d = None -> Dict.set k v d = (d ++ [(k, v)])%list.
Proof.
  intros H. rewrite <- (app_nil_r d) at 1. now rewrite dict_set_app.
Qed.

Lemma dict_all_none {V : Type} (d : Dict.t V) :
  (forall k, Dict.get k d = None) -> d = [].
Proof.
  destruct d as [|[k v] d]; [reflexivity|].
  intros H. specialize (H k). cbn in H. rewrite String.eqb_refl in H. discriminate.
Qed.

Lemma dict_keys_map {V W : Type} (f : string * V -> W) (d : Dict.t V) :
  Dict.keys (map (fun kv => (fst kv, f kv)) d) = Dict.keys d.
Proof. unfold Dict.keys. rewrite map_map. reflexivity. Qed.

Lemma dict_keys_filter {V : Type} (f : string * V -> bool) (d : Dict.t V) :
  NoDup (Dict.keys d) -> NoDup (Dict.keys (filter f d)).
Proof.
  unfold Dict.keys. induction d as [|kv d IH]; cbn; intros Hnd; [constructor|].
  inversion Hnd as [|? ? Hk Hnd']; subst.
  destruct (f kv); cbn; [|now apply IH].
  constructor; [|now apply IH].
  intros Hin. apply Hk. apply in_map_iff in Hin. destruct Hin as (x & Hx & Hin).
  apply filter_In in Hin. apply in_map_iff. exists x. tauto.
Qed.

Lemma append_inj_l (a x y : string) : a ++ x = a ++ y -> x = y.
Proof. induction a as [|c a IH]; cbn; [tauto|]. intros [= H]. now apply IH. Qed.

(** Two different file names in one directory are different paths. *)
Lemma path_join_differs (d x y : string) (c1 c2 : ascii) :
  c1 <> "/"%char -> c2 <> "/"%char ->
  String c1 x <> String c2 y ->
  path_join d (String c1 x) <> path_join d (String c2 y).
Proof.
  intros H1 H2 Hne. unfold path_join.
  apply Ascii.eqb_neq in H1, H2. rewrite H1, H2.
  destruct (d =? "")%string; [exact Hne|].
  destruct (ends_with_slash d); intros Heq; apply append_inj_l in Heq.
  - contradiction.
  - cbn in Heq. injection Heq as Heq1 Heq2. apply Hne. congruence.
Qed.

Lemma dict_mem_set {V : Type} (k nm : string) (v : V) (d : Dict.t V) :
  Dict.mem k (Dict.set nm v d) = ((k =? nm)%string || Dict.mem k d)%bool.
Proof.
  unfold Dict.mem. destruct (String.eqb_spec k nm) as [->|Hne].
  - now rewrite DictFacts.get_set_eq.
  - rewrite DictFacts.get_set_ne by congruence. reflexivity.
Qed.

Lemma dict_mem_del {V : Type} (k nm : string) (d : Dict.t V) :
  Dict.mem k (Dict.del nm d) = true -> Dict.mem k d = true.
Proof.
  unfold Dict.mem. destruct (String.eqb_spec k nm) as [->|Hne].
  - now rewrite DictFacts.get_del_eq.
  - now rewrite DictFacts.get_del_ne by congruence.
Qed.

Lemma join_cons (x : string) (xs : list string) : join (x :: xs) = x ++ join xs.
Proof.
  unfold join. destruct xs as [|y ys]; cbn; [|reflexivity].
  induction x as [|c x IH]; cbn; [reflexivity | now rewrite <- IH].
Qed.

Lemma join_app (a b : list string) : join (a ++ b)%list = join a ++ join b.
Proof.
  induction a as [|x a IH]; [reflexivity|].
  cbn [app]. rewrite !join_cons, IH.
  induction x as [|c x IHx]; cbn; [reflexivity | now rewrite IHx].
Qed.

(** Joining the lines of a text gives the text back. *)
Lemma join_readlines (s : string) : join (readlines s) = s.
Proof.
  induction s as [|c s IH]; [reflexivity|].
  cbn [readlines]. destruct (c =? LF)%char.
  - rewrite join_cons. cbn. now rewrite IH.
  - destruct (readlines s) as [|l ls].
    + cbn in IH. subst s. reflexivity.
    + rewrite join_cons in *. cbn. now rewrite IH.
Qed.

Lemma last_lines_skipn {A : Type} (n : Z) (l : list A) :
  exists k, last_lines n l = skipn k l /\
            (0 < n -> k = Nat.sub (List.length l) (Z.to_nat n)) /\
            (n <= 0 -> k = Nat.min (Z.to_nat (- n)) (List.length l)).
Proof.
  unfold last_lines. destruct (0 <? n) eqn:Hn.
  - apply Z.ltb_lt in Hn. eexists. split; [reflexivity|]. split; intros H.
    + destruct (Z.max_spec 0 (Z.of_nat (List.length l) - n)) as [[H1 ->]|[H1 ->]].
      * rewrite Z2Nat.inj_sub by (apply Z.lt_le_incl; exact Hn). now rewrite Nat2Z.id.
      * cbn. symmetry. apply Nat.sub_0_le.
        apply Nat2Z.inj_le. rewrite Z2Nat.id by (apply Z.lt_le_incl; exact Hn).
        apply Z.le_sub_0. exact H1.
    + exfalso. apply (Z.lt_irrefl 0). eapply Z.lt_le_trans; eassumption.
  - apply Z.ltb_ge in Hn. eexists. split; [reflexivity|]. split; intros H.
    + exfalso. apply (Z.lt_irrefl 0). eapply Z.lt_le_trans; eassumption.
    + rewrite Z2Nat.inj_min. now rewrite Nat2Z.id.
Qed.

(** ** The process supervisor *)

Section ServiceManagerProperties.
Import ServiceManager.
Variable E : Env.

#[local] Hint Unfold update_service _save_services open_log Popen_shell killpg reaped
  wait_timeout wait : meth.

(** C1 (as the code has it).  Starting a registered service whose tracked
    handle still polls as running is refused: the call returns the failure
    result "Service '<name>' is already running", and neither the manager
    (so the record's pid and the handle) nor the world (so the table of
    child processes: nothing was spawned) changes. *)
Theorem start_service_running_refused (nm : string) (self : t) (w : world)
    (svc : Service) (p : Popen) :
  Dict.get nm (services self) = Some svc ->
  Dict.get nm (processes self) = Some p ->
  poll_is_none w p = true ->
  start_service E nm (self, w) =
    (Ok (failure ("Service '" ++ nm ++ "' is already running")), (self, w)).
Proof.
  intros Hs Hp Hlive. unfold start_service. run_meth.
  rewrite Hs. cbn. rewrite Hp, Hlive. reflexivity.
Qed.

(** C5 (as the code has it).  For a registered service the status query
    reports "running" when a handle is tracked and polls as running,
    "crashed" when a handle is tracked and the process has terminated, and
    "stopped" when no handle is tracked, whatever the record said before. *)
Theorem get_service_status_reports (nm : string) (self : t) (w : world)
    (svc : Service) :
  Dict.get nm (services self) = Some svc ->
  reported_status (answer (get_service_status nm (self, w))) =
    match Dict.get nm (processes self) with
    | Some p => Some (VStr (if poll_is_none w p then "running" else "crashed"))
    | None => Some (VStr "stopped")
    end.
Proof.
  intros Hs. unfold get_service_status. run_meth. rewrite Hs. cbn.
  destruct (Dict.get nm (processes self)) as [p|]; cbn.
  - destruct (poll_is_none w p); run_meth; rewrite Hs; cbn;
      rewrite DictFacts.get_set_eq; reflexivity.
  - run_meth. rewrite Hs. cbn. rewrite DictFacts.get_set_eq. reflexivity.
Qed.

(** C6.  Stopping a registered service that has no tracked handle returns
    the success result "Service '<name>' was not running"; the record is
    marked stopped and written out, no handle is touched and no child
    process is signalled or reaped. *)
Theorem stop_service_not_tracked (nm : string) (self : t) (w : world)
    (svc : Service) :
  Dict.get nm (services self) = Some svc ->
  Dict.get nm (processes self) = None ->
  let self' := set_services (Dict.set nm (set_status "stopped" svc) (services self)) self in
  let w' := mkWorld (Dict.set (services_file self)
                       (Json (services_document (services self')
                                (isoformat_at E (ticks w))))
                       (files w))
                    (S (ticks w)) (running w) in
  stop_service E nm (self, w) =
    (Ok (success_message ("Service '" ++ nm ++ "' was not running")), (self', w')) /\
  is_success (success_message ("Service '" ++ nm ++ "' was not running")) = true /\
  processes self' = processes self /\
  running w' = running w.
Proof.
  intros Hs Hp. cbn zeta. repeat split.
  unfold stop_service. run_meth. rewrite Hs. cbn. rewrite Hp. cbn.
  run_meth. rewrite Hs. cbn. reflexivity.
Qed.

(** C7.  When launching a registered service that is not already running
    raises (opening the log or spawning the command), [start_service]
    returns, without raising, the failure result whose error is the text
    of that exception; the record's status is "crashed" and its other
    fields are as they were; no handle is added for the failed launch,
    no child process was added, and no other record is touched. *)
Theorem start_service_launch_failure (nm : string) (self : t) (w : world)
    (svc : Service) (e : exn) :
  Dict.get nm (services self) = Some svc ->
  tracked_running self w nm = false ->
  launch_raises E self w nm svc e ->
  let crashed := mkService (name svc) (platform svc) (command svc) (pid svc) "crashed"
                   (started_at svc) (log_file svc) (auto_restart svc)
                   (restart_count svc) (max_restarts svc) in
  exists w',
    start_service E nm (self, w) =
      (Ok (VDict [("success", VBool false); ("error", VStr (str_exn e))]),
       (mk (services_dir self) (services_file self) (logs_dir self)
           (Dict.set nm crashed (services self)) (processes self), w')) /\
    is_success (VDict [("success", VBool false); ("error", VStr (str_exn e))]) = false /\
    running w' = running w.
Proof.
  intros Hs Hnot Hraise. cbn zeta. unfold tracked_running in Hnot.
  unfold start_service. run_meth. rewrite Hs. cbn. rewrite Hnot.
  destruct Hraise as [Hopen | [Hopen Hspawn]].
  - exists w. run_meth. rewrite Hopen. cbn. run_meth. rewrite Hs. cbn. auto.
  - exists (touch w (log_path_of self nm svc)).
    run_meth. rewrite Hopen. cbn. rewrite Hspawn. cbn. run_meth. rewrite Hs. cbn.
    repeat split.
    unfold touch. destruct (log_path_of self nm svc); auto.
    destruct (Dict.mem s (files w)); reflexivity.
Qed.

(** C3 (as the code has it).  Stopping a registered service with a
    tracked handle: when neither signal call raises (the child exited on
    SIGTERM within the grace period, or was killed with SIGKILL), the call
    returns the success result "Service '<name>' stopped", the handle is
    dropped, the record has status "stopped" and pid None and its other
    fields as they were, the services file is rewritten from that state
    and the child is gone; when a signal call raises, the call returns
    the failure result with the error text and the manager and the world
    are left exactly as they were. *)
Theorem stop_service_tracked (nm : string) (self : t) (w : world)
    (svc : Service) (p : Popen) :
  Dict.get nm (services self) = Some svc ->
  Dict.get nm (processes self) = Some p ->
  match signalling E w p with
  | None =>
      let svc' := mkService (name svc) (platform svc) (command svc) VNone "stopped"
                    (started_at svc) (log_file svc) (auto_restart svc)
                    (restart_count svc) (max_restarts svc) in
      let self' := mk (services_dir self) (services_file self) (logs_dir self)
                      (Dict.set nm svc' (services self))
                      (Dict.del nm (processes self)) in
      let w' := mkWorld (Dict.set (services_file self)
                           (Json (services_document (services self')
                                    (isoformat_at E (ticks w))))
                           (files w))
                        (S (ticks w)) (remove_pid (popen_pid p) (running w)) in
      stop_service E nm (self, w) =
        (Ok (VDict [("success", VBool true);
                    ("message", VStr ("Service '" ++ nm ++ "' stopped"))]),
         (self', w')) /\
      Dict.get nm (processes self') = None /\
      Dict.get nm (services self') = Some svc' /\
      status svc' = "stopped" /\
      pid svc' = VNone /\
      poll_is_none w' p = false
  | Some e =>
      stop_service E nm (self, w) =
        (Ok (VDict [("success", VBool false); ("error", VStr (str_exn e))]), (self, w))
  end.
Proof.
  intros Hs Hp. unfold signalling, stop_service. run_meth.
  rewrite Hs. cbn. rewrite Hp. cbn.
  destruct (signal_group E w (popen_pid p) SIGTERM) as [e|] eqn:Hterm; cbn.
  { reflexivity. }
  assert (Hgone : forall fs n,
             poll_is_none (mkWorld fs n (remove_pid (popen_pid p) (running w))) p = false).
  { intros fs n. unfold poll_is_none, remove_pid. cbn.
    apply not_true_is_false. intros Hex. apply existsb_exists in Hex.
    destruct Hex as [q [Hin Hq]]. apply filter_In in Hin. destruct Hin as [_ Hne].
    apply Z.eqb_eq in Hq. subst q. rewrite Z.eqb_refl in Hne. discriminate. }
  destruct (poll_is_none w p && negb (exits_in_grace E w (popen_pid p))) eqn:Hwait; cbn.
  - destruct (signal_group E w (popen_pid p) SIGKILL) as [e|] eqn:Hkill; cbn.
    { reflexivity. }
    run_meth. rewrite Hs. cbn. rewrite DictFacts.get_set_eq. cbn.
    rewrite DictFacts.set_set.
    rewrite DictFacts.get_del_eq, DictFacts.get_set_eq. repeat split. exact (Hgone nil O).
  - run_meth. rewrite Hs. cbn. rewrite DictFacts.get_set_eq. cbn.
    rewrite DictFacts.set_set.
    rewrite DictFacts.get_del_eq, DictFacts.get_set_eq. repeat split. exact (Hgone nil O).
Qed.

(** *** Loading the services file *)

Lemma load_entry_object (nm : string) (fields : Dict.t value) (self : t) (w : world) :
  load_entry (nm, VDict fields) (self, w) =
    (Ok tt, (set_services (Dict.set nm (service_of_fields nm fields) (services self)) self, w)).
Proof. reflexivity. Qed.

Lemma load_entry_other (nm : string) (v : value) (self : t) (w : world) :
  is_object v = false ->
  exists e, load_entry (nm, v) (self, w) = (Raise e, (self, w)).
Proof. destruct v; try discriminate; intros _; eexists; reflexivity. Qed.

(** The loop over the entries: it stops at the first entry that is not an
    object, keeps what it loaded so far, and touches nothing but the
    records named in the file. *)
Lemma load_entries_spec (entries : list (string * value)) :
  forall (self : t) (w : world),
  exists r svcs,
    for_each entries load_entry (self, w) = (r, (set_services svcs self, w)) /\
    (forall k, ~ In k (Dict.keys entries) -> Dict.get k svcs = Dict.get k (services self)) /\
    (forall k svc, Dict.get k svcs = Some svc ->
       Dict.get k (services self) = Some svc \/
       exists fields, In (k, VDict fields) entries /\ svc = service_of_fields k fields) /\
    (forallb (fun kv => is_object (snd kv)) entries = true ->
       r = Ok tt /\
       (NoDup (Dict.keys entries) ->
        forall k fields, In (k, VDict fields) entries ->
          Dict.get k svcs = Some (service_of_fields k fields))).
Proof.
  induction entries as [|[nm v] entries IH]; intros self w.
  - exists (Ok tt), (services self). destruct self; cbn. repeat split; auto.
    intros _ k fields [].
  - destruct (is_object v) eqn:Hobj.
    + destruct v; try discriminate.
      cbn [for_each]. unfold bind at 1. rewrite load_entry_object.
      destruct (IH (set_services (Dict.set nm (service_of_fields nm d) (services self)) self) w)
        as (r & svcs & Hrun & Hkeep & Hsound & Hcomplete).
      exists r, svcs. cbn in Hrun, Hkeep, Hsound, Hcomplete.
      split; [exact Hrun|]. split; [|split].
      * intros k Hk. cbn in Hk. rewrite Hkeep by tauto.
        apply DictFacts.get_set_ne. intros ->. tauto.
      * intros k svc Hget. destruct (Hsound k svc Hget) as [Hold | (fields & Hin & ->)].
        -- destruct (String.eqb_spec nm k) as [->|Hne].
           ++ rewrite DictFacts.get_set_eq in Hold. injection Hold as <-.
              right. exists d. split; [now left | reflexivity].
           ++ rewrite DictFacts.get_set_ne in Hold by exact Hne. now left.
        -- right. exists fields. split; [now right | reflexivity].
      * cbn. intros Hall. destruct (Hcomplete Hall) as [-> Hall']. split; [reflexivity|].
        intros Hnd k fields [Heq | Hin].
        -- injection Heq as -> ->. inversion Hnd as [|? ? Hnotin _]; subst.
           rewrite Hkeep by exact Hnotin. apply DictFacts.get_set_eq.
        -- inversion Hnd; subst. now apply Hall'.
    + destruct (load_entry_other nm v self w Hobj) as [e He].
      exists (Raise e), (services self). cbn [for_each]. unfold bind at 1. rewrite He.
      destruct self; cbn. split; [reflexivity|]. split; [auto|]. split; [auto|].
      rewrite Hobj. discriminate.
Qed.

Lemma set_services_same (self : t) : set_services (services self) self = self.
Proof. now destruct self. Qed.

Lemma load_services_spec (self : t) (w : world) :
  let entries := persisted_entries (Dict.get (services_file self) (files w)) in
  exists svcs,
    _load_services (self, w) = (Ok tt, (set_services svcs self, w)) /\
    (missing_or_unparsable (Dict.get (services_file self) (files w)) = true ->
     svcs = services self) /\
    (forall k svc, Dict.get k svcs = Some svc ->
       Dict.get k (services self) = Some svc \/
       exists fields, In (k, VDict fields) entries /\ svc = service_of_fields k fields) /\
    (forallb (fun kv => is_object (snd kv)) entries = true ->
     NoDup (Dict.keys entries) ->
     forall k fields, In (k, VDict fields) entries ->
       Dict.get k svcs = Some (service_of_fields k fields)).
Proof.
  cbn zeta. unfold _load_services. run_meth. unfold Dict.mem.
  assert (Hidle : forall (r : result unit * (t * world)) (c : bool),
             r = (Ok tt, (self, w)) ->
             exists svcs, r = (Ok tt, (set_services svcs self, w)) /\
               (c = true -> svcs = services self) /\
               (forall k svc, Dict.get k svcs = Some svc ->
                  Dict.get k (services self) = Some svc \/
                  exists fields, In (k, VDict fields) [] /\ svc = service_of_fields k fields) /\
               (forallb (fun kv : string * value => is_object (snd kv)) [] = true ->
                NoDup (Dict.keys (@nil (string * value))) ->
                forall k fields, In (k, VDict fields) [] ->
                  Dict.get k svcs = Some (service_of_fields k fields))).
  { intros r c ->. exists (services self). rewrite set_services_same.
    repeat split; auto. intros _ _ k fields []. }
  destruct (Dict.get (services_file self) (files w)) as [[raw | doc]|] eqn:Hfile;
    cbn; rewrite ?Hfile; cbn.
  - apply Hidle; reflexivity.
  - destruct doc as [| b | n | s0 | l | top]; try (apply Hidle; reflexivity).
    cbn. unfold Dict.get_default.
    destruct (Dict.get "services" top) as [v|] eqn:Hsvcs.
    + destruct v as [| b | n | s0 | l | entries];
        try (apply Hidle; reflexivity).
      cbn.
      destruct (load_entries_spec entries self w) as (r & svcs & Hrun & _ & Hsound & Hcomplete).
      rewrite Hrun. exists svcs. split; [now destruct r as [[]|]|]. split; [discriminate|].
      split; [exact Hsound|]. intros Hall. now destruct (Hcomplete Hall).
    + apply Hidle; reflexivity.
  - apply Hidle; reflexivity.
Qed.

(** The loop over the entries, by what it leaves in [self.services]. *)
Lemma load_entries_records (entries : list (string * value)) :
  forall (acc : Dict.t Service) (self : t) (w : world),
  NoDup (Dict.keys entries) ->
  (forall k, In k (Dict.keys entries) -> Dict.get k acc = None) ->
  exists r,
    for_each entries load_entry (set_services acc self, w) =
      (r, (set_services (acc ++ records_of entries)%list self, w)).
Proof.
  induction entries as [|[nm v] entries IH]; intros acc self w Hnd Hfresh.
  - exists (Ok tt). cbn. now rewrite app_nil_r.
  - inversion Hnd as [|? ? Hnm Hnd']; subst.
    destruct (is_object v) eqn:Hobj.
    + destruct v as [| | | | |fields]; try discriminate.
      assert (Hacc : Dict.get nm acc = None) by (apply Hfresh; now left).
      destruct (IH (acc ++ [(nm, service_of_fields nm fields)])%list self w Hnd')
        as [r Hrun].
      { intros k Hk. rewrite dict_get_app, Hfresh by now right.
        cbn. destruct (String.eqb_spec k nm) as [->|_]; [contradiction | reflexivity]. }
      exists r. cbn [for_each records_of]. unfold bind at 1. rewrite load_entry_object.
      cbn [services set_services]. rewrite (dict_set_fresh nm _ acc Hacc).
      change (set_services (acc ++ [(nm, service_of_fields nm fields)])%list
                (set_services acc self))
        with (set_services (acc ++ [(nm, service_of_fields nm fields)])%list self).
      rewrite Hrun. now rewrite <- app_assoc.
    + destruct (load_entry_other nm v (set_services acc self) w Hobj) as [e He].
      exists (Raise e). cbn [for_each]. unfold bind at 1. rewrite He.
      destruct v; try discriminate; cbn [records_of]; now rewrite app_nil_r.
Qed.

Lemma load_services_records (self : t) (w : world) :
  services self = [] ->
  NoDup (Dict.keys (persisted_entries (Dict.get (services_file self) (files w)))) ->
  _load_services (self, w) =
    (Ok tt,
     (set_services
        (records_of (persisted_entries (Dict.get (services_file self) (files w)))) self,
      w)).
Proof.
  intros Hempty Hnd.
  assert (Hself : set_services [] self = self).
  { rewrite <- Hempty. apply set_services_same. }
  unfold _load_services. run_meth. unfold Dict.mem.
  destruct (Dict.get (services_file self) (files w)) as [[raw | doc]|] eqn:Hfile;
    cbn; rewrite ?Hfile; cbn; rewrite ?Hself; try reflexivity.
  destruct doc as [| b | n | s0 | l | top]; cbn; rewrite ?Hself; try reflexivity.
  cbn in Hnd. unfold Dict.get_default.
  destruct (Dict.get "services" top) as [v|] eqn:Hsvcs; cbn; rewrite ?Hself;
    try reflexivity.
  destruct v as [| b | n | s0 | l | entries]; cbn; rewrite ?Hself; try reflexivity.
  destruct (load_entries_records entries [] self w Hnd (fun k _ => eq_refl)) as [r Hrun].
  rewrite Hself in Hrun. cbn [app] in Hrun. rewrite Hrun. now destruct r as [[]|].
Qed.

(** C2 (as the code has it).  Whatever the services file holds,
    constructing the manager succeeds and leaves the world as it was;
    every record it holds was built from an entry of the file, with status
    "stopped", restart_count 0 and max_restarts 5, whatever the file says
    of them, and with every other field, pid included, as the file has
    it (the default where the entry lacks the field).  When all entries
    of the file are objects, every entry is loaded; in general the
    records are those of the entries before the first one that is not an
    object, in the order of the file (the names of the entries are
    distinct, as those of a parsed JSON object are). *)
Theorem init_loads_persisted (dir : option string) (w : world) :
  exists self,
    __init__ E dir w = (Ok self, w) /\
    let entries := persisted_entries (Dict.get (services_file self) (files w)) in
    (forall nm svc, Dict.get nm (services self) = Some svc ->
       exists fields,
         In (nm, VDict fields) entries /\
         svc = service_of_fields nm fields /\
         status svc = "stopped" /\
         restart_count svc = 0 /\
         max_restarts svc = 5 /\
         pid svc = Dict.get_default "pid" VNone fields) /\
    (forallb (fun kv => is_object (snd kv)) entries = true ->
     NoDup (Dict.keys entries) ->
     forall nm fields, In (nm, VDict fields) entries ->
       Dict.get nm (services self) = Some (service_of_fields nm fields)) /\
    (NoDup (Dict.keys entries) -> services self = records_of entries).
Proof.
  unfold __init__. cbn zeta.
  set (d := dir_or_default E dir "services").
  set (blank := mk d (path_join d "services.json") (path_join d "logs") Dict.empty Dict.empty).
  destruct (load_services_spec blank w) as (svcs & Hrun & _ & Hsound & Hcomplete).
  assert (Hrecords : NoDup (Dict.keys (persisted_entries
                                         (Dict.get (services_file blank) (files w)))) ->
                     svcs = records_of (persisted_entries
                                          (Dict.get (services_file blank) (files w)))).
  { intros Hnd. pose proof (load_services_records blank w eq_refl Hnd) as H.
    rewrite Hrun in H. now injection H. }
  rewrite Hrun. exists (set_services svcs blank). split; [reflexivity|].
  cbn in *. split; [|split; [exact Hcomplete | exact Hrecords]].
  intros nm svc Hget. destruct (Hsound nm svc Hget) as [Hold | (fields & Hin & ->)].
  - discriminate.
  - exists fields. repeat split. exact Hin.
Qed.

(** *** Batches *)

Ltac frame_other :=
  let k := fresh "k" in
  let Hk := fresh "Hk" in
  intros k Hk; unfold same_view; cbn;
  rewrite ?DictFacts.get_set_ne, ?DictFacts.get_del_ne by congruence;
  split; reflexivity.

(** [start_service] always returns a result, and touches no record and no
    handle but those of the service it was asked to start. *)
Lemma start_service_frame (nm : string) (self : t) (w : world) :
  exists r self' w',
    start_service E nm (self, w) = (Ok r, (self', w')) /\
    forall k, k <> nm -> same_view k self self'.
Proof.
  unfold start_service. run_meth.
  destruct (Dict.get nm (services self)) as [svc|] eqn:Hs; cbn.
  2: { do 3 eexists. split; [reflexivity | frame_other]. }
  destruct (match Dict.get nm (processes self) with
            | Some p => poll_is_none w p
            | None => false
            end).
  { do 3 eexists. split; [reflexivity | frame_other]. }
  run_meth.
  destruct (open_append E w (log_path_of self nm svc)) as [e|] eqn:Hopen; cbn.
  { run_meth. rewrite Hs. cbn. do 3 eexists. split; [reflexivity | frame_other]. }
  destruct (spawn E (touch w (log_path_of self nm svc)) (command svc)) as [child|e] eqn:Hspawn;
    cbn.
  - run_meth. rewrite Hs. cbn. rewrite !DictFacts.get_set_eq. cbn.
    rewrite !DictFacts.get_set_eq. cbn.
    do 3 eexists. split; [reflexivity | frame_other].
  - run_meth. rewrite Hs. cbn. do 3 eexists. split; [reflexivity | frame_other].
Qed.

(** The same for [stop_service]. *)
Lemma stop_service_frame (nm : string) (self : t) (w : world) :
  exists r self' w',
    stop_service E nm (self, w) = (Ok r, (self', w')) /\
    forall k, k <> nm -> same_view k self self'.
Proof.
  unfold stop_service. run_meth.
  destruct (Dict.get nm (services self)) as [svc|] eqn:Hs; cbn.
  2: { do 3 eexists. split; [reflexivity | frame_other]. }
  destruct (Dict.get nm (processes self)) as [p|] eqn:Hp; cbn.
  2: { run_meth. rewrite Hs. cbn. do 3 eexists. split; [reflexivity | frame_other]. }
  run_meth.
  destruct (signal_group E w (popen_pid p) SIGTERM) as [e|] eqn:Hterm; cbn.
  { do 3 eexists. split; [reflexivity | frame_other]. }
  destruct (poll_is_none w p && negb (exits_in_grace E w (popen_pid p))); cbn.
  - destruct (signal_group E w (popen_pid p) SIGKILL) as [e|] eqn:Hkill; cbn.
    { do 3 eexists. split; [reflexivity | frame_other]. }
    run_meth. rewrite Hs. cbn. rewrite DictFacts.get_set_eq. cbn.
    do 3 eexists. split; [reflexivity | frame_other].
  - run_meth. rewrite Hs. cbn. rewrite DictFacts.get_set_eq. cbn.
    do 3 eexists. split; [reflexivity | frame_other].
Qed.

Lemma same_view_trans (k : string) (a b c : t) :
  same_view k a b -> same_view k b c -> same_view k a c.
Proof. unfold same_view. intros [-> ->] [-> ->]. split; reflexivity. Qed.

Lemma same_view_refl (k : string) (a : t) : same_view k a a.
Proof. split; reflexivity. Qed.

Section Collect.
Variable call : string -> Meth value.
Hypothesis call_frame : forall nm self w,
  exists r self' w',
    call nm (self, w) = (Ok r, (self', w')) /\
    forall k, k <> nm -> same_view k self self'.

(** The loop of a batch: the calls are threaded through the state, the
    results are collected in the order of the names, and what a call does
    leaves the records and handles of the other names alone. *)
Lemma collect_threaded (names : list string) :
  forall (self0 : t) (acc : Dict.t value) (self : t) (w : world),
  NoDup names ->
  (forall k, In k names -> Dict.get k acc = None) ->
  (forall k, In k names -> same_view k self0 self) ->
  exists outs st',
    collect names call acc (self, w) = (Ok (acc ++ outs)%list, st') /\
    threaded call self0 names (self, w) outs st' /\
    (forall k, ~ In k names -> same_view k self (fst st')) /\
    (forall nm r, In (nm, r) outs ->
       exists st1 st2,
         call nm st1 = (Ok r, st2) /\
         same_view nm self0 (fst st1) /\
         same_view nm (fst st2) (fst st')).
Proof.
  induction names as [|n rest IH]; intros self0 acc self w Hnd Hfresh Hview.
  - exists [], (self, w). cbn. rewrite app_nil_r.
    split; [reflexivity|]. split; [constructor|].
    split; [intros k _; apply same_view_refl | intros nm r []].
  - inversion Hnd as [|? ? Hn Hnd']; subst.
    destruct (call_frame n self w) as (r1 & self1 & w1 & Hcall & Hframe).
    assert (Hacc : Dict.get n acc = None) by (apply Hfresh; now left).
    destruct (IH self0 (acc ++ [(n, r1)])%list self1 w1 Hnd')
      as (outs & st' & Hrun & Hthread & Hout & Hin).
    { intros k Hk. rewrite dict_get_app, Hfresh by now right.
      cbn. destruct (String.eqb_spec k n) as [->|_]; [contradiction | reflexivity]. }
    { intros k Hk. assert (k <> n) by (intros ->; contradiction).
      eapply same_view_trans; [apply Hview; now right | now apply Hframe]. }
    exists ((n, r1) :: outs), st'. split; [|split; [|split]].
    + cbn [collect]. erewrite bind_ok; [| exact Hcall].
      rewrite (dict_set_fresh n r1 acc Hacc), Hrun. now rewrite <- app_assoc.
    + econstructor; [apply Hview; now left | exact Hcall | exact Hthread].
    + intros k Hk. assert (k <> n) by (intros ->; apply Hk; now left).
      eapply same_view_trans; [now apply Hframe|].
      apply Hout. intros Hk'. apply Hk. now right.
    + intros nm r [Heq | Hnm].
      * injection Heq as <- <-. exists (self, w), (self1, w1).
        split; [exact Hcall|]. split; [apply Hview; now left | now apply Hout].
      * now apply Hin.
Qed.

Lemma threaded_keys (self0 : t) (names : list string) (st st' : t * world)
    (outs : list (string * value)) :
  threaded call self0 names st outs st' -> Dict.keys outs = names.
Proof. induction 1; cbn; [reflexivity | now f_equal]. Qed.
End Collect.

(** C8 (as the code has it).  [start_all] runs [start_service] on every
    registered service, in registration order, and [stop_all] runs
    [stop_service] on every service that has a tracked handle (a
    registered service without a handle gets no call and no entry).
    Neither raises.  Each returns a map with exactly one entry per service
    of its batch, in that order: the result of that service's own call.
    The calls are run one after the other on the state the one before
    left, the state after the last one is the state after the batch, and
    every call finds the record and the handle of its service as they
    were when the batch began and leaves those of the others alone: what
    happens to one service, a failure included, neither stops the batch
    nor changes what the others are processed with or end with. *)
Theorem batches_are_isolated (self : t) (w : world) :
  NoDup (Dict.keys (services self)) ->
  NoDup (Dict.keys (processes self)) ->
  (exists outs st',
     start_all E (self, w) = (Ok outs, st') /\
     Dict.keys outs = Dict.keys (services self) /\
     threaded (start_service E) self (Dict.keys (services self)) (self, w) outs st' /\
     (forall nm r, Dict.get nm outs = Some r ->
        exists st1 st2,
          start_service E nm st1 = (Ok r, st2) /\
          same_view nm self (fst st1) /\
          same_view nm (fst st2) (fst st'))) /\
  (exists outs st',
     stop_all E (self, w) = (Ok outs, st') /\
     Dict.keys outs = Dict.keys (processes self) /\
     threaded (stop_service E) self (Dict.keys (processes self)) (self, w) outs st' /\
     (forall nm r, Dict.get nm outs = Some r ->
        exists st1 st2,
          stop_service E nm st1 = (Ok r, st2) /\
          same_view nm self (fst st1) /\
          same_view nm (fst st2) (fst st'))).
Proof.
  intros Hs Hp. split.
  - destruct (collect_threaded (start_service E) start_service_frame
                (Dict.keys (services self)) self [] self w Hs
                (fun k _ => eq_refl) (fun k _ => same_view_refl k self))
      as (outs & st' & Hrun & Hthread & _ & Hin).
    exists outs, st'. split; [exact Hrun|].
    split; [exact (threaded_keys _ _ _ _ _ _ Hthread)|]. split; [exact Hthread|].
    intros nm r Hget. apply Hin. now apply DictFacts.get_in.
  - destruct (collect_threaded (stop_service E) stop_service_frame
                (Dict.keys (processes self)) self [] self w Hp
                (fun k _ => eq_refl) (fun k _ => same_view_refl k self))
      as (outs & st' & Hrun & Hthread & _ & Hin).
    exists outs, st'. split; [exact Hrun|].
    split; [exact (threaded_keys _ _ _ _ _ _ Hthread)|]. split; [exact Hthread|].
    intros nm r Hget. apply Hin. now apply DictFacts.get_in.
Qed.

End ServiceManagerProperties.

(** ** The credential store *)

Section SessionManagerProperties.
Import SessionManager.
Variable E : Env.

#[local] Hint Unfold update_session _save_platforms _save_api_keys : meth.

(** C10.  Saving an API key for a provider that already has a record puts
    a brand-new record in its place: the given provider and key,
    tokens_used 0, tokens_remaining -1, is_active True, added_at and
    last_used the current time.  Nothing of the old record enters it. *)
Theorem save_api_key_replaces (prov k : string) (self : t) (w : world) (old : APIKey.t) :
  Dict.get prov (api_keys self) = Some old ->
  let stamp := VStr (isoformat_at E (ticks w)) in
  let fresh := APIKey.mk (VStr prov) (VStr k) stamp (VInt 0) (VInt (-1)) (VBool true) stamp in
  exists self' w',
    save_api_key E prov k (self, w) = (Ok fresh, (self', w')) /\
    Dict.get prov (api_keys self') = Some fresh.
Proof.
  intros _. cbn zeta. unfold save_api_key. run_meth.
  do 2 eexists. split; [reflexivity|]. cbn. apply DictFacts.get_set_eq.
Qed.

Lemma dict_or_empty_supplied (o : option (Dict.t value)) :
  dict_or_empty o = VDict (supplied o).
Proof. destruct o as [[|kv rest]|]; reflexivity. Qed.

(** [if other: session.<field>.update(other)] on a session whose field is
    a dictionary. *)
Lemma merge_into_dict (p : string) (field : PlatformSession.t -> value)
    (set_field : value -> PlatformSession.t -> PlatformSession.t)
    (other : option (Dict.t value)) (self : t) (w : world)
    (s : PlatformSession.t) (d : Dict.t value) :
  Dict.get p (platforms self) = Some s ->
  field s = VDict d ->
  (forall v, field (set_field v s) = v) ->
  exists s',
    merge_into p field set_field other (self, w) =
      (Ok tt, (set_platforms (Dict.set p s' (platforms self)) self, w)) /\
    s' = (if match nonempty other with Some _ => true | None => false end
          then set_field (VDict (Dict.update d (supplied other))) s else s) /\
    field s' = VDict (Dict.update d (supplied other)).
Proof.
  intros Hget Hfield Hset. unfold merge_into.
  destruct other as [[|kv rest]|]; cbn [nonempty].
  - exists s. run_meth. split; [|split; [reflexivity | exact Hfield]].
    rewrite (DictFacts.set_same _ _ _ Hget). now destruct self.
  - exists (set_field (VDict (Dict.update d (kv :: rest))) s).
    run_meth. rewrite Hget. cbn. rewrite Hfield. cbn. run_meth. rewrite Hget.
    cbn. split; [reflexivity|]. split; [reflexivity | apply Hset].
  - exists s. run_meth. split; [|split; [reflexivity | exact Hfield]].
    rewrite (DictFacts.set_same _ _ _ Hget). now destruct self.
Qed.

Lemma platforms_set (d : Dict.t PlatformSession.t) (self : t) :
  platforms (set_platforms d self) = d.
Proof. reflexivity. Qed.

Lemma set_platforms_twice (d1 d2 : Dict.t PlatformSession.t) (self : t) :
  set_platforms d2 (set_platforms d1 self) = set_platforms d2 self.
Proof. reflexivity. Qed.

Lemma update_session_run (p : string) (f : PlatformSession.t -> PlatformSession.t)
    (self : t) (w : world) (s : PlatformSession.t) :
  Dict.get p (platforms self) = Some s ->
  update_session p f (self, w) =
    (Ok tt, (set_platforms (Dict.set p (f s) (platforms self)) self, w)).
Proof. intros H. unfold update_session. run_meth. now rewrite H. Qed.

Lemma now_run {T : Type} (self : T) (w : world) :
  now_isoformat E (self, w) =
    (Ok (isoformat_at E (ticks w)), (self, mkWorld (files w) (S (ticks w)) (running w))).
Proof. reflexivity. Qed.

Lemma get_self_run {T : Type} (self : T) (w : world) :
  get_self (self, w) = (Ok self, (self, w)).
Proof. reflexivity. Qed.

Lemma save_platforms_run (self : t) (w : world) :
  exists w', _save_platforms E (self, w) = (Ok tt, (self, w')).
Proof. eexists. reflexivity. Qed.

(** The branch of [save_platform] for a platform that has a record. *)
Lemma update_existing_run (p : string) (creds : Dict.t value)
    (sett meta : option (Dict.t value)) (self : t) (w : world)
    (s : PlatformSession.t) (s0 m0 : Dict.t value) (stamp : string) :
  Dict.get p (platforms self) = Some s ->
  PlatformSession.settings s = VDict s0 ->
  PlatformSession.metadata s = VDict m0 ->
  (update_session p (PlatformSession.set_credentials (VDict creds)) ;;;
   update_session p (PlatformSession.set_last_used (VStr stamp)) ;;;
   update_session p (PlatformSession.set_is_active (VBool true)) ;;;
   merge_into p PlatformSession.settings PlatformSession.set_settings sett ;;;
   merge_into p PlatformSession.metadata PlatformSession.set_metadata meta) (self, w) =
    (Ok tt,
     (set_platforms
        (Dict.set p (merged s s0 m0 (VStr stamp) creds sett meta) (platforms self)) self,
      w)).
Proof.
  intros Hget Hsett Hmeta.
  pose (s3 := PlatformSession.set_is_active (VBool true)
                (PlatformSession.set_last_used (VStr stamp)
                   (PlatformSession.set_credentials (VDict creds) s))).
  step (update_session_run p (PlatformSession.set_credentials (VDict creds)) self w s Hget).
  erewrite bind_ok;
    [| apply update_session_run; rewrite platforms_set; apply DictFacts.get_set_eq].
  rewrite platforms_set, set_platforms_twice, DictFacts.set_set.
  erewrite bind_ok;
    [| apply update_session_run; rewrite platforms_set; apply DictFacts.get_set_eq].
  rewrite platforms_set, set_platforms_twice, DictFacts.set_set.
  fold s3.
  destruct (merge_into_dict p PlatformSession.settings PlatformSession.set_settings sett
              (set_platforms (Dict.set p s3 (platforms self)) self) w s3 s0)
    as (s4 & Hrun4 & Hs4 & Hf4).
  { rewrite platforms_set. apply DictFacts.get_set_eq. }
  { exact Hsett. }
  { reflexivity. }
  rewrite platforms_set, set_platforms_twice, DictFacts.set_set in Hrun4.
  erewrite bind_ok; [| exact Hrun4].
  destruct (merge_into_dict p PlatformSession.metadata PlatformSession.set_metadata meta
              (set_platforms (Dict.set p s4 (platforms self)) self) w s4 m0)
    as (s5 & Hrun5 & Hs5 & Hf5).
  { rewrite platforms_set. apply DictFacts.get_set_eq. }
  { rewrite Hs4. destruct (match nonempty sett with Some _ => true | None => false end);
      exact Hmeta. }
  { reflexivity. }
  rewrite platforms_set, set_platforms_twice, DictFacts.set_set in Hrun5.
  rewrite Hrun5. do 3 f_equal. unfold merged.
  rewrite <- Hf5. rewrite <- Hf4.
  rewrite Hs5, Hs4.
  destruct (match nonempty meta with Some _ => true | None => false end);
    destruct (match nonempty sett with Some _ => true | None => false end);
    reflexivity.
Qed.

(** On records that hold their dictionaries by value: [save_platform] on
    a platform that has a record (whose settings and metadata are
    dictionaries) replaces the credentials by the new ones, keeps
    platform and created_at, sets is_active to True and last_used to the
    current time, and merges the supplied settings and metadata into the
    stored ones.  On a platform without a record it creates the record
    from the supplied fields. *)
Lemma save_platform_by_value (p : string) (creds : Dict.t value)
    (sett meta : option (Dict.t value)) (self : t) (w : world) :
  let stamp := VStr (isoformat_at E (ticks w)) in
  (forall s s0 m0,
     Dict.get p (platforms self) = Some s ->
     PlatformSession.settings s = VDict s0 ->
     PlatformSession.metadata s = VDict m0 ->
     let s' := PlatformSession.mk (PlatformSession.platform s) (VDict creds)
                 (PlatformSession.created_at s) stamp (VBool true)
                 (VDict (Dict.update s0 (supplied sett)))
                 (VDict (Dict.update m0 (supplied meta))) in
     (exists self' w',
        save_platform E p creds sett meta (self, w) = (Ok s', (self', w')) /\
        Dict.get p (platforms self') = Some s') /\
     (NoDup (Dict.keys (supplied sett)) ->
      forall k, Dict.get k (Dict.update s0 (supplied sett)) =
                match Dict.get k (supplied sett) with
                | Some v => Some v
                | None => Dict.get k s0
                end) /\
     (NoDup (Dict.keys (supplied meta)) ->
      forall k, Dict.get k (Dict.update m0 (supplied meta)) =
                match Dict.get k (supplied meta) with
                | Some v => Some v
                | None => Dict.get k m0
                end)) /\
  (Dict.get p (platforms self) = None ->
   let s' := PlatformSession.mk (VStr p) (VDict creds) stamp stamp (VBool true)
               (VDict (supplied sett)) (VDict (supplied meta)) in
   exists self' w',
     save_platform E p creds sett meta (self, w) = (Ok s', (self', w')) /\
     Dict.get p (platforms self') = Some s').
Proof.
  cbn zeta. split.
  - intros s s0 m0 Hget Hsett Hmeta. split; [|split].
    2, 3: intros Hnd k; now apply DictFacts.get_update.
    unfold save_platform.
    step (now_run self w). step (get_self_run self (mkWorld (files w) (S (ticks w)) (running w))).
    unfold Dict.mem. rewrite Hget.
    erewrite bind_ok; [| exact (update_existing_run p creds sett meta self _ s s0 m0 _
                                  Hget Hsett Hmeta)].
    destruct (save_platforms_run
                (set_platforms
                   (Dict.set p (merged s s0 m0 (VStr (isoformat_at E (ticks w))) creds sett meta)
                      (platforms self)) self)
                (mkWorld (files w) (S (ticks w)) (running w))) as [w2 Hsave].
    erewrite bind_ok; [| exact Hsave].
    erewrite bind_ok; [| apply get_self_run].
    rewrite platforms_set, DictFacts.get_set_eq.
    do 2 eexists. split; [reflexivity|]. apply DictFacts.get_set_eq.
  - intros Hnone. unfold save_platform.
    step (now_run self w). step (get_self_run self (mkWorld (files w) (S (ticks w)) (running w))).
    unfold Dict.mem. rewrite Hnone. rewrite !dict_or_empty_supplied.
    run_meth. rewrite DictFacts.get_set_eq.
    do 2 eexists. split; [reflexivity|]. cbn. apply DictFacts.get_set_eq.
Qed.

(** *** Loading the session files *)

Lemma set_platforms_same (self : t) : set_platforms (platforms self) self = self.
Proof. now destruct self. Qed.

Lemma set_api_keys_same (self : t) : set_api_keys (api_keys self) self = self.
Proof. now destruct self. Qed.

Lemma set_store_settings_same (self : t) :
  set_settings (settings self) self = self.
Proof. now destruct self. Qed.

Lemma session_from_dict_pure (data : value) (st : t * world) :
  exists r, PlatformSession.from_dict data st = (r, st).
Proof. destruct data; eexists; reflexivity. Qed.

Lemma api_key_from_dict_pure (data : value) (st : t * world) :
  exists r, APIKey.from_dict data st = (r, st).
Proof.
  destruct data as [| b | n | s0 | l | kv]; try (eexists; reflexivity).
  unfold APIKey.from_dict.
  destruct (forallb _ _); [|eexists; reflexivity].
  destruct (Dict.get "provider" kv); [|eexists; reflexivity].
  destruct (Dict.get "key" kv); [|eexists; reflexivity].
  destruct (Dict.get "added_at" kv); eexists; reflexivity.
Qed.

Lemma load_platforms_loop (items : list (string * value)) :
  forall (self : t) (w : world),
  exists r ps, for_each items load_platform (self, w) = (r, (set_platforms ps self, w)).
Proof.
  induction items as [|[p data] items IH]; intros self w.
  - exists (Ok tt), (platforms self). now rewrite set_platforms_same.
  - cbn [for_each].
    destruct (session_from_dict_pure data (self, w)) as [[s|e] Hs].
    + assert (Hone : load_platform (p, data) (self, w) =
                     (Ok tt, (set_platforms (Dict.set p s (platforms self)) self, w))).
      { unfold load_platform. step Hs. reflexivity. }
      step Hone.
      destruct (IH (set_platforms (Dict.set p s (platforms self)) self) w) as (r & ps & Hrun).
      rewrite Hrun. exists r, ps. reflexivity.
    + assert (Hone : load_platform (p, data) (self, w) = (Raise e, (self, w))).
      { unfold load_platform. erewrite bind_raise; [reflexivity | exact Hs]. }
      erewrite bind_raise; [| exact Hone].
      exists (Raise e), (platforms self). now rewrite set_platforms_same.
Qed.

Lemma load_api_keys_loop (items : list (string * value)) :
  forall (self : t) (w : world),
  exists r ks, for_each items load_api_key (self, w) = (r, (set_api_keys ks self, w)).
Proof.
  induction items as [|[p data] items IH]; intros self w.
  - exists (Ok tt), (api_keys self). now rewrite set_api_keys_same.
  - cbn [for_each].
    destruct (api_key_from_dict_pure data (self, w)) as [[k|e] Hk].
    + assert (Hone : load_api_key (p, data) (self, w) =
                     (Ok tt, (set_api_keys (Dict.set p k (api_keys self)) self, w))).
      { unfold load_api_key. step Hk. reflexivity. }
      step Hone.
      destruct (IH (set_api_keys (Dict.set p k (api_keys self)) self) w) as (r & ks & Hrun).
      rewrite Hrun. exists r, ks. reflexivity.
    + assert (Hone : load_api_key (p, data) (self, w) = (Raise e, (self, w))).
      { unfold load_api_key. erewrite bind_raise; [reflexivity | exact Hk]. }
      erewrite bind_raise; [| exact Hone].
      exists (Raise e), (api_keys self). now rewrite set_api_keys_same.
Qed.

Lemma load_platforms_block_spec (self : t) (w : world) :
  exists ps,
    load_platforms_block (self, w) = (Ok tt, (set_platforms ps self, w)) /\
    (missing_or_unparsable (Dict.get (sessions_file self) (files w)) = true ->
     ps = platforms self).
Proof.
  unfold load_platforms_block. run_meth. unfold Dict.mem.
  assert (Hidle : forall (r : result unit * (t * world)) (c : bool),
             r = (Ok tt, (self, w)) ->
             exists ps, r = (Ok tt, (set_platforms ps self, w)) /\
                        (c = true -> ps = platforms self)).
  { intros r c ->. exists (platforms self). now rewrite set_platforms_same. }
  destruct (Dict.get (sessions_file self) (files w)) as [[raw | doc]|] eqn:Hfile;
    cbn; rewrite ?Hfile; cbn.
  - apply Hidle; reflexivity.
  - destruct doc as [| b | n | s0 | l | top]; try (apply Hidle; reflexivity).
    cbn. unfold Dict.get_default.
    destruct (Dict.get "platforms" top) as [v|].
    + destruct v as [| b | n | s0 | l | entries]; try (apply Hidle; reflexivity).
      cbn. destruct (load_platforms_loop entries self w) as (r & ps & Hrun).
      rewrite Hrun. exists ps. split; [now destruct r as [[]|] | discriminate].
    + apply Hidle; reflexivity.
  - apply Hidle; reflexivity.
Qed.

Lemma load_api_keys_block_spec (self : t) (w : world) :
  exists ks,
    load_api_keys_block (self, w) = (Ok tt, (set_api_keys ks self, w)) /\
    (missing_or_unparsable (Dict.get (api_keys_file self) (files w)) = true ->
     ks = api_keys self).
Proof.
  unfold load_api_keys_block. run_meth. unfold Dict.mem.
  assert (Hidle : forall (r : result unit * (t * world)) (c : bool),
             r = (Ok tt, (self, w)) ->
             exists ks, r = (Ok tt, (set_api_keys ks self, w)) /\
                        (c = true -> ks = api_keys self)).
  { intros r c ->. exists (api_keys self). now rewrite set_api_keys_same. }
  destruct (Dict.get (api_keys_file self) (files w)) as [[raw | doc]|] eqn:Hfile;
    cbn; rewrite ?Hfile; cbn.
  - apply Hidle; reflexivity.
  - destruct doc as [| b | n | s0 | l | top]; try (apply Hidle; reflexivity).
    cbn. unfold Dict.get_default.
    destruct (Dict.get "keys" top) as [v|].
    + destruct v as [| b | n | s0 | l | entries]; try (apply Hidle; reflexivity).
      cbn. destruct (load_api_keys_loop entries self w) as (r & ks & Hrun).
      rewrite Hrun. exists ks. split; [now destruct r as [[]|] | discriminate].
    + apply Hidle; reflexivity.
  - apply Hidle; reflexivity.
Qed.

Lemma load_settings_block_spec (self : t) (w : world) :
  exists v, load_settings_block (self, w) = (Ok tt, (set_settings v self, w)).
Proof.
  unfold load_settings_block. run_meth. unfold Dict.mem.
  destruct (Dict.get (settings_file self) (files w)) as [[raw | doc]|] eqn:Hfile;
    cbn; rewrite ?Hfile; cbn.
  - exists (settings self). now rewrite set_store_settings_same.
  - exists doc. reflexivity.
  - exists (settings self). now rewrite set_store_settings_same.
Qed.

Lemma load_all_spec (self : t) (w : world) :
  exists ps ks v,
    _load_all (self, w) =
      (Ok tt, (set_settings v (set_api_keys ks (set_platforms ps self)), w)) /\
    (missing_or_unparsable (Dict.get (sessions_file self) (files w)) = true ->
     ps = platforms self) /\
    (missing_or_unparsable (Dict.get (api_keys_file self) (files w)) = true ->
     ks = api_keys self).
Proof.
  destruct (load_platforms_block_spec self w) as (ps & Hps & Hbad1).
  destruct (load_api_keys_block_spec (set_platforms ps self) w) as (ks & Hks & Hbad2).
  destruct (load_settings_block_spec (set_api_keys ks (set_platforms ps self)) w)
    as (v & Hv).
  exists ps, ks, v. unfold _load_all.
  step Hps. step Hks. split; [exact Hv|]. split; assumption.
Qed.

End SessionManagerProperties.

(** ** Dictionaries that are shared *)

Section SharedProperties.
Import Shared.
Variable E : Env.

Lemma at_ref_assign_eq (h : heap) (r : ref) (d : Dict.t value) :
  allocated h r -> at_ref (assign h r d) r = d.
Proof.
  unfold allocated, at_ref. revert r. induction h as [|x h IH]; intros r Hr; cbn in Hr.
  - now apply Nat.nlt_0_r in Hr.
  - destruct r as [|r]; cbn; [reflexivity|]. apply IH. now apply Nat.succ_lt_mono.
Qed.

Lemma at_ref_assign_ne (h : heap) (r r' : ref) (d : Dict.t value) :
  r <> r' -> at_ref (assign h r d) r' = at_ref h r'.
Proof.
  unfold at_ref. revert r r'. induction h as [|x h IH]; intros r r' Hne; cbn.
  - reflexivity.
  - destruct r as [|r], r' as [|r']; cbn; try reflexivity.
    + congruence.
    + apply IH. congruence.
Qed.

Lemma at_ref_app (h l : heap) (r : ref) :
  allocated h r -> at_ref (h ++ l)%list r = at_ref h r.
Proof. unfold allocated, at_ref. intros Hr. now apply app_nth1. Qed.

Lemma at_ref_fresh (h : heap) (l : heap) :
  at_ref ((h ++ [[]]) ++ l)%list (List.length h) = [].
Proof.
  unfold at_ref. rewrite <- app_assoc. rewrite app_nth2 by apply Nat.le_refl.
  now rewrite Nat.sub_diag.
Qed.

Lemma falsy_dict (d : Dict.t value) : truthy (VDict d) = false -> d = [].
Proof. now destruct d. Qed.

Lemma at_merged_target (h : heap) (target : ref) (other : option ref) :
  allocated h target ->
  at_ref (merged_into h target other) target =
    Dict.update (at_ref h target) (given h other).
Proof.
  intros Halloc. unfold merged_into, given. destruct other as [r|]; [|reflexivity].
  destruct (truthy (VDict (at_ref h r))) eqn:Ht.
  - now apply at_ref_assign_eq.
  - now rewrite (falsy_dict _ Ht).
Qed.

Lemma at_merged_other (h : heap) (target r : ref) (other : option ref) :
  target <> r -> at_ref (merged_into h target other) r = at_ref h r.
Proof.
  intros Hne. unfold merged_into. destruct other as [r0|]; [|reflexivity].
  destruct (truthy (VDict (at_ref h r0))); [now apply at_ref_assign_ne | reflexivity].
Qed.

Lemma given_merged (h : heap) (target : ref) (other arg : option ref) :
  arg <> Some target -> given (merged_into h target other) arg = given h arg.
Proof.
  intros Hne. destruct arg as [r|]; [|reflexivity]. cbn.
  apply at_merged_other. congruence.
Qed.

Lemma update_if_given_run (target : ref) (other : option ref) (self : t) (w : world) :
  update_if_given target other (self, w) =
    (Ok tt,
     (mk (sessions_file self) (platforms self) (merged_into (objects self) target other),
      w)).
Proof.
  unfold update_if_given, merged_into. run_meth. destruct self as [f ps h]; cbn.
  destruct other as [r|]; [|reflexivity].
  unfold at_ref. destruct (nth r h []); reflexivity.
Qed.

(** The run of [other or {}]: the reference it gives and the heap it
    leaves. *)
Lemma or_new_dict_run (other : option ref) (self : t) (w : world) :
  allocated_if_given (objects self) other ->
  exists r l,
    or_new_dict other (self, w) =
      (Ok r, (mk (sessions_file self) (platforms self) (objects self ++ l)%list, w)) /\
    (forall l', at_ref ((objects self ++ l) ++ l')%list r = given (objects self) other).
Proof.
  intros Halloc. unfold or_new_dict, new_dict. run_meth. destruct self as [f ps h]; cbn in *.
  assert (Hnew : exists r l,
             (Ok (List.length h), (mk f ps (h ++ [[]])%list, w)) =
               (Ok r, (mk f ps (h ++ l)%list, w)) /\
             (forall l', at_ref ((h ++ l) ++ l')%list r = [])).
  { exists (List.length h), [[]]. split; [reflexivity | apply at_ref_fresh]. }
  destruct other as [r0|]; cbn.
  - pose proof (at_ref_app h) as Happ. unfold at_ref in *.
    destruct (nth r0 h []) as [|kv d] eqn:Hr0.
    + exact Hnew.
    + exists r0, []. rewrite app_nil_r. split; [reflexivity|].
      intros l'. rewrite Happ by exact Halloc. exact Hr0.
  - exact Hnew.
Qed.

Lemma allocated_merged (h : heap) (target r : ref) (other : option ref) :
  allocated h r -> allocated (merged_into h target other) r.
Proof.
  unfold allocated, merged_into. intros Hr. destruct other as [r0|]; [|exact Hr].
  destruct (truthy (VDict (at_ref h r0))); [|exact Hr].
  assert (Hlen : forall (h0 : heap) (n : ref) (d : Dict.t value),
             List.length (assign h0 n d) = List.length h0).
  { induction h0 as [|x h0 IH]; intros n d; [reflexivity|].
    destruct n; cbn; [reflexivity | now rewrite IH]. }
  now rewrite Hlen.
Qed.

Lemma set_session_run (p : string) (s : session) (self : t) (w : world) :
  set_session p s (self, w) =
    (Ok tt, (mk (sessions_file self) (Dict.set p s (platforms self)) (objects self), w)).
Proof. reflexivity. Qed.

Lemma save_platforms_shared_run (self : t) (w : world) :
  _save_platforms E (self, w) =
    (Ok tt,
     (self,
      mkWorld (Dict.set (sessions_file self)
                 (Json (platforms_document self (isoformat_at E (ticks w)))) (files w))
              (S (ticks w)) (running w))).
Proof. reflexivity. Qed.

(** The run of [save_platform] on a platform that has a record. *)
Lemma save_platform_existing (p : string) (creds : ref) (sett meta : option ref)
    (self : t) (w : world) (s : session) :
  Dict.get p (platforms self) = Some s ->
  let s' := mkSession (platform s) creds (created_at s) (VStr (isoformat_at E (ticks w)))
              (VBool true) (settings s) (metadata s) in
  let self' := mk (sessions_file self) (Dict.set p s' (platforms self))
                  (merged_into (merged_into (objects self) (settings s) sett)
                               (metadata s) meta) in
  save_platform E p creds sett meta (self, w) =
    (Ok s',
     (self',
      mkWorld (Dict.set (sessions_file self)
                 (Json (platforms_document self' (isoformat_at E (S (ticks w))))) (files w))
              (S (S (ticks w))) (running w))).
Proof.
  intros Hget. cbn zeta. unfold save_platform.
  erewrite bind_ok; [| apply (now_run E)].
  erewrite bind_ok; [| apply get_self_run].
  rewrite Hget.
  erewrite bind_ok;
    [| erewrite bind_ok; [| apply set_session_run];
       erewrite bind_ok; [| apply update_if_given_run];
       erewrite bind_ok; [| apply update_if_given_run]; reflexivity].
  erewrite bind_ok; [| apply set_session_run].
  erewrite bind_ok; [| apply save_platforms_shared_run].
  cbn [platforms objects sessions_file files ticks running].
  rewrite DictFacts.set_set. reflexivity.
Qed.

(** What a reader sees of the record after the two merges, when nothing
    is shared. *)
Lemma view_after_merges (h : heap) (s : session) (creds : ref) (sett meta : option ref)
    (stamp : value) :
  allocated h (settings s) ->
  allocated h (metadata s) ->
  settings s <> metadata s ->
  creds <> settings s ->
  creds <> metadata s ->
  meta <> Some (settings s) ->
  view (merged_into (merged_into h (settings s) sett) (metadata s) meta)
       (mkSession (platform s) creds (created_at s) stamp (VBool true)
                  (settings s) (metadata s)) =
    PlatformSession.mk (platform s) (VDict (at_ref h creds)) (created_at s) stamp
      (VBool true)
      (VDict (Dict.update (at_ref h (settings s)) (given h sett)))
      (VDict (Dict.update (at_ref h (metadata s)) (given h meta))).
Proof.
  intros HS HM Hsm Hcs Hcm Hms.
  unfold view. cbn [platform credentials created_at last_used is_active settings metadata].
  f_equal.
  - rewrite !at_merged_other by congruence. reflexivity.
  - rewrite at_merged_other by congruence. rewrite at_merged_target by exact HS.
    reflexivity.
  - rewrite at_merged_target by (now apply allocated_merged).
    rewrite at_merged_other by congruence. rewrite given_merged by exact Hms.
    reflexivity.
Qed.

(** C4 (as the code has it).  [save_platform] on a platform that has a
    record makes the dictionary it is given the record's credentials,
    keeps platform and created_at, sets is_active to True and last_used
    to the current time, and merges the supplied settings and metadata
    into the record's own dictionaries, in place: a supplied key wins, a
    stored key that was not supplied is kept, and an argument that is
    empty or left out changes nothing.  This is what a reader of the
    record sees afterwards provided the record's settings and metadata
    are two different dictionary objects, the new credentials are
    neither of them, and the metadata argument is not the record's
    settings object.  On a platform without a record the call creates
    the record from the supplied dictionaries, created_at and last_used
    both the current time.  In both cases the platforms file is written
    from the resulting state. *)
Theorem save_platform_upserts (p : string) (creds : ref) (sett meta : option ref)
    (self : t) (w : world) :
  let h := objects self in
  let stamp := VStr (isoformat_at E (ticks w)) in
  (forall s,
     Dict.get p (platforms self) = Some s ->
     allocated h (settings s) ->
     allocated h (metadata s) ->
     settings s <> metadata s ->
     creds <> settings s ->
     creds <> metadata s ->
     meta <> Some (settings s) ->
     let s' := mkSession (platform s) creds (created_at s) stamp (VBool true)
                 (settings s) (metadata s) in
     (exists self' w',
        save_platform E p creds sett meta (self, w) = (Ok s', (self', w')) /\
        Dict.get p (platforms self') = Some s' /\
        view (objects self') s' =
          PlatformSession.mk (platform s) (VDict (at_ref h creds)) (created_at s) stamp
            (VBool true)
            (VDict (Dict.update (at_ref h (settings s)) (given h sett)))
            (VDict (Dict.update (at_ref h (metadata s)) (given h meta))) /\
        Dict.get (sessions_file self) (files w') =
          Some (Json (platforms_document self' (isoformat_at E (S (ticks w)))))) /\
     (NoDup (Dict.keys (given h sett)) ->
      forall k, Dict.get k (Dict.update (at_ref h (settings s)) (given h sett)) =
                match Dict.get k (given h sett) with
                | Some v => Some v
                | None => Dict.get k (at_ref h (settings s))
                end) /\
     (NoDup (Dict.keys (given h meta)) ->
      forall k, Dict.get k (Dict.update (at_ref h (metadata s)) (given h meta)) =
                match Dict.get k (given h meta) with
                | Some v => Some v
                | None => Dict.get k (at_ref h (metadata s))
                end)) /\
  (Dict.get p (platforms self) = None ->
   allocated h creds ->
   allocated_if_given h sett ->
   allocated_if_given h meta ->
   exists s' self' w',
     save_platform E p creds sett meta (self, w) = (Ok s', (self', w')) /\
     Dict.get p (platforms self') = Some s' /\
     view (objects self') s' =
       PlatformSession.mk (VStr p) (VDict (at_ref h creds)) stamp stamp (VBool true)
         (VDict (given h sett)) (VDict (given h meta)) /\
     Dict.get (sessions_file self) (files w') =
       Some (Json (platforms_document self' (isoformat_at E (S (ticks w)))))).
Proof.
  cbn zeta. split.
  - intros s Hget HS HM Hsm Hcs Hcm Hms. split; [|split].
    2, 3: intros Hnd k; now apply DictFacts.get_update.
    rewrite (save_platform_existing p creds sett meta self w s Hget).
    do 2 eexists. split; [reflexivity|]. cbn [platforms objects files sessions_file].
    split; [apply DictFacts.get_set_eq|]. split; [|apply DictFacts.get_set_eq].
    now apply view_after_merges.
  - intros Hnone Hc Hs Hm.
    destruct (or_new_dict_run sett self (mkWorld (files w) (S (ticks w)) (running w)) Hs)
      as (sl & l1 & Hrun1 & Hat1).
    set (self1 := mk (sessions_file self) (platforms self) (objects self ++ l1)%list) in *.
    assert (Hm1 : allocated_if_given (objects self1) meta).
    { destruct meta as [b|]; [|exact I]. unfold allocated_if_given, allocated in *.
      unfold self1. cbn [objects]. rewrite length_app. now apply Nat.lt_lt_add_r. }
    destruct (or_new_dict_run meta self1 (mkWorld (files w) (S (ticks w)) (running w)) Hm1)
      as (ml & l2 & Hrun2 & Hat2).
    unfold save_platform.
    erewrite bind_ok; [| apply (now_run E)].
    erewrite bind_ok; [| apply get_self_run].
    rewrite Hnone.
    erewrite bind_ok;
      [| erewrite bind_ok; [| exact Hrun1]; erewrite bind_ok; [| exact Hrun2]; reflexivity].
    erewrite bind_ok; [| apply set_session_run].
    erewrite bind_ok; [| apply save_platforms_shared_run].
    do 3 eexists. split; [reflexivity|]. cbn [platforms objects files sessions_file self1].
    split; [apply DictFacts.get_set_eq|]. split; [|apply DictFacts.get_set_eq].
    unfold view. cbn [platform credentials created_at last_used is_active settings metadata].
    f_equal.
    + rewrite <- app_assoc. now rewrite at_ref_app.
    + now rewrite Hat1.
    + specialize (Hat2 []). rewrite app_nil_r in Hat2. cbn [objects self1] in Hat2.
      rewrite Hat2. destruct meta as [b|]; [|reflexivity]. cbn [given].
      f_equal. now apply at_ref_app.
Qed.

(** Where nothing is shared, the records that hold their dictionaries by
    value tell the same: [SessionManager.save_platform], given the
    dictionaries themselves, returns the record that a reader sees after
    the call on the objects. *)
Lemma save_platform_agrees_by_value (p : string) (creds : ref) (sett meta : option ref)
    (self : t) (w : world) (by_value : SessionManager.t) (s : session) :
  let h := objects self in
  Dict.get p (platforms self) = Some s ->
  Dict.get p (SessionManager.platforms by_value) = Some (view h s) ->
  allocated h (settings s) ->
  allocated h (metadata s) ->
  settings s <> metadata s ->
  creds <> settings s ->
  creds <> metadata s ->
  meta <> Some (settings s) ->
  exists s' st' sv' stv',
    save_platform E p creds sett meta (self, w) = (Ok s', st') /\
    SessionManager.save_platform E p (at_ref h creds)
        (option_map (at_ref h) sett) (option_map (at_ref h) meta) (by_value, w) =
      (Ok sv', stv') /\
    view (objects (fst st')) s' = sv'.
Proof.
  cbn zeta. intros Hget Hgetv HS HM Hsm Hcs Hcm Hms.
  destruct (proj1 (save_platform_by_value E p (at_ref (objects self) creds)
                     (option_map (at_ref (objects self)) sett)
                     (option_map (at_ref (objects self)) meta) by_value w)
              (view (objects self) s) (at_ref (objects self) (settings s))
              (at_ref (objects self) (metadata s)) Hgetv eq_refl eq_refl)
    as [(selfv' & wv' & Hrunv & _) _].
  do 4 eexists. split; [exact (save_platform_existing p creds sett meta self w s Hget)|].
  split; [exact Hrunv|].
  cbn [fst objects]. rewrite view_after_merges by assumption.
  now destruct sett, meta.
Qed.

End SharedProperties.

(** ** Both stores *)

Section Startup.
Variable E : Env.

(** C9.  When the services file, the platforms file or the API keys file
    is missing or cannot be parsed, constructing the store returns the
    object, raises nothing, leaves the world alone, and the part of the
    store that the file backs is empty. *)
Theorem stores_start_empty_on_bad_files (dir1 dir2 : option string) (w : world) :
  (exists sm,
     ServiceManager.__init__ E dir1 w = (Ok sm, w) /\
     (missing_or_unparsable
        (Dict.get (ServiceManager.services_file sm) (files w)) = true ->
      ServiceManager.services sm = [])) /\
  (exists ss,
     SessionManager.__init__ E dir2 w = (Ok ss, w) /\
     (missing_or_unparsable
        (Dict.get (SessionManager.sessions_file ss) (files w)) = true ->
      SessionManager.platforms ss = []) /\
     (missing_or_unparsable
        (Dict.get (SessionManager.api_keys_file ss) (files w)) = true ->
      SessionManager.api_keys ss = [])).
Proof.
  split.
  - unfold ServiceManager.__init__. cbn zeta.
    set (d := dir_or_default E dir1 "services").
    set (blank := ServiceManager.mk d (path_join d "services.json") (path_join d "logs")
                    Dict.empty Dict.empty).
    destruct (load_services_spec blank w) as (svcs & Hrun & Hbad & _).
    rewrite Hrun. eexists. split; [reflexivity|]. exact Hbad.
  - unfold SessionManager.__init__. cbn zeta.
    set (d := dir_or_default E dir2 "sessions").
    set (blank := SessionManager.mk d (path_join d "platforms.json")
                    (path_join d "api_keys.json") (path_join d "settings.json")
                    Dict.empty Dict.empty (VDict [])).
    destruct (load_all_spec blank w) as (ps & ks & v & Hrun & Hbad1 & Hbad2).
    rewrite Hrun. eexists. split; [reflexivity|]. split; assumption.
Qed.

End Startup.

(** ** Evaluations on the sample hosts *)

Section Evaluations.
Import ServiceManager Samples.

(** Batch isolation: of three services one cannot be launched; the two
    others are started, and the map tells the failure apart. *)
Example start_all_trio :
  exists results self' w',
    start_all picky (manager_trio, world_quiet) = (Ok results, (self', w')) /\
    option_map is_success (Dict.get "alpha" results) = Some true /\
    option_map is_success (Dict.get "broken" results) = Some false /\
    option_map is_success (Dict.get "gamma" results) = Some true /\
    option_map status (Dict.get "alpha" (services self')) = Some "running" /\
    option_map status (Dict.get "broken" (services self')) = Some "crashed" /\
    option_map status (Dict.get "gamma" (services self')) = Some "running" /\
    running w' = [4001; 4000].
Proof. do 3 eexists. split; [vm_compute; reflexivity|]. vm_compute. repeat split. Qed.

(** Register, start, query, stop on the calm host. *)
Example lifecycle_on_calm :
  let st0 := (manager [] [], world_quiet) in
  let st1 := final (create_service calm "demo" "demo" "sleep 9999" true st0) in
  let st2 := final (start_service calm "demo" st1) in
  let st3 := final (stop_service calm "demo" st2) in
  option_map pid (Dict.get "demo" (services (fst st2))) = Some (VInt 4000) /\
  reported_status (answer (get_service_status "demo" st2)) = Some (VStr "running") /\
  running (snd st2) = [4000] /\
  option_map pid (Dict.get "demo" (services (fst st3))) = Some VNone /\
  option_map status (Dict.get "demo" (services (fst st3))) = Some "stopped" /\
  processes (fst st3) = [] /\
  running (snd st3) = [].
Proof. vm_compute. repeat split. Qed.

(** The merge example of the specification: a second save replaces the
    credentials and merges the metadata. *)
Example save_platform_twice :
  let st1 := final (Shared.save_platform calm "telegram" 0%nat None (Some 1%nat)
                      (shared_empty, world_quiet)) in
  let st2 := final (Shared.save_platform calm "telegram" 2%nat None (Some 3%nat) st1) in
  option_map (Shared.view (Shared.objects (fst st2)))
             (Dict.get "telegram" (Shared.platforms (fst st2))) =
    Some (PlatformSession.mk (VStr "telegram") (VDict [("token", VStr "B")])
            (VStr "2024-05-01T12:00:00") (VStr "2024-05-01T12:00:02") (VBool true)
            (VDict []) (VDict [("x", VInt 1); ("y", VInt 2)])).
Proof. vm_compute. reflexivity. Qed.

(** *** C1 *)

Lemma start_service_running_refused_witness :
  Dict.get "bot" (services manager_running) = Some bot /\
  Dict.get "bot" (processes manager_running) = Some (mkPopen 4242) /\
  poll_is_none world_running (mkPopen 4242) = true /\
  start_service calm "bot" (manager_running, world_running) =
    (Ok (failure "Service 'bot' is already running"), (manager_running, world_running)).
Proof.
  split; [reflexivity|]. split; [reflexivity|]. split; [reflexivity|].
  apply (start_service_running_refused calm "bot" manager_running world_running
           bot (mkPopen 4242)); reflexivity.
Defined.

(** Starting the running service [bot] does not return a success result. *)
Lemma start_service_running_not_success :
  Dict.get "bot" (services manager_running) = Some bot /\
  Dict.get "bot" (processes manager_running) = Some (mkPopen 4242) /\
  poll_is_none world_running (mkPopen 4242) = true /\
  exists r,
    answer (start_service calm "bot" (manager_running, world_running)) = Ok r /\
    is_success r = false.
Proof. repeat split. eexists. split; [vm_compute; reflexivity | reflexivity]. Qed.

(** *** C2 *)

Lemma init_loads_persisted_witness :
  (exists self,
     __init__ calm (Some "/srv") world_saved = (Ok self, world_saved) /\
     services self =
       [("bot",
         mkService (VStr "bot") (VStr "telegram") (VStr "python3 bot.py") (VInt 4242)
           "stopped" (VStr "2024-05-01T11:59:00") (VStr "/srv/logs/bot.log")
           (VBool true) 0 5)]) /\
  (exists self,
     __init__ calm (Some "/srv") world_services_damaged = (Ok self, world_services_damaged) /\
     services self =
       [("alpha",
         mkService (VStr "alpha") (VStr "unknown") (VStr "sleep 30") (VInt 77)
           "stopped" VNone (VStr "") (VBool true) 0 5)]).
Proof.
  split.
  - destruct (init_loads_persisted calm (Some "/srv") world_saved)
      as (self & Hinit & _ & _ & Hrecords).
    exists self. split; [exact Hinit|].
    vm_compute in Hinit. injection Hinit as <-.
    exact (Hrecords (NoDup_cons "bot" (fun H : In "bot" [] => H) (NoDup_nil string))).
  - destruct (init_loads_persisted calm (Some "/srv") world_services_damaged)
      as (self & Hinit & _ & _ & Hrecords).
    exists self. split; [exact Hinit|].
    vm_compute in Hinit. injection Hinit as <-.
    apply Hrecords. repeat constructor; cbn; intuition discriminate.
Defined.

(** A services file written while [bot] ran with pid 4242: the loaded
    record is stopped and still carries pid 4242. *)
Lemma init_keeps_persisted_pid :
  Dict.get "/srv/services.json" (files world_saved) =
    Some (Json (services_document [("bot", bot)] "2024-05-01T11:59:01")) /\
  exists self svc,
    __init__ calm (Some "/srv") world_saved = (Ok self, world_saved) /\
    Dict.get "bot" (services self) = Some svc /\
    status svc = "stopped" /\
    pid svc = VInt 4242 /\
    pid svc <> VNone.
Proof.
  split; [reflexivity|]. do 2 eexists.
  split; [vm_compute; reflexivity|]. split; [reflexivity|].
  repeat split. discriminate.
Qed.

(** *** C3 *)

Lemma stop_service_tracked_witness :
  Dict.get "bot" (services manager_running) = Some bot /\
  Dict.get "bot" (processes manager_running) = Some (mkPopen 4242) /\
  (exists self' w',
     stop_service stubborn "bot" (manager_running, world_running) =
       (Ok (VDict [("success", VBool true); ("message", VStr "Service 'bot' stopped")]),
        (self', w')) /\
     processes self' = [] /\
     option_map status (Dict.get "bot" (services self')) = Some "stopped" /\
     option_map pid (Dict.get "bot" (services self')) = Some VNone /\
     running w' = []) /\
  stop_service no_signal "bot" (manager_running, world_running) =
    (Ok (VDict [("success", VBool false);
                ("error", VStr "[Errno 1] Operation not permitted")]),
     (manager_running, world_running)).
Proof.
  split; [reflexivity|]. split; [reflexivity|]. split.
  - destruct (stop_service_tracked stubborn "bot" manager_running world_running
                bot (mkPopen 4242) eq_refl eq_refl) as (Hrun & _ & Hget & _).
    do 2 eexists. split; [exact Hrun|]. split; [reflexivity|].
    split; [now rewrite Hget|]. split; [now rewrite Hget | reflexivity].
  - exact (stop_service_tracked no_signal "bot" manager_running world_running
             bot (mkPopen 4242) eq_refl eq_refl).
Defined.

(** On a host where signalling raises, [stop_service] returns a failure
    and the service is left tracked, "running" and with its pid. *)
Lemma stop_service_signal_error_keeps_handle :
  Dict.get "bot" (services manager_running) = Some bot /\
  Dict.get "bot" (processes manager_running) = Some (mkPopen 4242) /\
  poll_is_none world_running (mkPopen 4242) = true /\
  exists r self' w',
    stop_service no_signal "bot" (manager_running, world_running) = (Ok r, (self', w')) /\
    is_success r = false /\
    Dict.get "bot" (processes self') = Some (mkPopen 4242) /\
    option_map status (Dict.get "bot" (services self')) = Some "running" /\
    option_map pid (Dict.get "bot" (services self')) = Some (VInt 4242) /\
    Dict.get (services_file self') (files w') = None.
Proof.
  repeat split. do 3 eexists. split; [vm_compute; reflexivity|]. repeat split.
Qed.

(** *** C5 *)

Lemma get_service_status_reports_witness :
  Dict.get "bot" (services manager_running) = Some bot /\
  reported_status (answer (get_service_status "bot" (manager_running, world_running))) =
    Some (VStr "running") /\
  reported_status (answer (get_service_status "bot" (manager_running, world_quiet))) =
    Some (VStr "crashed").
Proof.
  split; [reflexivity|]. split.
  - exact (get_service_status_reports "bot" manager_running world_running bot eq_refl).
  - exact (get_service_status_reports "bot" manager_running world_quiet bot eq_refl).
Defined.

(** After a failed launch the record says "crashed" and no handle is
    tracked; the status query then reports "stopped", not "crashed". *)
Lemma status_untracked_is_stopped :
  fst (final (start_service no_fork "bot" (manager_idle, world_quiet))) = manager_crashed /\
  option_map status (Dict.get "bot" (services manager_crashed)) = Some "crashed" /\
  Dict.get "bot" (processes manager_crashed) = None /\
  reported_status (answer (get_service_status "bot" (manager_crashed, world_quiet))) =
    Some (VStr "stopped") /\
  reported_status (answer (get_service_status "bot" (manager_crashed, world_quiet))) <>
    Some (VStr "crashed").
Proof.
  split; [vm_compute; reflexivity|]. split; [reflexivity|]. split; [reflexivity|].
  split; [vm_compute; reflexivity|]. vm_compute. discriminate.
Qed.

(** *** C6 *)

Lemma stop_service_not_tracked_witness :
  Dict.get "bot" (services manager_idle) = Some idle_bot /\
  Dict.get "bot" (processes manager_idle) = None /\
  exists st',
    stop_service calm "bot" (manager_idle, world_quiet) =
      (Ok (success_message "Service 'bot' was not running"), st') /\
    is_success (success_message "Service 'bot' was not running") = true.
Proof.
  split; [reflexivity|]. split; [reflexivity|].
  destruct (stop_service_not_tracked calm "bot" manager_idle world_quiet idle_bot
              eq_refl eq_refl) as (Hrun & Hok & _).
  eexists. split; [exact Hrun | exact Hok].
Defined.

(** *** C7 *)

Lemma start_service_launch_failure_witness :
  Dict.get "bot" (services manager_idle) = Some idle_bot /\
  tracked_running manager_idle world_quiet "bot" = false /\
  exists w',
    start_service no_fork "bot" (manager_idle, world_quiet) =
      (Ok (VDict [("success", VBool false);
                  ("error", VStr "[Errno 11] Resource temporarily unavailable")]),
       (manager_crashed, w')) /\
    option_map status (Dict.get "bot" (services manager_crashed)) = Some "crashed" /\
    running w' = [].
Proof.
  split; [reflexivity|]. split; [reflexivity|].
  destruct (start_service_launch_failure no_fork "bot" manager_idle world_quiet idle_bot
              (Error "OSError" "[Errno 11] Resource temporarily unavailable")
              eq_refl eq_refl (or_intror (conj eq_refl eq_refl)))
    as (w' & Hrun & _ & Hsame).
  exists w'. split; [exact Hrun|]. split; [reflexivity | exact Hsame].
Defined.

(** *** C8 *)

Lemma batches_are_isolated_witness :
  (exists outs st',
     start_all picky (manager_trio, world_quiet) = (Ok outs, st') /\
     Dict.keys outs = ["alpha"; "broken"; "gamma"] /\
     threaded (start_service picky) manager_trio ["alpha"; "broken"; "gamma"]
       (manager_trio, world_quiet) outs st') /\
  (exists outs st',
     stop_all lookup (manager_pair, world_pair) = (Ok outs, st') /\
     Dict.keys outs = ["alpha"; "gamma"] /\
     threaded (stop_service lookup) manager_pair ["alpha"; "gamma"]
       (manager_pair, world_pair) outs st').
Proof.
  assert (Hthree : forall a b c : string, a <> b -> a <> c -> b <> c -> NoDup [a; b; c]).
  { intros a b c Hab Hac Hbc. repeat constructor; cbn; intuition congruence. }
  assert (Htwo : forall a b : string, a <> b -> NoDup [a; b]).
  { intros a b Hab. repeat constructor; cbn; intuition congruence. }
  split.
  - destruct (batches_are_isolated picky manager_trio world_quiet) as [Hstart _].
    + apply Hthree; discriminate.
    + constructor.
    + destruct Hstart as (outs & st' & Hrun & Hkeys & Hthread & _).
      exists outs, st'. split; [exact Hrun|]. split; [exact Hkeys | exact Hthread].
  - destruct (batches_are_isolated lookup manager_pair world_pair) as [_ Hstop].
    + apply Htwo; discriminate.
    + apply Htwo; discriminate.
    + destruct Hstop as (outs & st' & Hrun & Hkeys & Hthread & _).
      exists outs, st'. split; [exact Hrun|]. split; [exact Hkeys | exact Hthread].
Defined.

(** [stop_all] over two tracked services, the child of the first gone:
    the first stop fails and keeps its handle, the second goes through. *)
Example stop_all_pair :
  exists results self' w',
    stop_all lookup (manager_pair, world_pair) = (Ok results, (self', w')) /\
    Dict.get "alpha" results =
      Some (VDict [("success", VBool false); ("error", VStr "[Errno 3] No such process")]) /\
    Dict.get "gamma" results =
      Some (VDict [("success", VBool true); ("message", VStr "Service 'gamma' stopped")]) /\
    Dict.keys (processes self') = ["alpha"] /\
    option_map status (Dict.get "alpha" (services self')) = Some "running" /\
    option_map status (Dict.get "gamma" (services self')) = Some "stopped" /\
    running w' = [].
Proof. do 3 eexists. split; [vm_compute; reflexivity|]. vm_compute. repeat split. Qed.

(** A registered service without a handle has no entry in the map that
    [stop_all] returns. *)
Lemma stop_all_skips_untracked :
  Dict.mem "bot" (services manager_idle) = true /\
  exists results st',
    stop_all calm (manager_idle, world_quiet) = (Ok results, st') /\
    Dict.get "bot" results = None.
Proof. split; [reflexivity|]. do 2 eexists. split; reflexivity. Qed.

(** *** C9 *)

Lemma stores_start_empty_on_bad_files_witness :
  (exists sm,
     init_services = (Ok sm, world_garbled) /\
     services sm = []) /\
  (exists ss,
     init_sessions = (Ok ss, world_garbled) /\
     SessionManager.platforms ss = [] /\
     SessionManager.api_keys ss = []).
Proof.
  unfold init_services, init_sessions.
  destruct (stores_start_empty_on_bad_files calm (Some "/srv") (Some "/srv") world_garbled)
    as [(sm & Hsm & Hbad) (ss & Hss & Hbad1 & Hbad2)].
  split.
  - exists sm. split; [exact Hsm|]. apply Hbad.
    vm_compute in Hsm. injection Hsm as <-. reflexivity.
  - exists ss. split; [exact Hss|].
    vm_compute in Hss. injection Hss as <-.
    split; [apply Hbad1 | apply Hbad2]; reflexivity.
Defined.

(** *** C4 *)

Lemma save_platform_upserts_witness :
  (Dict.get "telegram" (Shared.platforms shared_store) = Some shared_telegram /\
   exists s' self' w',
     Shared.save_platform calm "telegram" 3%nat None (Some 4%nat)
         (shared_store, world_quiet) =
       (Ok s', (self', w')) /\
     Shared.view (Shared.objects self') s' =
       PlatformSession.mk (VStr "telegram")
         (VDict [("token", VStr "B")]) (VStr "2024-04-30T08:00:00")
         (VStr "2024-05-01T12:00:00") (VBool true)
         (VDict [("parse_mode", VStr "html")])
         (VDict [("x", VInt 1); ("y", VInt 2)])) /\
  (Dict.get "telegram" (Shared.platforms shared_empty) = None /\
   exists s' self' w',
     Shared.save_platform calm "telegram" 0%nat None (Some 1%nat)
         (shared_empty, world_quiet) =
       (Ok s', (self', w')) /\
     Shared.view (Shared.objects self') s' =
       PlatformSession.mk (VStr "telegram")
         (VDict [("token", VStr "A")]) (VStr "2024-05-01T12:00:00")
         (VStr "2024-05-01T12:00:00") (VBool true)
         (VDict []) (VDict [("x", VInt 1)])).
Proof.
  split.
  - split; [reflexivity|].
    destruct (save_platform_upserts calm "telegram" 3%nat None (Some 4%nat)
                shared_store world_quiet) as [Hupdate _].
    destruct (Hupdate shared_telegram eq_refl) as [(self' & w' & Hrun & _ & Hview & _) _].
    + unfold Shared.allocated. cbn. repeat constructor.
    + unfold Shared.allocated. cbn. repeat constructor.
    + discriminate.
    + discriminate.
    + discriminate.
    + discriminate.
    + do 3 eexists. split; [exact Hrun | exact Hview].
  - split; [reflexivity|].
    destruct (save_platform_upserts calm "telegram" 0%nat None (Some 1%nat)
                shared_empty world_quiet) as [_ Hcreate].
    destruct (Hcreate eq_refl) as (s' & self' & w' & Hrun & _ & Hview & _).
    + unfold Shared.allocated. cbn. repeat constructor.
    + exact I.
    + unfold Shared.allocated_if_given, Shared.allocated. cbn. repeat constructor.
    + do 3 eexists. split; [exact Hrun | exact Hview].
Defined.

(** One dictionary given as settings and as metadata of a new record is
    one object: a later save that merges settings changes what the
    record shows as metadata, though no metadata was given. *)
Lemma save_platform_shared_dictionary :
  let st1 := final (Shared.save_platform calm "telegram" 0%nat (Some 1%nat) (Some 1%nat)
                      (shared_empty, world_quiet)) in
  let st2 := final (Shared.save_platform calm "telegram" 2%nat (Some 3%nat) None st1) in
  let metadata_in (st : Shared.t * world) :=
    option_map (fun s => PlatformSession.metadata (Shared.view (Shared.objects (fst st)) s))
               (Dict.get "telegram" (Shared.platforms (fst st))) in
  metadata_in st1 = Some (VDict [("x", VInt 1)]) /\
  metadata_in st2 = Some (VDict [("x", VInt 1); ("y", VInt 2)]) /\
  metadata_in st2 <> metadata_in st1.
Proof. vm_compute. repeat split. discriminate. Qed.

(** *** C10 *)

Lemma save_api_key_replaces_witness :
  Dict.get "openai" (SessionManager.api_keys store_one) = Some openai_key /\
  exists self' w',
    SessionManager.save_api_key calm "openai" "sk-new" (store_one, world_quiet) =
      (Ok (APIKey.mk (VStr "openai") (VStr "sk-new")
             (VStr "2024-05-01T12:00:00") (VInt 0) (VInt (-1)) (VBool true)
             (VStr "2024-05-01T12:00:00")),
       (self', w')).
Proof.
  split; [reflexivity|].
  destruct (save_api_key_replaces calm "openai" "sk-new" store_one world_quiet openai_key
              eq_refl) as (self' & w' & Hrun & _).
  exists self', w'. exact Hrun.
Defined.

End Evaluations.

(** * Further properties of the process supervisor *)

Section ServiceManagerMore.
Import ServiceManager.
Variable E : Env.

#[local] Hint Unfold update_service _save_services open_log Popen_shell killpg reaped
  wait_timeout wait : meth.

Lemma update_service_run (nm : string) (f : Service -> Service) (self : t) (w : world)
    (svc : Service) :
  Dict.get nm (services self) = Some svc ->
  update_service nm f (self, w) =
    (Ok tt, (set_services (Dict.set nm (f svc) (services self)) self, w)).
Proof. intros H. unfold update_service. run_meth. now rewrite H. Qed.

Lemma save_services_run (self : t) (w : world) :
  _save_services E (self, w) = (Ok tt, (self, saved E self w)).
Proof. reflexivity. Qed.

Lemma touch_ticks (w : world) (v : value) : ticks (touch w v) = ticks w.
Proof.
  unfold touch. destruct v; try reflexivity. now destruct (Dict.mem s (files w)).
Qed.

Lemma touch_running (w : world) (v : value) : running (touch w v) = running w.
Proof.
  unfold touch. destruct v; try reflexivity. now destruct (Dict.mem s (files w)).
Qed.

(** The run of [start_service] when the launch goes through. *)
Lemma start_service_runs (nm : string) (self : t) (w : world) (svc : Service)
    (child : Z) :
  Dict.get nm (services self) = Some svc ->
  tracked_running self w nm = false ->
  open_append E w (log_path_of self nm svc) = None ->
  spawn E (touch w (log_path_of self nm svc)) (command svc) = Ok child ->
  let w1 := touch w (log_path_of self nm svc) in
  let self' := started nm child (isoformat_at E (ticks w)) svc self in
  start_service E nm (self, w) =
    (Ok (start_answer nm child),
     (self', saved E self' (mkWorld (files w1) (S (ticks w)) (child :: running w)))).
Proof.
  intros Hs Hnot Hopen Hspawn. cbn zeta. unfold tracked_running in Hnot.
  unfold start_service. run_meth. rewrite Hs. cbn. rewrite Hnot.
  run_meth. rewrite Hopen. cbn. rewrite Hspawn. cbn. run_meth.
  rewrite Hs. cbn. rewrite !DictFacts.get_set_eq. cbn. rewrite !DictFacts.get_set_eq. cbn.
  rewrite !DictFacts.set_set. rewrite touch_ticks, touch_running.
  reflexivity.
Qed.

(** The run of [start_service] on a service whose handle is live. *)
Lemma start_service_live (nm : string) (self : t) (w : world) (svc : Service) (p : Popen) :
  Dict.get nm (services self) = Some svc ->
  Dict.get nm (processes self) = Some p ->
  poll_is_none w p = true ->
  start_service E nm (self, w) =
    (Ok (failure ("Service '" ++ nm ++ "' is already running")), (self, w)).
Proof.
  intros Hs Hp Hlive. unfold start_service. run_meth.
  rewrite Hs. cbn. rewrite Hp, Hlive. reflexivity.
Qed.

Lemma poll_head (fs : Dict.t file_content) (n : nat) (child : Z) (rest : list Z) :
  poll_is_none (mkWorld fs n (child :: rest)) (mkPopen child) = true.
Proof. unfold poll_is_none. cbn. now rewrite Z.eqb_refl. Qed.

Lemma poll_removed (fs : Dict.t file_content) (n : nat) (p : Popen) (l : list Z) :
  poll_is_none (mkWorld fs n (remove_pid (popen_pid p) l)) p = false.
Proof.
  unfold poll_is_none, remove_pid. cbn.
  apply not_true_is_false. intros Hex. apply existsb_exists in Hex.
  destruct Hex as [q [Hin Hq]]. apply filter_In in Hin. destruct Hin as [_ Hne].
  apply Z.eqb_eq in Hq. subst q. rewrite Z.eqb_refl in Hne. discriminate.
Qed.

(** The run of [stop_service] on a tracked service when no signal call
    raises. *)
Lemma stop_service_runs (nm : string) (self : t) (w : world) (svc : Service) (p : Popen) :
  Dict.get nm (services self) = Some svc ->
  Dict.get nm (processes self) = Some p ->
  signalling E w p = None ->
  stop_service E nm (self, w) =
    (Ok (success_message ("Service '" ++ nm ++ "' stopped")),
     (stopped nm svc self,
      saved E (stopped nm svc self)
        (mkWorld (files w) (ticks w) (remove_pid (popen_pid p) (running w))))).
Proof.
  intros Hs Hp. unfold signalling, stop_service. run_meth.
  rewrite Hs. cbn. rewrite Hp. cbn.
  destruct (signal_group E w (popen_pid p) SIGTERM) as [e|] eqn:Hterm; [discriminate|].
  cbn.
  destruct (poll_is_none w p && negb (exits_in_grace E w (popen_pid p))) eqn:Hwait; cbn.
  - intros Hkill. rewrite Hkill. cbn. run_meth. rewrite Hs. cbn.
    rewrite DictFacts.get_set_eq. cbn. rewrite DictFacts.set_set. reflexivity.
  - intros _. run_meth. rewrite Hs. cbn.
    rewrite DictFacts.get_set_eq. cbn. rewrite DictFacts.set_set. reflexivity.
Qed.

(** The run of [stop_service] on a tracked service when a signal call
    raises. *)
Lemma stop_service_fails (nm : string) (self : t) (w : world) (svc : Service) (p : Popen)
    (e : exn) :
  Dict.get nm (services self) = Some svc ->
  Dict.get nm (processes self) = Some p ->
  signalling E w p = Some e ->
  stop_service E nm (self, w) = (Ok (failure (str_exn e)), (self, w)).
Proof.
  intros Hs Hp. unfold signalling, stop_service. run_meth.
  rewrite Hs. cbn. rewrite Hp. cbn.
  destruct (signal_group E w (popen_pid p) SIGTERM) as [e0|] eqn:Hterm; cbn.
  { now intros [= ->]. }
  destruct (poll_is_none w p && negb (exits_in_grace E w (popen_pid p))) eqn:Hwait; cbn.
  - intros Hkill. rewrite Hkill. reflexivity.
  - discriminate.
Qed.

Lemma signalling_delivered (w : world) (p : Popen) :
  signals_delivered E -> signalling E w p = None.
Proof.
  intros H. unfold signalling. rewrite H.
  destruct (poll_is_none w p && negb (exits_in_grace E w (popen_pid p))); [apply H | reflexivity].
Qed.

(** X1.  When a registered service is not already running, its log can
    be opened and its command is spawned as the child [child],
    [start_service] returns the success result with that pid, tracks a
    handle for the child, sets the record's pid to the child's pid, its
    status to "running" and its started_at to the current time, leaving
    its other fields and the other services as they were, and writes the
    services file from that state; the process table has gained that
    child and nothing else. *)
Theorem start_service_launches (nm : string) (self : t) (w : world) (svc : Service)
    (child : Z) :
  Dict.get nm (services self) = Some svc ->
  tracked_running self w nm = false ->
  open_append E w (log_path_of self nm svc) = None ->
  spawn E (touch w (log_path_of self nm svc)) (command svc) = Ok child ->
  let svc' := mkService (name svc) (platform svc) (command svc) (VInt child) "running"
                (VStr (isoformat_at E (ticks w))) (log_file svc) (auto_restart svc)
                (restart_count svc) (max_restarts svc) in
  exists self' w',
    start_service E nm (self, w) =
      (Ok (VDict [("success", VBool true);
                  ("pid", VInt child);
                  ("message", VStr ("Service '" ++ nm ++ "' started with PID "
                                      ++ str_of_int child))]),
       (self', w')) /\
    Dict.get nm (processes self') = Some (mkPopen child) /\
    Dict.get nm (services self') = Some svc' /\
    (forall k, k <> nm -> same_view k self self') /\
    running w' = child :: running w /\
    Dict.get (services_file self) (files w') =
      Some (Json (services_document (services self') (isoformat_at E (S (ticks w))))).
Proof.
  intros Hs Hnot Hopen Hspawn. cbn zeta.
  do 2 eexists. split; [exact (start_service_runs nm self w svc child Hs Hnot Hopen Hspawn)|].
  unfold started, saved. cbn.
  rewrite !DictFacts.get_set_eq. repeat split.
  - cbn. now rewrite DictFacts.get_set_ne by congruence.
  - cbn. now rewrite DictFacts.get_set_ne by congruence.
Qed.

Lemma log_path_launched (nm : string) (self : t) (svc : Service) (child : Z)
    (stamp : string) :
  log_path_of (started nm child stamp svc self) nm (launched child stamp svc) =
    log_path_of self nm svc.
Proof. reflexivity. Qed.

(** X2.  After a start that went through, a second start of the same
    service, in whatever world the host has moved to meanwhile, is
    refused with "Service '<name>' is already running" and changes
    nothing as long as the first child still runs.  Once the first child
    has exited, the second start is not refused: when the log opens and
    the command spawns, it launches a new child and handle and record
    carry the new child's pid. *)
Theorem start_service_twice (nm : string) (self : t) (w : world) (svc : Service)
    (child : Z) (w2 : world) :
  Dict.get nm (services self) = Some svc ->
  tracked_running self w nm = false ->
  open_append E w (log_path_of self nm svc) = None ->
  spawn E (touch w (log_path_of self nm svc)) (command svc) = Ok child ->
  let self1 := fst (final (start_service E nm (self, w))) in
  (poll_is_none w2 (mkPopen child) = true ->
   start_service E nm (self1, w2) =
     (Ok (VDict [("success", VBool false);
                 ("error", VStr ("Service '" ++ nm ++ "' is already running"))]),
      (self1, w2)) /\
   option_map pid (Dict.get nm (services self1)) = Some (VInt child)) /\
  (forall child2,
     poll_is_none w2 (mkPopen child) = false ->
     open_append E w2 (log_path_of self nm svc) = None ->
     spawn E (touch w2 (log_path_of self nm svc)) (command svc) = Ok child2 ->
     exists self2 w3,
       start_service E nm (self1, w2) =
         (Ok (VDict [("success", VBool true);
                     ("pid", VInt child2);
                     ("message", VStr ("Service '" ++ nm ++ "' started with PID "
                                         ++ str_of_int child2))]),
          (self2, w3)) /\
       Dict.get nm (processes self2) = Some (mkPopen child2) /\
       option_map pid (Dict.get nm (services self2)) = Some (VInt child2) /\
       running w3 = child2 :: running w2).
Proof.
  intros Hs Hnot Hopen Hspawn. cbn zeta.
  rewrite (start_service_runs nm self w svc child Hs Hnot Hopen Hspawn).
  unfold final. cbn [fst snd].
  set (stamp := isoformat_at E (ticks w)).
  assert (Hs1 : Dict.get nm (services (started nm child stamp svc self)) =
                Some (launched child stamp svc)).
  { unfold started. cbn. apply DictFacts.get_set_eq. }
  assert (Hp1 : Dict.get nm (processes (started nm child stamp svc self)) =
                Some (mkPopen child)).
  { unfold started. cbn. apply DictFacts.get_set_eq. }
  split.
  - intros Hlive. split.
    + exact (start_service_live nm _ w2 _ (mkPopen child) Hs1 Hp1 Hlive).
    + now rewrite Hs1.
  - intros child2 Hdead Hopen2 Hspawn2.
    assert (Hnot2 : tracked_running (started nm child stamp svc self) w2 nm = false).
    { unfold tracked_running. now rewrite Hp1. }
    do 2 eexists. split.
    + apply (start_service_runs nm _ w2 (launched child stamp svc) child2 Hs1 Hnot2).
      * rewrite log_path_launched. exact Hopen2.
      * rewrite log_path_launched. exact Hspawn2.
    + unfold started, saved. cbn. rewrite !DictFacts.get_set_eq. cbn.
      repeat split.
Qed.

(** X3.  On a host where signalling never raises, stopping a service
    after a start that went through, in whatever world the host has moved
    to meanwhile, returns the success result "Service '<name>' stopped"
    and undoes the start: no handle is tracked, the record has status
    "stopped" and pid None (it keeps the start time and its other
    fields), and the child is no longer in the process table. *)
Theorem start_then_stop (nm : string) (self : t) (w : world) (svc : Service)
    (child : Z) (w2 : world) :
  signals_delivered E ->
  Dict.get nm (services self) = Some svc ->
  tracked_running self w nm = false ->
  open_append E w (log_path_of self nm svc) = None ->
  spawn E (touch w (log_path_of self nm svc)) (command svc) = Ok child ->
  let self1 := fst (final (start_service E nm (self, w))) in
  exists self2 w3,
    stop_service E nm (self1, w2) =
      (Ok (VDict [("success", VBool true);
                  ("message", VStr ("Service '" ++ nm ++ "' stopped"))]),
       (self2, w3)) /\
    Dict.get nm (processes self2) = None /\
    Dict.get nm (services self2) =
      Some (mkService (name svc) (platform svc) (command svc) VNone "stopped"
              (VStr (isoformat_at E (ticks w))) (log_file svc) (auto_restart svc)
              (restart_count svc) (max_restarts svc)) /\
    running w3 = remove_pid child (running w2).
Proof.
  intros Hsig Hs Hnot Hopen Hspawn. cbn zeta.
  rewrite (start_service_runs nm self w svc child Hs Hnot Hopen Hspawn).
  unfold final. cbn [fst snd].
  do 2 eexists. split.
  - apply (stop_service_runs nm _ _ (launched child (isoformat_at E (ticks w)) svc)
             (mkPopen child)).
    + unfold started. cbn. apply DictFacts.get_set_eq.
    + unfold started. cbn. apply DictFacts.get_set_eq.
    + now apply signalling_delivered.
  - unfold stopped, started, saved. cbn.
    rewrite DictFacts.get_del_eq, DictFacts.get_set_eq.
    repeat split.
Qed.

(** X4.  On a name that is not registered, [start_service] and
    [stop_service] return the failure "Service '<name>' not found",
    [get_service_status] returns the report "exists: False" and
    [delete_service] returns False when the name has no handle either;
    none of them changes the manager or the world. *)
Theorem unregistered_name (nm : string) (self : t) (w : world) :
  Dict.get nm (services self) = None ->
  start_service E nm (self, w) =
    (Ok (failure ("Service '" ++ nm ++ "' not found")), (self, w)) /\
  stop_service E nm (self, w) =
    (Ok (failure ("Service '" ++ nm ++ "' not found")), (self, w)) /\
  get_service_status nm (self, w) = (Ok (VDict [("exists", VBool false)]), (self, w)) /\
  (Dict.get nm (processes self) = None ->
   delete_service E nm (self, w) = (Ok false, (self, w))).
Proof.
  intros Hs. split; [|split; [|split]].
  - unfold start_service. run_meth. now rewrite Hs.
  - unfold stop_service. run_meth. now rewrite Hs.
  - unfold get_service_status. run_meth. now rewrite Hs.
  - intros Hp. unfold delete_service, Dict.mem. run_meth. rewrite Hp. cbn.
    now rewrite Hs.
Qed.

(** X5.  When stopping fails because a signal call raises while the child
    is still running, [restart_service] does not restart anything: it
    returns the failure "already running" and leaves the manager and the
    world as they were. *)
Theorem restart_after_failed_stop (nm : string) (self : t) (w : world) (svc : Service)
    (p : Popen) (e : exn) :
  Dict.get nm (services self) = Some svc ->
  Dict.get nm (processes self) = Some p ->
  poll_is_none w p = true ->
  signalling E w p = Some e ->
  restart_service E nm (self, w) =
    (Ok (failure ("Service '" ++ nm ++ "' is already running")), (self, w)).
Proof.
  intros Hs Hp Hlive Hsig. unfold restart_service.
  erewrite bind_ok; [| exact (stop_service_fails nm self w svc p e Hs Hp Hsig)].
  exact (start_service_live nm self w svc p Hs Hp Hlive).
Qed.

Lemma get_service_status_run (nm : string) (self : t) (w : world) (svc : Service) :
  Dict.get nm (services self) = Some svc ->
  get_service_status nm (self, w) =
    (Ok (report svc (status_of self w nm)),
     (set_services (Dict.set nm (set_status (status_of self w nm) svc) (services self)) self,
      w)).
Proof.
  intros Hs. unfold get_service_status, status_of. run_meth. rewrite Hs. cbn.
  destruct (Dict.get nm (processes self)) as [p|]; cbn.
  - destruct (poll_is_none w p); run_meth; rewrite Hs; cbn;
      rewrite DictFacts.get_set_eq; reflexivity.
  - run_meth. rewrite Hs. cbn. rewrite DictFacts.get_set_eq. reflexivity.
Qed.

(** X6.  On a host where signalling never raises, where the service's
    log can always be opened and its command always spawns, restarting a
    tracked service returns the success result of a fresh start: the old
    child is taken out of the process table, a new child is spawned, and
    handle and record carry the new child's pid. *)
Theorem restart_service_replaces_child (nm : string) (self : t) (w : world)
    (svc : Service) (p : Popen) :
  signals_delivered E ->
  (forall w', open_append E w' (log_path_of self nm svc) = None) ->
  (forall w', exists child, spawn E w' (command svc) = Ok child) ->
  Dict.get nm (services self) = Some svc ->
  Dict.get nm (processes self) = Some p ->
  exists child self' w',
    restart_service E nm (self, w) = (Ok (start_answer nm child), (self', w')) /\
    Dict.get nm (processes self') = Some (mkPopen child) /\
    option_map pid (Dict.get nm (services self')) = Some (VInt child) /\
    option_map status (Dict.get nm (services self')) = Some "running" /\
    running w' = child :: remove_pid (popen_pid p) (running w).
Proof.
  intros Hsig Hopen Hspawn Hs Hp. unfold restart_service.
  erewrite bind_ok;
    [| exact (stop_service_runs nm self w svc p Hs Hp (signalling_delivered w p Hsig))].
  set (svc1 := set_pid VNone (set_status "stopped" svc)).
  set (self1 := stopped nm svc self).
  set (w1 := saved E self1 (mkWorld (files w) (ticks w) (remove_pid (popen_pid p) (running w)))).
  assert (Hs1 : Dict.get nm (services self1) = Some svc1).
  { unfold self1, stopped. cbn. apply DictFacts.get_set_eq. }
  assert (Hnot : tracked_running self1 w1 nm = false).
  { unfold tracked_running, self1, stopped. cbn. now rewrite DictFacts.get_del_eq. }
  assert (Hlog : log_path_of self1 nm svc1 = log_path_of self nm svc) by reflexivity.
  destruct (Hspawn (touch w1 (log_path_of self nm svc))) as [child Hchild].
  exists child. do 2 eexists. split.
  - apply (start_service_runs nm self1 w1 svc1 child Hs1 Hnot).
    + rewrite Hlog. apply Hopen.
    + rewrite Hlog. exact Hchild.
  - unfold started. cbn. rewrite !DictFacts.get_set_eq. repeat split.
Qed.

(** X7.  Deleting a registered service returns True and removes its
    record, leaving the other records as they are, whatever the stop of
    its process did.  Its handle is dropped when there was none to begin
    with or the stop went through; when a signal call raised, the handle
    stays tracked although the record is gone. *)
Theorem delete_service_registered (nm : string) (self : t) (w : world) (svc : Service) :
  Dict.get nm (services self) = Some svc ->
  exists self' w',
    delete_service E nm (self, w) = (Ok true, (self', w')) /\
    Dict.get nm (services self') = None /\
    (forall k, k <> nm -> Dict.get k (services self') = Dict.get k (services self)) /\
    Dict.get nm (processes self') =
      match Dict.get nm (processes self) with
      | Some p => match signalling E w p with
                  | None => None
                  | Some _ => Some p
                  end
      | None => None
      end.
Proof.
  intros Hs. unfold delete_service, Dict.mem.
  erewrite bind_ok; [| apply get_self_run].
  destruct (Dict.get nm (processes self)) as [p|] eqn:Hp.
  - destruct (signalling E w p) as [e|] eqn:Hsig.
    + erewrite bind_ok;
        [| erewrite bind_ok;
             [reflexivity | exact (stop_service_fails nm self w svc p e Hs Hp Hsig)]].
      run_meth. rewrite Hs. cbn. do 2 eexists. split; [reflexivity|]. cbn.
      rewrite DictFacts.get_del_eq. split; [reflexivity|]. split; [|exact Hp].
      intros k Hk. apply DictFacts.get_del_ne. congruence.
    + erewrite bind_ok;
        [| erewrite bind_ok;
             [reflexivity | exact (stop_service_runs nm self w svc p Hs Hp Hsig)]].
      run_meth. unfold stopped. cbn. rewrite DictFacts.get_set_eq. cbn.
      do 2 eexists. split; [reflexivity|]. cbn.
      rewrite !DictFacts.get_del_eq. split; [reflexivity|]. split; [|reflexivity].
      intros k Hk. rewrite DictFacts.get_del_ne by congruence.
      apply DictFacts.get_set_ne. congruence.
  - run_meth. rewrite Hs. cbn. do 2 eexists. split; [reflexivity|]. cbn.
    rewrite DictFacts.get_del_eq. split; [reflexivity|]. split; [|exact Hp].
    intros k Hk. apply DictFacts.get_del_ne. congruence.
Qed.

(** X8.  Registering a service, new or already known, always succeeds and
    the status query that follows reports it as existing, with the given
    name and platform, pid None, the log file <logs_dir>/<name>.log and
    the status that its handle gives: "stopped" when none is tracked, but
    "running" when a handle from before the registration is still live;
    handles and the other records are not touched. *)
Theorem create_service_then_status (nm plat cmd : string) (auto : bool)
    (self : t) (w : world) :
  let fresh := mkService (VStr nm) (VStr plat) (VStr cmd) VNone "stopped" VNone
                 (VStr (path_join (logs_dir self) (nm ++ ".log"))) (VBool auto) 0 5 in
  exists self1 w1,
    create_service E nm plat cmd auto (self, w) = (Ok fresh, (self1, w1)) /\
    processes self1 = processes self /\
    running w1 = running w /\
    (forall k, k <> nm -> Dict.get k (services self1) = Dict.get k (services self)) /\
    answer (get_service_status nm (self1, w1)) = Ok (report fresh (status_of self w nm)).
Proof.
  cbn zeta.
  set (fresh := mkService (VStr nm) (VStr plat) (VStr cmd) VNone "stopped" VNone
                  (VStr (path_join (logs_dir self) (nm ++ ".log"))) (VBool auto) 0 5).
  exists (set_services (Dict.set nm fresh (services self)) self).
  exists (saved E (set_services (Dict.set nm fresh (services self)) self) w).
  split; [reflexivity|].
  split; [reflexivity|]. split; [reflexivity|]. split.
  - intros k Hk. apply DictFacts.get_set_ne. congruence.
  - erewrite get_service_status_run; [reflexivity|].
    apply DictFacts.get_set_eq.
Qed.

(** *** Saving and reloading *)

Lemma load_entry_saved (k : string) (svc : Service) (self : t) (w : world) :
  load_entry (k, service_to_json svc) (self, w) =
    (Ok tt, (set_services (Dict.set k (reloaded svc) (services self)) self, w)).
Proof. now destruct svc. Qed.

Lemma load_saved_entries (d : Dict.t Service) :
  forall (acc : Dict.t Service) (self : t) (w : world),
  NoDup (Dict.keys d) ->
  (forall k, In k (Dict.keys d) -> Dict.get k acc = None) ->
  for_each (map (fun kv => (fst kv, service_to_json (snd kv))) d) load_entry
           (set_services acc self, w) =
    (Ok tt,
     (set_services (acc ++ map (fun kv => (fst kv, reloaded (snd kv))) d)%list self, w)).
Proof.
  induction d as [|[k svc] d IH]; intros acc self w Hnd Hfresh.
  - cbn. now rewrite app_nil_r.
  - cbn [map for_each fst snd].
    erewrite bind_ok; [| apply load_entry_saved].
    inversion Hnd as [|? ? Hk Hnd']; subst.
    assert (Hacc : Dict.get k acc = None) by (apply Hfresh; now left).
    cbn [services set_services]. rewrite (dict_set_fresh k (reloaded svc) acc Hacc).
    change (set_services (acc ++ [(k, reloaded svc)])%list (set_services acc self))
      with (set_services (acc ++ [(k, reloaded svc)])%list self).
    rewrite IH; [| exact Hnd' |].
    + rewrite <- app_assoc. reflexivity.
    + intros k' Hk'. rewrite dict_get_app. rewrite Hfresh by now right.
      cbn. destruct (String.eqb_spec k' k) as [->|_]; [contradiction | reflexivity].
Qed.

Lemma load_services_saved (self : t) (w : world) (svcs : Dict.t Service) (stamp : string) :
  services self = [] ->
  NoDup (Dict.keys svcs) ->
  Dict.get (services_file self) (files w) = Some (Json (services_document svcs stamp)) ->
  _load_services (self, w) =
    (Ok tt, (set_services (map (fun kv => (fst kv, reloaded (snd kv))) svcs) self, w)).
Proof.
  intros Hempty Hnd Hfile.
  pose proof (load_saved_entries svcs [] self w Hnd (fun k _ => eq_refl)) as Hload.
  assert (Hself : set_services [] self = self).
  { rewrite <- Hempty. apply set_services_same. }
  rewrite Hself in Hload. cbn [app] in Hload.
  unfold _load_services. run_meth. unfold Dict.mem. rewrite Hfile. cbn.
  rewrite Hfile. cbn. rewrite Hload. reflexivity.
Qed.

(** X9.  What [_save_services] writes, a manager constructed afterwards
    for the same directory reads back: the same services in the same
    order, every persisted field (name, platform, command, pid,
    started_at, log_file, auto_restart) as it was, status "stopped",
    restart_count 0, max_restarts 5, and no handles. *)
Theorem services_survive_reload (d : string) (svcs : Dict.t Service)
    (procs : Dict.t Popen) (w : world) :
  d <> "" ->
  NoDup (Dict.keys svcs) ->
  let w' := snd (final (_save_services E (at_dir d svcs procs, w))) in
  __init__ E (Some d) w' =
    (Ok (at_dir d (map (fun kv => (fst kv, reloaded (snd kv))) svcs) Dict.empty), w').
Proof.
  intros Hd Hnd. cbn zeta. rewrite save_services_run. unfold final. cbn [snd].
  unfold __init__, dir_or_default. apply String.eqb_neq in Hd. rewrite Hd.
  rewrite (load_services_saved _ _ svcs (isoformat_at E (ticks w))); try assumption.
  - reflexivity.
  - reflexivity.
  - unfold saved, at_dir. cbn. apply DictFacts.get_set_eq.
Qed.

(** *** Listing *)

Lemma status_reports_run (self : t) (w : world) (suf : Dict.t Service) :
  forall pre : Dict.t Service,
  NoDup (Dict.keys (pre ++ suf)%list) ->
  status_reports (Dict.keys suf)
    (set_services (map (refreshed self w) pre ++ suf)%list self, w) =
    (Ok (map (fun kv => report (snd kv) (status_of self w (fst kv))) suf),
     (set_services (map (refreshed self w) (pre ++ suf))%list self, w)).
Proof.
  induction suf as [|[k svc] suf IH]; intros pre Hnd.
  - cbn. now rewrite !app_nil_r.
  - cbn [Dict.keys map fst status_reports].
    assert (Hpre : Dict.get k (map (refreshed self w) pre) = None).
    { apply dict_get_none_keys. unfold refreshed. rewrite dict_keys_map.
      unfold Dict.keys in Hnd. rewrite map_app in Hnd. cbn in Hnd.
      apply NoDup_remove_2 in Hnd. intros Hin. apply Hnd. apply in_or_app. now left. }
    erewrite bind_ok.
    2: { apply (get_service_status_run k _ w svc). cbn [services set_services].
         rewrite dict_get_app, Hpre. cbn. now rewrite String.eqb_refl. }
    cbn [services set_services].
    rewrite (dict_set_app k _ _ _ Hpre). cbn [Dict.set]. rewrite String.eqb_refl.
    change (status_of (set_services (map (refreshed self w) pre ++ (k, svc) :: suf)%list self)
              w k) with (status_of self w k).
    change (set_services ?a (set_services ?b self)) with (set_services a self).
    specialize (IH (pre ++ [(k, svc)])%list).
    rewrite map_app in IH. cbn [map] in IH. rewrite <- !app_assoc in IH. cbn [app] in IH.
    unfold refreshed at 2 in IH. cbn [fst snd] in IH.
    erewrite bind_ok; [| apply IH; exact Hnd].
    reflexivity.
Qed.

(** X10.  [list_services] returns one report per registered service, in
    registration order; each report carries the record's fields and the
    status that the service's handle gives at that moment.  The query
    rewrites the status of every record to that status and changes
    nothing else: no handle, no other field, nothing in the world. *)
Theorem list_services_reports (self : t) (w : world) :
  NoDup (Dict.keys (services self)) ->
  list_services (self, w) =
    (Ok (map (fun kv => report (snd kv) (status_of self w (fst kv))) (services self)),
     (set_services (map (refreshed self w) (services self)) self, w)).
Proof.
  intros Hnd. unfold list_services.
  erewrite bind_ok; [| apply get_self_run].
  pose proof (status_reports_run self w (services self) [] Hnd) as H.
  cbn [map app] in H. rewrite set_services_same in H. exact H.
Qed.

(** *** Logs *)

Section Logs.
Variable json_text : value -> string.
Variable decode : string -> result string.

(** X11.  [get_logs] answers with a message, not an error, when there is
    nothing to read: "Service '<name>' not found" for a name that is not
    registered, "No logs available" when the record's log path is empty
    or names no file.  Nothing changes. *)
Theorem get_logs_nothing_to_read (nm : string) (lines : Z) (self : t) (w : world) :
  (Dict.get nm (services self) = None ->
   get_logs json_text decode nm lines (self, w) =
     (Ok ("Service '" ++ nm ++ "' not found"), (self, w))) /\
  (forall svc path,
     Dict.get nm (services self) = Some svc ->
     log_file svc = VStr path ->
     path = "" \/ Dict.get path (files w) = None ->
     get_logs json_text decode nm lines (self, w) = (Ok "No logs available", (self, w))).
Proof.
  split.
  - intros Hs. unfold get_logs. run_meth. now rewrite Hs.
  - intros svc path Hs Hlog Hnone. unfold get_logs. run_meth. rewrite Hs. cbn.
    rewrite Hlog. cbn. destruct path as [|c path]; [reflexivity|].
    destruct Hnone as [Hempty | Hmissing]; [discriminate|].
    cbn. unfold Dict.mem. now rewrite Hmissing.
Qed.

(** X12.  For a registered service whose log path names a file of bytes
    [raw], [get_logs(name, lines)] changes nothing and never raises.
    When the bytes decode to a text, it returns the end of that text
    (carriage returns read as line feeds) cut at a line boundary: for a
    positive [lines] the last [lines] lines, or all of them when there
    are fewer; for [lines = 0] the whole text; for a negative [lines]
    everything but the first [-lines] lines.  When decoding raises, it
    returns the message "Error reading logs: " followed by the text of
    the error. *)
Theorem get_logs_tail (nm : string) (lines : Z) (self : t) (w : world)
    (svc : Service) (path raw : string) :
  Dict.get nm (services self) = Some svc ->
  log_file svc = VStr path ->
  path <> "" ->
  Dict.get path (files w) = Some (Text raw) ->
  match decode raw with
  | Ok text =>
      exists skipped kept,
        get_logs json_text decode nm lines (self, w) = (Ok (join kept), (self, w)) /\
        readlines (universal_newlines text) = (skipped ++ kept)%list /\
        universal_newlines text = join skipped ++ join kept /\
        (0 < lines ->
         List.length skipped =
           Nat.sub (List.length (readlines (universal_newlines text))) (Z.to_nat lines)) /\
        (lines = 0 -> skipped = []) /\
        (lines < 0 ->
         List.length skipped =
           Nat.min (Z.to_nat (- lines)) (List.length (readlines (universal_newlines text))))
  | Raise e =>
      get_logs json_text decode nm lines (self, w) =
        (Ok ("Error reading logs: " ++ str_exn e), (self, w))
  end.
Proof.
  intros Hs Hlog Hpath Hfile.
  assert (Hrun : get_logs json_text decode nm lines (self, w) =
                 match decode raw with
                 | Ok text =>
                     (Ok (join (last_lines lines (readlines (universal_newlines text)))),
                      (self, w))
                 | Raise e => (Ok ("Error reading logs: " ++ str_exn e), (self, w))
                 end).
  { unfold get_logs. run_meth. rewrite Hs. cbn. rewrite Hlog. cbn.
    destruct path as [|c path]; [contradiction|]. cbn.
    unfold Dict.mem. rewrite Hfile. cbn. rewrite Hfile. cbn.
    destruct (decode raw); reflexivity. }
  destruct (decode raw) as [text|e]; [|exact Hrun].
  set (ls := readlines (universal_newlines text)) in *.
  destruct (last_lines_skipn lines ls) as (k & Hk & Hpos & Hneg).
  exists (firstn k ls), (skipn k ls).
  assert (Hlen : forall n, n = Nat.sub (List.length ls) (Z.to_nat lines) \/
                           n = Nat.min (Z.to_nat (- lines)) (List.length ls) ->
                           k = n -> List.length (firstn k ls) = n).
  { intros n Hn ->. rewrite length_firstn. apply Nat.min_l.
    destruct Hn as [-> | ->]; [apply Nat.le_sub_l | apply Nat.le_min_r]. }
  split; [|split; [|split; [|split; [|split]]]].
  - rewrite Hrun. now rewrite Hk.
  - symmetry. apply firstn_skipn.
  - rewrite <- join_app, firstn_skipn. unfold ls. symmetry. apply join_readlines.
  - intros H. apply Hlen; [now left | now apply Hpos].
  - intros ->. rewrite (Hneg (Z.le_refl 0)). reflexivity.
  - intros H. apply Hlen; [now right | apply Hneg; now apply Z.lt_le_incl].
Qed.
End Logs.

(** *** Stopping everything *)

Lemma poll_in (w : world) (p : Popen) :
  poll_is_none w p = true <-> In (popen_pid p) (running w).
Proof.
  unfold poll_is_none. rewrite existsb_exists. split.
  - intros (q & Hin & Hq). apply Z.eqb_eq in Hq. now subst.
  - intros H. exists (popen_pid p). split; [exact H | apply Z.eqb_refl].
Qed.

Lemma stop_each (names : list string) :
  forall (acc : Dict.t value) (self : t) (w : world),
  signals_delivered E ->
  NoDup names ->
  (forall k, In k names ->
     Dict.get k (services self) <> None /\ Dict.get k (processes self) <> None) ->
  exists results self' w',
    collect names (stop_service E) acc (self, w) = (Ok results, (self', w')) /\
    (forall k, In k names ->
       Dict.get k results = Some (success_message ("Service '" ++ k ++ "' stopped")) /\
       Dict.get k (processes self') = None /\
       option_map status (Dict.get k (services self')) = Some "stopped" /\
       option_map pid (Dict.get k (services self')) = Some VNone /\
       (forall p, Dict.get k (processes self) = Some p -> poll_is_none w' p = false)) /\
    (forall k, ~ In k names ->
       Dict.get k results = Dict.get k acc /\
       Dict.get k (processes self') = Dict.get k (processes self) /\
       Dict.get k (services self') = Dict.get k (services self)) /\
    (forall q, In q (running w') -> In q (running w)).
Proof.
  induction names as [|n rest IH]; intros acc self w Hsig Hnd Htracked.
  - exists acc, self, w. split; [reflexivity|]. split; [intros k []|].
    split; [intros k _; repeat split | intros q Hq; exact Hq].
  - inversion Hnd as [|? ? Hfresh Hnd']; subst.
    destruct (Htracked n (or_introl eq_refl)) as [Hs Hp].
    destruct (Dict.get n (services self)) as [svc|] eqn:Hsvc; [|contradiction].
    destruct (Dict.get n (processes self)) as [p|] eqn:Hproc; [|contradiction].
    pose proof (stop_service_runs n self w svc p Hsvc Hproc (signalling_delivered w p Hsig))
      as Hstop.
    set (self1 := stopped n svc self) in *.
    set (w1 := saved E self1
                 (mkWorld (files w) (ticks w) (remove_pid (popen_pid p) (running w)))) in *.
    assert (Hother : forall k, k <> n ->
              Dict.get k (processes self1) = Dict.get k (processes self) /\
              Dict.get k (services self1) = Dict.get k (services self)).
    { intros k Hk. unfold self1, stopped. cbn.
      rewrite DictFacts.get_del_ne, DictFacts.get_set_ne by congruence. now split. }
    destruct (IH (Dict.set n (success_message ("Service '" ++ n ++ "' stopped")) acc)
                 self1 w1 Hsig Hnd') as (results & self' & w' & Hrun & Hin & Hout & Hsub).
    { intros k Hk. assert (k <> n) by (intros ->; contradiction).
      destruct (Hother k H) as [-> ->]. apply Htracked. now right. }
    exists results, self', w'. split; [|split; [|split]].
    + cbn [collect]. erewrite bind_ok; [| exact Hstop]. exact Hrun.
    + intros k [<- | Hk].
      * destruct (Hout n Hfresh) as (Hr & Hp' & Hs').
        rewrite Hr, Hp', Hs'. unfold self1, stopped. cbn.
        rewrite DictFacts.get_set_eq, DictFacts.get_del_eq, DictFacts.get_set_eq. cbn.
        repeat split.
        intros p0 Hp0. rewrite Hproc in Hp0. injection Hp0 as <-.
        apply not_true_is_false. intros Hlive. apply poll_in in Hlive.
        apply Hsub in Hlive. unfold w1, saved in Hlive. cbn in Hlive.
        apply filter_In in Hlive. destruct Hlive as [_ Hne].
        rewrite Z.eqb_refl in Hne. discriminate.
      * assert (k <> n) by (intros ->; contradiction).
        destruct (Hin k Hk) as (Hr & Hp' & Hst & Hpid & Hdead).
        repeat split; try assumption.
        intros p0 Hp0. apply Hdead. destruct (Hother k H) as [-> _]. exact Hp0.
    + intros k Hk. assert (k <> n) by (intros ->; apply Hk; now left).
      destruct (Hout k) as (Hr & Hp' & Hs'); [intros Hin'; apply Hk; now right|].
      destruct (Hother k H) as [Ho1 Ho2].
      rewrite Hr, Hp', Hs', Ho1, Ho2. rewrite DictFacts.get_set_ne by congruence.
      repeat split.
    + intros q Hq. apply Hsub in Hq. unfold w1, saved in Hq. cbn in Hq.
      apply filter_In in Hq. tauto.
Qed.

(** X13.  On a host where signalling never raises, when every tracked
    name is a registered service, [stop_all] returns the success result
    "Service '<name>' stopped" for every tracked service and leaves no
    handle behind: the handle table is empty, every service that was
    tracked has status "stopped" and pid None, none of their processes
    is still in the process table, and the services that were not
    tracked are left as they were. *)
Theorem stop_all_clears (self : t) (w : world) :
  signals_delivered E ->
  NoDup (Dict.keys (processes self)) ->
  (forall k, Dict.mem k (processes self) = true -> Dict.mem k (services self) = true) ->
  exists results self' w',
    stop_all E (self, w) = (Ok results, (self', w')) /\
    processes self' = [] /\
    (forall k p, Dict.get k (processes self) = Some p ->
       Dict.get k results =
         Some (VDict [("success", VBool true);
                      ("message", VStr ("Service '" ++ k ++ "' stopped"))]) /\
       option_map status (Dict.get k (services self')) = Some "stopped" /\
       option_map pid (Dict.get k (services self')) = Some VNone /\
       poll_is_none w' p = false) /\
    (forall k, Dict.get k (processes self) = None ->
       Dict.get k (services self') = Dict.get k (services self)).
Proof.
  intros Hsig Hnd Hreg.
  destruct (stop_each (Dict.keys (processes self)) Dict.empty self w Hsig Hnd)
    as (results & self' & w' & Hrun & Hin & Hout & _).
  { intros k Hk. apply DictFacts.mem_keys in Hk. pose proof (Hreg k Hk) as Hk'.
    unfold Dict.mem in Hk, Hk'.
    destruct (Dict.get k (services self)); [|discriminate].
    destruct (Dict.get k (processes self)); [|discriminate]. split; discriminate. }
  exists results, self', w'. split; [|split; [|split]].
  - unfold stop_all. erewrite bind_ok; [| apply get_self_run]. exact Hrun.
  - apply dict_all_none. intros k.
    destruct (in_dec string_dec k (Dict.keys (processes self))) as [Hk|Hk].
    + now destruct (Hin k Hk) as (_ & Hp & _).
    + destruct (Hout k Hk) as (_ & -> & _). now apply dict_get_none_keys.
  - intros k p Hp.
    assert (Hk : In k (Dict.keys (processes self))).
    { apply DictFacts.mem_keys. unfold Dict.mem. now rewrite Hp. }
    destruct (Hin k Hk) as (Hr & _ & Hst & Hpid & Hdead).
    repeat split; try assumption. now apply Hdead.
  - intros k Hp. apply dict_get_none_keys in Hp. now destruct (Hout k Hp) as (_ & _ & Hs).
Qed.

(** *** An invariant of the handle table *)

Ltac keep_registered Hwf :=
  let k := fresh "k" in
  let Hk := fresh "Hk" in
  unfold tracked_registered;
  cbn [fst snd services processes set_services set_processes stopped];
  intros k Hk;
  rewrite ?dict_mem_set in *;
  try apply dict_mem_del in Hk;
  rewrite ?dict_mem_set in *;
  match goal with
  | |- context [(k =? ?nm)%string] =>
      destruct (k =? nm)%string; [reflexivity | cbn in Hk |- *; now apply Hwf]
  | _ => now apply Hwf
  end.

Lemma start_service_keeps (nm : string) (self : t) (w : world) :
  tracked_registered self ->
  tracked_registered (fst (final (start_service E nm (self, w)))).
Proof.
  intros Hwf. unfold final, start_service. run_meth.
  destruct (Dict.get nm (services self)) as [svc|] eqn:Hs; cbn; [|exact Hwf].
  destruct (match Dict.get nm (processes self) with
            | Some p => poll_is_none w p
            | None => false
            end); [exact Hwf|].
  run_meth.
  destruct (open_append E w (log_path_of self nm svc)) as [e|] eqn:Hopen; cbn.
  { run_meth. rewrite Hs. cbn [fst snd]. keep_registered Hwf. }
  destruct (spawn E (touch w (log_path_of self nm svc)) (command svc)) as [child|e]; cbn.
  - run_meth. rewrite Hs. cbn. rewrite !DictFacts.get_set_eq. cbn.
    rewrite !DictFacts.get_set_eq. cbn [fst snd]. keep_registered Hwf.
  - run_meth. rewrite Hs. cbn [fst snd]. keep_registered Hwf.
Qed.

Lemma stop_service_keeps (nm : string) (self : t) (w : world) :
  tracked_registered self ->
  tracked_registered (fst (final (stop_service E nm (self, w)))).
Proof.
  intros Hwf. unfold final, stop_service. run_meth.
  destruct (Dict.get nm (services self)) as [svc|] eqn:Hs; cbn; [|exact Hwf].
  destruct (Dict.get nm (processes self)) as [p|] eqn:Hp; cbn.
  2: { run_meth. rewrite Hs. cbn [fst snd]. keep_registered Hwf. }
  run_meth.
  destruct (signal_group E w (popen_pid p) SIGTERM) as [e|]; cbn; [exact Hwf|].
  destruct (poll_is_none w p && negb (exits_in_grace E w (popen_pid p))); cbn.
  - destruct (signal_group E w (popen_pid p) SIGKILL) as [e|]; cbn; [exact Hwf|].
    run_meth. rewrite Hs. cbn. rewrite DictFacts.get_set_eq. cbn [fst snd].
    keep_registered Hwf.
  - run_meth. rewrite Hs. cbn. rewrite DictFacts.get_set_eq. cbn [fst snd].
    keep_registered Hwf.
Qed.

(** X27.  Registering, starting, stopping, restarting and querying a
    service all keep the handle table within the registry: if every
    tracked name was a registered service before the call, the same
    holds after it, whether the call succeeded or failed. *)
Theorem tracked_stay_registered (nm plat cmd : string) (auto : bool)
    (self : t) (w : world) :
  tracked_registered self ->
  tracked_registered (fst (final (create_service E nm plat cmd auto (self, w)))) /\
  tracked_registered (fst (final (start_service E nm (self, w)))) /\
  tracked_registered (fst (final (stop_service E nm (self, w)))) /\
  tracked_registered (fst (final (restart_service E nm (self, w)))) /\
  tracked_registered (fst (final (get_service_status nm (self, w)))).
Proof.
  intros Hwf. split; [|split; [|split; [|split]]].
  - unfold final, create_service. run_meth. keep_registered Hwf.
  - now apply start_service_keeps.
  - now apply stop_service_keeps.
  - unfold restart_service.
    pose proof (stop_service_keeps nm self w Hwf) as Hstop.
    destruct (stop_service_frame E nm self w) as (r & self1 & w1 & Hrun & _).
    rewrite Hrun in Hstop. unfold final in Hstop. cbn [fst snd] in Hstop.
    erewrite bind_ok; [| exact Hrun].
    now apply start_service_keeps.
  - unfold final, get_service_status. run_meth.
    destruct (Dict.get nm (services self)) as [svc|] eqn:Hs; cbn; [|exact Hwf].
    destruct (Dict.get nm (processes self)) as [p|]; cbn.
    + destruct (poll_is_none w p); run_meth; rewrite Hs; cbn;
        rewrite DictFacts.get_set_eq; cbn [fst snd]; keep_registered Hwf.
    + run_meth. rewrite Hs. cbn. rewrite DictFacts.get_set_eq. cbn [fst snd].
      keep_registered Hwf.
Qed.

End ServiceManagerMore.

(** * Further properties of the credential store *)

Section SessionManagerMore.
Import SessionManager.
Variable E : Env.

#[local] Hint Unfold update_session update_api_key _save_platforms _save_api_keys
  _save_settings : meth.

Lemma save_platforms_runs (self : t) (w : world) :
  _save_platforms E (self, w) = (Ok tt, (self, platforms_saved E self w)).
Proof. reflexivity. Qed.

Lemma save_api_keys_runs (self : t) (w : world) :
  _save_api_keys E (self, w) = (Ok tt, (self, keys_saved E self w)).
Proof. reflexivity. Qed.

Lemma update_api_key_run (prov : string) (f : APIKey.t -> APIKey.t) (self : t) (w : world)
    (k : APIKey.t) :
  Dict.get prov (api_keys self) = Some k ->
  update_api_key prov f (self, w) =
    (Ok tt, (set_api_keys (Dict.set prov (f k) (api_keys self)) self, w)).
Proof. intros H. unfold update_api_key. run_meth. now rewrite H. Qed.

(** *** API keys *)

(** X14.  [get_api_key] hands out the key of a provider only when the
    provider has a record and the record is active; it then sets the
    record's last_used to the current time, changes no other field, and
    writes the keys file.  For an unknown provider or an inactive record
    it returns None and changes nothing, on disk or in memory. *)
Theorem get_api_key_cases (prov : string) (self : t) (w : world) :
  match Dict.get prov (api_keys self) with
  | Some k =>
      if truthy (APIKey.is_active k) then
        let k' := APIKey.mk (APIKey.provider k) (APIKey.key k) (APIKey.added_at k)
                    (APIKey.tokens_used k) (APIKey.tokens_remaining k)
                    (APIKey.is_active k) (VStr (isoformat_at E (ticks w))) in
        let self' := set_api_keys (Dict.set prov k' (api_keys self)) self in
        get_api_key E prov (self, w) =
          (Ok (APIKey.key k),
           (self', keys_saved E self' (mkWorld (files w) (S (ticks w)) (running w))))
      else get_api_key E prov (self, w) = (Ok VNone, (self, w))
  | None => get_api_key E prov (self, w) = (Ok VNone, (self, w))
  end.
Proof.
  unfold get_api_key. run_meth.
  destruct (Dict.get prov (api_keys self)) as [k|] eqn:Hk; [|reflexivity].
  destruct (truthy (APIKey.is_active k)); [|reflexivity].
  run_meth. rewrite Hk. reflexivity.
Qed.

(** X15.  A key that was just saved can be read back: [get_api_key]
    after [save_api_key] returns the saved key, whatever record the
    provider had before. *)
Theorem save_then_get_api_key (prov k : string) (self : t) (w : world) :
  answer (get_api_key E prov (final (save_api_key E prov k (self, w)))) = Ok (VStr k).
Proof.
  unfold save_api_key, get_api_key, final, answer. run_meth.
  rewrite DictFacts.get_set_eq. cbn. run_meth. rewrite DictFacts.get_set_eq. reflexivity.
Qed.

(** X16.  [update_token_usage] on a provider whose counter is an integer
    adds the tokens to tokens_used, replaces tokens_remaining by the given
    figure, or by -1 when none is given, keeps every other field and
    writes the keys file; on an unknown provider it does nothing; and
    when the stored counter is not a number (a keys file with a null or
    a string there) it raises a TypeError and changes nothing. *)
Theorem update_token_usage_adds (prov : string) (used : Z) (remaining : option Z)
    (self : t) (w : world) :
  (forall k a,
     Dict.get prov (api_keys self) = Some k ->
     APIKey.tokens_used k = VInt a ->
     let k' := APIKey.mk (APIKey.provider k) (APIKey.key k) (APIKey.added_at k)
                 (VInt (a + used))
                 (VInt (match remaining with Some r => r | None => -1 end))
                 (APIKey.is_active k) (APIKey.last_used k) in
     let self' := set_api_keys (Dict.set prov k' (api_keys self)) self in
     update_token_usage E prov used remaining (self, w) =
       (Ok tt, (self', keys_saved E self' w))) /\
  (Dict.get prov (api_keys self) = None ->
   update_token_usage E prov used remaining (self, w) = (Ok tt, (self, w))) /\
  (forall k,
     Dict.get prov (api_keys self) = Some k ->
     match APIKey.tokens_used k with
     | VInt _ | VBool _ => True
     | _ => exists msg,
              update_token_usage E prov used remaining (self, w) =
                (Raise (Error "TypeError" msg), (self, w))
     end).
Proof.
  split; [|split].
  - intros k a Hk Ha. cbn zeta. unfold update_token_usage. run_meth. rewrite Hk. cbn.
    rewrite Ha. cbn. run_meth. rewrite Hk. cbn. rewrite DictFacts.get_set_eq. cbn.
    rewrite DictFacts.set_set. unfold APIKey.set_tokens_remaining, APIKey.set_tokens_used.
    cbn. reflexivity.
  - intros Hk. unfold update_token_usage. run_meth. now rewrite Hk.
  - intros k Hk. unfold update_token_usage. run_meth. rewrite Hk. cbn.
    destruct (APIKey.tokens_used k); try exact I; eexists; reflexivity.
Qed.

(** X17.  Two usage updates in a row add up: tokens_used grows by the
    sum of the two amounts and tokens_remaining is the figure of the
    second update. *)
Theorem update_token_usage_twice (prov : string) (u1 u2 r1 r2 : Z) (self : t) (w : world)
    (k : APIKey.t) (a : Z) :
  Dict.get prov (api_keys self) = Some k ->
  APIKey.tokens_used k = VInt a ->
  let st2 := final (update_token_usage E prov u2 (Some r2)
                      (final (update_token_usage E prov u1 (Some r1) (self, w)))) in
  option_map APIKey.tokens_used (Dict.get prov (api_keys (fst st2))) =
    Some (VInt (a + u1 + u2)) /\
  option_map APIKey.tokens_remaining (Dict.get prov (api_keys (fst st2))) =
    Some (VInt r2).
Proof.
  intros Hk Ha. cbn zeta. unfold update_token_usage, final. run_meth. rewrite Hk. cbn.
  rewrite Ha. cbn. run_meth. rewrite Hk. cbn.
  repeat (rewrite DictFacts.get_set_eq; cbn). split; reflexivity.
Qed.

(** X18.  [list_api_keys] lists every stored key once, in order, under
    its provider name, and no entry of the listing has a "key" field:
    the key material is never part of it.  It changes nothing. *)
Theorem list_api_keys_hides_keys (self : t) (w : world) :
  exists listing,
    list_api_keys (self, w) = (Ok listing, (self, w)) /\
    map (fun entry => match entry with
                      | VDict d => Dict.get "provider" d
                      | _ => None
                      end) listing =
      map (fun kv => Some (VStr (fst kv))) (api_keys self) /\
    Forall (fun entry => match entry with
                         | VDict d => Dict.get "key" d = None
                         | _ => False
                         end) listing.
Proof.
  eexists. split; [reflexivity|]. split.
  - rewrite map_map. reflexivity.
  - apply Forall_map. apply Forall_forall. intros kv _. reflexivity.
Qed.

(** *** Platforms *)

Lemma active_listed (d : Dict.t PlatformSession.t) (p : string) :
  NoDup (Dict.keys d) ->
  In p (map fst (filter (fun kv => truthy (PlatformSession.is_active (snd kv))) d)) <->
  exists s, Dict.get p d = Some s /\ truthy (PlatformSession.is_active s) = true.
Proof.
  intros Hnd. rewrite in_map_iff. split.
  - intros ([k s] & Hk & Hin). cbn in Hk. subst k. apply filter_In in Hin.
    destruct Hin as [Hin Hact]. exists s. split; [|exact Hact].
    now apply DictFacts.in_get.
  - intros (s & Hget & Hact). exists (p, s). split; [reflexivity|].
    apply filter_In. split; [now apply DictFacts.get_in | exact Hact].
Qed.

(** X19.  The three views of the active platforms agree: a platform is in
    [list_platforms] exactly when [has_platform] holds for it, and
    [get_all_credentials] maps exactly those platforms, each to the
    credentials of its record.  None of the three changes anything. *)
Theorem active_views_agree (self : t) (w : world) (p : string) :
  NoDup (Dict.keys (platforms self)) ->
  exists listed creds active,
    list_platforms (self, w) = (Ok listed, (self, w)) /\
    get_all_credentials (self, w) = (Ok creds, (self, w)) /\
    has_platform p (self, w) = (Ok active, (self, w)) /\
    (In p listed <-> active = true) /\
    Dict.get p creds =
      (if active then option_map PlatformSession.credentials (Dict.get p (platforms self))
       else None).
Proof.
  intros Hnd.
  exists (map fst (filter (fun kv => truthy (PlatformSession.is_active (snd kv)))
                          (platforms self))).
  exists (map (fun kv => (fst kv, PlatformSession.credentials (snd kv)))
              (filter (fun kv => truthy (PlatformSession.is_active (snd kv)))
                      (platforms self))).
  exists (match Dict.get p (platforms self) with
          | Some s => truthy (PlatformSession.is_active s)
          | None => false
          end).
  split; [reflexivity|]. split; [reflexivity|].
  split; [reflexivity|]. split.
  - rewrite (active_listed _ p Hnd).
    destruct (Dict.get p (platforms self)) as [s|].
    + split; [intros (s' & [= <-] & H); exact H | intros H; now exists s].
    + split; [intros (s' & H & _); discriminate | discriminate].
  - destruct (Dict.get p (platforms self)) as [s|] eqn:Hget.
    + destruct (truthy (PlatformSession.is_active s)) eqn:Hact.
      * cbn. apply DictFacts.in_get.
        { rewrite (dict_keys_map (fun kv => PlatformSession.credentials (snd kv))).
          now apply dict_keys_filter. }
        apply in_map_iff. exists (p, s). split; [reflexivity|].
        apply filter_In. split; [now apply DictFacts.get_in | exact Hact].
      * destruct (Dict.get p (map _ (filter _ (platforms self)))) as [c|] eqn:Hc;
          [|reflexivity].
        apply DictFacts.get_in in Hc. apply in_map_iff in Hc.
        destruct Hc as ([k s'] & Heq & Hin). cbn in Heq. injection Heq as -> _.
        apply filter_In in Hin. destruct Hin as [Hin Hact'].
        apply (DictFacts.in_get _ _ _ Hnd) in Hin. cbn in Hact'. congruence.
    + destruct (Dict.get p (map _ (filter _ (platforms self)))) as [c|] eqn:Hc;
        [|reflexivity].
      apply DictFacts.get_in in Hc. apply in_map_iff in Hc.
      destruct Hc as ([k s'] & Heq & Hin). cbn in Heq. injection Heq as -> _.
      apply filter_In in Hin. destruct Hin as [Hin _].
      apply (DictFacts.in_get _ _ _ Hnd) in Hin. congruence.
Qed.

(** X20.  [deactivate_platform] is a soft delete: the record stays, with
    every field as it was except is_active, which becomes False, so that
    [has_platform] no longer holds; the other platforms are untouched
    and the platforms file is rewritten.  On an unknown platform nothing
    happens and nothing is written. *)
Theorem deactivate_platform_keeps_record (p : string) (self : t) (w : world) :
  (forall s,
     Dict.get p (platforms self) = Some s ->
     let s' := PlatformSession.set_is_active (VBool false) s in
     let self' := set_platforms (Dict.set p s' (platforms self)) self in
     deactivate_platform E p (self, w) = (Ok tt, (self', platforms_saved E self' w)) /\
     answer (get_platform p (self', w)) = Ok (Some s') /\
     answer (has_platform p (self', w)) = Ok false /\
     (forall q, q <> p -> Dict.get q (platforms self') = Dict.get q (platforms self))) /\
  (Dict.get p (platforms self) = None ->
   deactivate_platform E p (self, w) = (Ok tt, (self, w))).
Proof.
  split.
  - intros s Hget. cbn zeta. split; [|split; [|split]].
    + unfold deactivate_platform, Dict.mem. run_meth. rewrite Hget. cbn.
      rewrite Hget. reflexivity.
    + unfold get_platform, answer. run_meth. now rewrite DictFacts.get_set_eq.
    + unfold has_platform, answer. run_meth. now rewrite DictFacts.get_set_eq.
    + intros q Hq. cbn. apply DictFacts.get_set_ne. congruence.
  - intros Hget. unfold deactivate_platform, Dict.mem. run_meth. now rewrite Hget.
Qed.

(** X21.  [delete_platform] removes the record of a known platform for
    good: afterwards [get_platform] finds nothing and [has_platform] does
    not hold, the other platforms are untouched, and the platforms file
    is rewritten.  On an unknown platform nothing happens and nothing is
    written. *)
Theorem delete_platform_removes (p : string) (self : t) (w : world) :
  (forall s,
     Dict.get p (platforms self) = Some s ->
     let self' := set_platforms (Dict.del p (platforms self)) self in
     delete_platform E p (self, w) = (Ok tt, (self', platforms_saved E self' w)) /\
     answer (get_platform p (self', w)) = Ok None /\
     answer (has_platform p (self', w)) = Ok false /\
     (forall q, q <> p -> Dict.get q (platforms self') = Dict.get q (platforms self))) /\
  (Dict.get p (platforms self) = None ->
   delete_platform E p (self, w) = (Ok tt, (self, w))).
Proof.
  split.
  - intros s Hget. cbn zeta. split; [|split; [|split]].
    + unfold delete_platform, Dict.mem. run_meth. rewrite Hget. reflexivity.
    + unfold get_platform, answer. run_meth. now rewrite DictFacts.get_del_eq.
    + unfold has_platform, answer. run_meth. now rewrite DictFacts.get_del_eq.
    + intros q Hq. cbn. apply DictFacts.get_del_ne. congruence.
  - intros Hget. unfold delete_platform, Dict.mem. run_meth. now rewrite Hget.
Qed.

(** *** Settings *)

(** X22.  A setting that was saved is read back: after [save_setting key
    value] on a store whose settings are a dictionary, [get_setting key]
    returns the value whatever default is given, the other settings read
    as before, and the settings file holds the new dictionary.  A key
    that was never saved reads as the default. *)
Theorem save_then_get_setting (k : string) (v : value) (self : t) (w : world)
    (d : Dict.t value) :
  settings self = VDict d ->
  let self' := set_settings (VDict (Dict.set k v d)) self in
  let w' := mkWorld (Dict.set (settings_file self) (Json (VDict (Dict.set k v d))) (files w))
                    (ticks w) (running w) in
  save_setting k v (self, w) = (Ok tt, (self', w')) /\
  (forall default, answer (get_setting k default (self', w')) = Ok v) /\
  (forall k' default, k' <> k ->
     answer (get_setting k' default (self', w')) = answer (get_setting k' default (self, w))) /\
  (forall k' default, Dict.get k' d = None ->
     answer (get_setting k' default (self, w)) = Ok default).
Proof.
  intros Hd. cbn zeta. split; [|split; [|split]].
  - unfold save_setting. run_meth. rewrite Hd. reflexivity.
  - intros default. unfold get_setting, answer. run_meth. unfold Dict.get_default.
    now rewrite DictFacts.get_set_eq.
  - intros k' default Hk. unfold get_setting, answer. run_meth.
    rewrite Hd. cbn. unfold Dict.get_default.
    rewrite DictFacts.get_set_ne by congruence. reflexivity.
  - intros k' default Hnone. unfold get_setting, answer. run_meth.
    rewrite Hd. cbn. unfold Dict.get_default. now rewrite Hnone.
Qed.

(** *** Saving and reloading *)

Lemma session_from_to_dict {T : Type} (s : PlatformSession.t) (st : T * world) :
  PlatformSession.from_dict (PlatformSession.to_dict s) st = (Ok s, st).
Proof. now destruct s. Qed.

Lemma api_key_from_to_dict {T : Type} (k : APIKey.t) (st : T * world) :
  APIKey.from_dict (APIKey.to_dict k) st = (Ok k, st).
Proof. now destruct k. Qed.

Lemma load_platform_saved (k : string) (s : PlatformSession.t) (self : t) (w : world) :
  load_platform (k, PlatformSession.to_dict s) (self, w) =
    (Ok tt, (set_platforms (Dict.set k s (platforms self)) self, w)).
Proof. now destruct s. Qed.

Lemma load_api_key_saved (p : string) (k : APIKey.t) (self : t) (w : world) :
  load_api_key (p, APIKey.to_dict k) (self, w) =
    (Ok tt, (set_api_keys (Dict.set p k (api_keys self)) self, w)).
Proof. now destruct k. Qed.

Lemma load_saved_platforms (d : Dict.t PlatformSession.t) :
  forall (acc : Dict.t PlatformSession.t) (self : t) (w : world),
  NoDup (Dict.keys d) ->
  (forall k, In k (Dict.keys d) -> Dict.get k acc = None) ->
  for_each (map (fun kv => (fst kv, PlatformSession.to_dict (snd kv))) d) load_platform
           (set_platforms acc self, w) =
    (Ok tt, (set_platforms (acc ++ d)%list self, w)).
Proof.
  induction d as [|[k s] d IH]; intros acc self w Hnd Hfresh.
  - cbn. now rewrite app_nil_r.
  - cbn [map for_each fst snd].
    inversion Hnd as [|? ? Hk Hnd']; subst.
    assert (Hacc : Dict.get k acc = None) by (apply Hfresh; now left).
    erewrite bind_ok; [| apply load_platform_saved].
    cbn [platforms set_platforms]. rewrite (dict_set_fresh k s acc Hacc).
    change (set_platforms (acc ++ [(k, s)])%list (set_platforms acc self))
      with (set_platforms (acc ++ [(k, s)])%list self).
    rewrite IH; [| exact Hnd' |].
    + rewrite <- app_assoc. reflexivity.
    + intros k' Hk'. rewrite dict_get_app. rewrite Hfresh by now right.
      cbn. destruct (String.eqb_spec k' k) as [->|_]; [contradiction | reflexivity].
Qed.

Lemma load_saved_api_keys (d : Dict.t APIKey.t) :
  forall (acc : Dict.t APIKey.t) (self : t) (w : world),
  NoDup (Dict.keys d) ->
  (forall k, In k (Dict.keys d) -> Dict.get k acc = None) ->
  for_each (map (fun kv => (fst kv, APIKey.to_dict (snd kv))) d) load_api_key
           (set_api_keys acc self, w) =
    (Ok tt, (set_api_keys (acc ++ d)%list self, w)).
Proof.
  induction d as [|[k s] d IH]; intros acc self w Hnd Hfresh.
  - cbn. now rewrite app_nil_r.
  - cbn [map for_each fst snd].
    inversion Hnd as [|? ? Hk Hnd']; subst.
    assert (Hacc : Dict.get k acc = None) by (apply Hfresh; now left).
    erewrite bind_ok; [| apply load_api_key_saved].
    cbn [api_keys set_api_keys]. rewrite (dict_set_fresh k s acc Hacc).
    change (set_api_keys (acc ++ [(k, s)])%list (set_api_keys acc self))
      with (set_api_keys (acc ++ [(k, s)])%list self).
    rewrite IH; [| exact Hnd' |].
    + rewrite <- app_assoc. reflexivity.
    + intros k' Hk'. rewrite dict_get_app. rewrite Hfresh by now right.
      cbn. destruct (String.eqb_spec k' k) as [->|_]; [contradiction | reflexivity].
Qed.

Lemma load_platforms_block_saved (self : t) (w : world) (ps : Dict.t PlatformSession.t)
    (stamp : string) :
  platforms self = [] ->
  NoDup (Dict.keys ps) ->
  Dict.get (sessions_file self) (files w) =
    Some (Json (VDict [("platforms",
                        VDict (map (fun kv => (fst kv, PlatformSession.to_dict (snd kv))) ps));
                       ("last_saved", VStr stamp)])) ->
  load_platforms_block (self, w) = (Ok tt, (set_platforms ps self, w)).
Proof.
  intros Hempty Hnd Hfile.
  pose proof (load_saved_platforms ps [] self w Hnd (fun k _ => eq_refl)) as Hload.
  assert (Hself : set_platforms [] self = self).
  { rewrite <- Hempty. apply set_platforms_same. }
  rewrite Hself in Hload. cbn [app] in Hload.
  unfold load_platforms_block. run_meth. unfold Dict.mem. rewrite Hfile. cbn.
  rewrite Hfile. cbn. rewrite Hload. reflexivity.
Qed.

Lemma load_api_keys_block_saved (self : t) (w : world) (ks : Dict.t APIKey.t)
    (stamp : string) :
  api_keys self = [] ->
  NoDup (Dict.keys ks) ->
  Dict.get (api_keys_file self) (files w) =
    Some (Json (VDict [("keys",
                        VDict (map (fun kv => (fst kv, APIKey.to_dict (snd kv))) ks));
                       ("last_saved", VStr stamp)])) ->
  load_api_keys_block (self, w) = (Ok tt, (set_api_keys ks self, w)).
Proof.
  intros Hempty Hnd Hfile.
  pose proof (load_saved_api_keys ks [] self w Hnd (fun k _ => eq_refl)) as Hload.
  assert (Hself : set_api_keys [] self = self).
  { rewrite <- Hempty. apply set_api_keys_same. }
  rewrite Hself in Hload. cbn [app] in Hload.
  unfold load_api_keys_block. run_meth. unfold Dict.mem. rewrite Hfile. cbn.
  rewrite Hfile. cbn. rewrite Hload. reflexivity.
Qed.

(** X23.  What [_save_platforms] and [_save_api_keys] write, a store
    constructed afterwards for the same directory reads back: the same
    platform sessions and the same API key records, field for field and
    in the same order. *)
Theorem store_survives_reload (d : string) (ps : Dict.t PlatformSession.t)
    (ks : Dict.t APIKey.t) (st : value) (w : world) :
  d <> "" ->
  NoDup (Dict.keys ps) ->
  NoDup (Dict.keys ks) ->
  let self := at_dir d ps ks st in
  let w' := snd (final ((_save_platforms E ;;; _save_api_keys E) (self, w))) in
  exists st', __init__ E (Some d) w' = (Ok (at_dir d ps ks st'), w').
Proof.
  intros Hd Hps Hks. cbn zeta.
  erewrite bind_ok; [| apply save_platforms_runs].
  rewrite save_api_keys_runs. unfold final. cbn [snd].
  set (self := at_dir d ps ks st).
  set (w' := keys_saved E self (platforms_saved E self w)).
  unfold __init__, dir_or_default. apply String.eqb_neq in Hd. rewrite Hd.
  set (blank := mk d (path_join d "platforms.json") (path_join d "api_keys.json")
                   (path_join d "settings.json") Dict.empty Dict.empty (VDict [])).
  assert (H1 : load_platforms_block (blank, w') = (Ok tt, (set_platforms ps blank, w'))).
  { apply (load_platforms_block_saved blank w' ps (isoformat_at E (ticks w)));
      [reflexivity | exact Hps |].
    unfold w', keys_saved, platforms_saved, self, at_dir, blank.
    cbn [files sessions_file api_keys_file].
    rewrite DictFacts.get_set_ne.
    - apply DictFacts.get_set_eq.
    - apply path_join_differs; discriminate. }
  assert (H2 : load_api_keys_block (set_platforms ps blank, w') =
               (Ok tt, (set_api_keys ks (set_platforms ps blank), w'))).
  { apply (load_api_keys_block_saved _ w' ks (isoformat_at E (S (ticks w))));
      [reflexivity | exact Hks |].
    unfold w', keys_saved, platforms_saved, self, at_dir, blank.
    cbn [files sessions_file api_keys_file set_platforms].
    apply DictFacts.get_set_eq. }
  destruct (load_settings_block_spec (set_api_keys ks (set_platforms ps blank)) w')
    as [st' H3].
  exists st'. unfold _load_all.
  erewrite bind_ok; [| exact H1].
  erewrite bind_ok; [| exact H2].
  rewrite H3. reflexivity.
Qed.

Lemma load_settings_block_json (self : t) (w : world) (doc : value) :
  Dict.get (settings_file self) (files w) = Some (Json doc) ->
  load_settings_block (self, w) = (Ok tt, (set_settings doc self, w)).
Proof.
  intros Hfile. unfold load_settings_block. run_meth. unfold Dict.mem.
  rewrite Hfile. cbn. rewrite Hfile. reflexivity.
Qed.

(** X26.  A settings file that holds a JSON value other than an object
    is loaded as it is, and the store is then unusable for settings:
    [save_setting] raises a TypeError and [get_setting] an
    AttributeError, both without changing the store or writing a file. *)
Theorem settings_file_not_an_object (d : string) (w : world) (doc : value) :
  d <> "" ->
  Dict.get (path_join d "settings.json") (files w) = Some (Json doc) ->
  is_object doc = false ->
  exists self,
    __init__ E (Some d) w = (Ok self, w) /\
    settings self = doc /\
    (forall k v, exists msg,
       save_setting k v (self, w) = (Raise (Error "TypeError" msg), (self, w))) /\
    (forall k default, exists msg,
       get_setting k default (self, w) = (Raise (Error "AttributeError" msg), (self, w))).
Proof.
  intros Hd Hfile Hobj.
  unfold __init__, dir_or_default. apply String.eqb_neq in Hd. rewrite Hd.
  set (blank := mk d (path_join d "platforms.json") (path_join d "api_keys.json")
                   (path_join d "settings.json") Dict.empty Dict.empty (VDict [])).
  destruct (load_platforms_block_spec blank w) as (ps & Hps & _).
  destruct (load_api_keys_block_spec (set_platforms ps blank) w) as (ks & Hks & _).
  pose proof (load_settings_block_json (set_api_keys ks (set_platforms ps blank)) w doc Hfile)
    as Hst.
  unfold _load_all.
  erewrite bind_ok; [| exact Hps].
  erewrite bind_ok; [| exact Hks].
  rewrite Hst. eexists. split; [reflexivity|]. split; [reflexivity|]. split.
  - intros k v. unfold save_setting. run_meth.
    destruct doc; try discriminate Hobj; eexists; reflexivity.
  - intros k default. unfold get_setting. run_meth.
    destruct doc; try discriminate Hobj; eexists; reflexivity.
Qed.

(** *** A keys file with a damaged entry *)

Lemma for_each_app {S A : Type} (xs ys : list A) (body : A -> M S unit) (s : S) :
  for_each (xs ++ ys)%list body s = (for_each xs body ;;; for_each ys body) s.
Proof.
  revert s. induction xs as [|x xs IH]; intros s; cbn.
  - reflexivity.
  - unfold bind. destruct (body x s) as [[[]|e] s1]; [apply IH | reflexivity].
Qed.

Lemma load_api_key_damaged (p : string) (bad : value) (self : t) (w : world) :
  (forall kv, bad = VDict kv -> Dict.get "key" kv = None) ->
  exists e, load_api_key (p, bad) (self, w) = (Raise e, (self, w)).
Proof.
  intros Hbad. unfold load_api_key, APIKey.from_dict.
  destruct bad as [| | | | |kv]; try (eexists; reflexivity).
  destruct (forallb _ (Dict.keys kv)); [| eexists; reflexivity].
  rewrite (Hbad kv eq_refl).
  destruct (Dict.get "provider" kv); eexists; reflexivity.
Qed.

Lemma load_api_keys_block_damaged (self : t) (w : world) (top : Dict.t value)
    (good : Dict.t APIKey.t) (prov : string) (bad : value)
    (rest : list (string * value)) :
  api_keys self = [] ->
  Dict.get (api_keys_file self) (files w) = Some (Json (VDict top)) ->
  Dict.get "keys" top =
    Some (VDict (map (fun kv => (fst kv, APIKey.to_dict (snd kv))) good
                   ++ (prov, bad) :: rest)%list) ->
  NoDup (Dict.keys good) ->
  (forall kv, bad = VDict kv -> Dict.get "key" kv = None) ->
  load_api_keys_block (self, w) = (Ok tt, (set_api_keys good self, w)).
Proof.
  intros Hempty Hfile Hkeys Hnd Hbad.
  pose proof (load_saved_api_keys good [] self w Hnd (fun k _ => eq_refl)) as Hgood.
  assert (Hself : set_api_keys [] self = self).
  { rewrite <- Hempty. apply set_api_keys_same. }
  rewrite Hself in Hgood. cbn [app] in Hgood.
  destruct (load_api_key_damaged prov bad (set_api_keys good self) w Hbad) as [e He].
  unfold load_api_keys_block. run_meth. unfold Dict.mem.
  rewrite Hfile. cbn. rewrite Hfile. cbn.
  unfold Dict.get_default. rewrite Hkeys. cbn.
  unfold try_except. rewrite for_each_app.
  erewrite bind_ok; [| exact Hgood].
  cbn [for_each]. erewrite bind_raise; [| exact He]. reflexivity.
Qed.

(** X28.  One damaged entry in the keys file costs every key after it:
    when an entry of the "keys" object is not an object or has no "key"
    field, the store is still constructed, without an error, and holds
    exactly the keys listed before that entry; the entry itself and
    all that follow it are not loaded, whatever they hold. *)
Theorem api_keys_load_stops_at_damaged_entry (d : string) (w : world)
    (top : Dict.t value) (good : Dict.t APIKey.t) (prov : string) (bad : value)
    (rest : list (string * value)) :
  d <> "" ->
  Dict.get (path_join d "api_keys.json") (files w) = Some (Json (VDict top)) ->
  Dict.get "keys" top =
    Some (VDict (map (fun kv => (fst kv, APIKey.to_dict (snd kv))) good
                   ++ (prov, bad) :: rest)%list) ->
  NoDup (Dict.keys good) ->
  (forall kv, bad = VDict kv -> Dict.get "key" kv = None) ->
  exists self,
    __init__ E (Some d) w = (Ok self, w) /\
    api_keys self = good.
Proof.
  intros Hd Hfile Hkeys Hnd Hbad.
  unfold __init__, dir_or_default. apply String.eqb_neq in Hd. rewrite Hd.
  set (blank := mk d (path_join d "platforms.json") (path_join d "api_keys.json")
                   (path_join d "settings.json") Dict.empty Dict.empty (VDict [])).
  destruct (load_platforms_block_spec blank w) as (ps & Hps & _).
  set (self1 := set_platforms ps blank).
  pose proof (load_api_keys_block_damaged self1 w top good prov bad rest
                eq_refl Hfile Hkeys Hnd Hbad) as Hks.
  destruct (load_settings_block_spec (set_api_keys good self1) w) as [st' Hst].
  unfold _load_all.
  erewrite bind_ok; [| exact Hps].
  erewrite bind_ok; [| exact Hks].
  rewrite Hst. eexists. split; reflexivity.
Qed.

End SessionManagerMore.

Section SavePlatformRuns.
Import SessionManager.
Variable E : Env.



End SavePlatformRuns.

(** * Connecting the saved platforms *)

Section AutoConnectorMore.
Import AutoConnector.







End AutoConnectorMore.

(** * The session methods of the soul *)

Section AnubisSoulMore.
Import SessionManager.
Variable E : Env.


End AnubisSoulMore.


(** ** The further properties on the sample hosts *)

Section MoreEvaluations.
Import ServiceManager Samples.

Lemma calm_signals_delivered : signals_delivered calm.
Proof. intros w p sig. reflexivity. Defined.

Lemma bot_tracked_registered : tracked_registered manager_running.
Proof.
  intros k. unfold Dict.mem. cbn.
  destruct (k =? "bot")%string; [reflexivity | intros H; exact H].
Defined.

Lemma nodup_one {A : Type} (a : A) : NoDup [a].
Proof. constructor; [intros [] | constructor]. Defined.

Lemma start_service_launches_witness :
  exists self' w',
    start_service calm "bot" (manager_idle, world_quiet) =
      (Ok (VDict [("success", VBool true); ("pid", VInt 4000);
                  ("message", VStr "Service 'bot' started with PID 4000")]),
       (self', w')) /\
    Dict.get "bot" (processes self') = Some (mkPopen 4000) /\
    Dict.get "bot" (services self') =
      Some (mkService (VStr "bot") (VStr "telegram") (VStr "python3 bot.py") (VInt 4000)
              "running" (VStr "2024-05-01T12:00:00") (VStr "/srv/logs/bot.log")
              (VBool true) 0 5) /\
    running w' = [4000].
Proof.
  destruct (start_service_launches calm "bot" manager_idle world_quiet idle_bot 4000
              eq_refl eq_refl eq_refl eq_refl)
    as (self' & w' & Hrun & Hp & Hs & _ & Hw & _).
  exists self', w'. split; [exact Hrun|]. split; [exact Hp|].
  split; [exact Hs | exact Hw].
Defined.

Lemma start_service_twice_witness :
  let self1 := fst (final (start_service calm "bot" (manager_idle, world_quiet))) in
  start_service calm "bot" (self1, world_later) =
    (Ok (VDict [("success", VBool false);
                ("error", VStr "Service 'bot' is already running")]),
     (self1, world_later)) /\
  exists self2 w3,
    start_service calm "bot" (self1, world_after_exit) =
      (Ok (VDict [("success", VBool true); ("pid", VInt 4000);
                  ("message", VStr "Service 'bot' started with PID 4000")]),
       (self2, w3)) /\
    Dict.get "bot" (processes self2) = Some (mkPopen 4000) /\
    running w3 = [4000].
Proof.
  split.
  - exact (proj1 (proj1 (start_service_twice calm "bot" manager_idle world_quiet idle_bot
                           4000 world_later eq_refl eq_refl eq_refl eq_refl)
                    eq_refl)).
  - destruct (proj2 (start_service_twice calm "bot" manager_idle world_quiet idle_bot
                       4000 world_after_exit eq_refl eq_refl eq_refl eq_refl)
                4000 eq_refl eq_refl eq_refl)
      as (self2 & w3 & Hrun & Hp & _ & Hw).
    exists self2, w3. split; [exact Hrun|]. split; [exact Hp | exact Hw].
Defined.

Lemma start_then_stop_witness :
  let self1 := fst (final (start_service calm "bot" (manager_idle, world_quiet))) in
  exists self2 w3,
    stop_service calm "bot" (self1, world_later) =
      (Ok (VDict [("success", VBool true); ("message", VStr "Service 'bot' stopped")]),
       (self2, w3)) /\
    Dict.get "bot" (processes self2) = None /\
    Dict.get "bot" (services self2) =
      Some (mkService (VStr "bot") (VStr "telegram") (VStr "python3 bot.py") VNone
              "stopped" (VStr "2024-05-01T12:00:00") (VStr "/srv/logs/bot.log")
              (VBool true) 0 5) /\
    running w3 = [].
Proof.
  exact (start_then_stop calm "bot" manager_idle world_quiet idle_bot 4000 world_later
           calm_signals_delivered eq_refl eq_refl eq_refl eq_refl).
Defined.

Lemma unregistered_name_witness :
  Dict.get "ghost" (services manager_running) = None /\
  start_service calm "ghost" (manager_running, world_running) =
    (Ok (failure "Service 'ghost' not found"), (manager_running, world_running)) /\
  delete_service calm "ghost" (manager_running, world_running) =
    (Ok false, (manager_running, world_running)).
Proof.
  split; [reflexivity|].
  destruct (unregistered_name calm "ghost" manager_running world_running eq_refl)
    as (Hstart & _ & _ & Hdel).
  split; [exact Hstart | exact (Hdel eq_refl)].
Defined.

Lemma restart_after_failed_stop_witness :
  signalling no_signal world_running (mkPopen 4242) = Some permission_denied /\
  restart_service no_signal "bot" (manager_running, world_running) =
    (Ok (failure "Service 'bot' is already running"), (manager_running, world_running)).
Proof.
  split; [reflexivity|].
  exact (restart_after_failed_stop no_signal "bot" manager_running world_running bot
           (mkPopen 4242) permission_denied eq_refl eq_refl eq_refl eq_refl).
Defined.

Lemma restart_service_replaces_child_witness :
  exists child self' w',
    restart_service calm "bot" (manager_running, world_running) =
      (Ok (start_answer "bot" child), (self', w')) /\
    Dict.get "bot" (processes self') = Some (mkPopen child) /\
    running w' = [child].
Proof.
  destruct (restart_service_replaces_child calm "bot" manager_running world_running bot
              (mkPopen 4242) calm_signals_delivered
              (fun _ => eq_refl)
              (fun w' => ex_intro _ (4000 + Z.of_nat (List.length (running w'))) eq_refl)
              eq_refl eq_refl)
    as (child & self' & w' & Hrun & Hp & _ & _ & Hw).
  exists child, self', w'. split; [exact Hrun|]. split; [exact Hp | exact Hw].
Defined.

Lemma delete_service_registered_witness :
  exists self' w',
    delete_service no_signal "bot" (manager_running, world_running) =
      (Ok true, (self', w')) /\
    Dict.get "bot" (services self') = None /\
    Dict.get "bot" (processes self') = Some (mkPopen 4242).
Proof.
  destruct (delete_service_registered no_signal "bot" manager_running world_running bot
              eq_refl)
    as (self' & w' & Hrun & Hs & _ & Hp).
  exists self', w'. split; [exact Hrun|]. split; [exact Hs | exact Hp].
Defined.

Lemma services_survive_reload_witness :
  let w' := snd (final (_save_services calm
                          (at_dir "/srv" [("bot", bot)] [("bot", mkPopen 4242)],
                           world_quiet))) in
  __init__ calm (Some "/srv") w' =
    (Ok (at_dir "/srv" [("bot", reloaded bot)] Dict.empty), w').
Proof.
  exact (services_survive_reload calm "/srv" [("bot", bot)] [("bot", mkPopen 4242)]
           world_quiet
           (fun H : "/srv" = "" => eq_ind "/srv"
              (fun s => match s with EmptyString => False | String _ _ => True end)
              I "" H)
           (nodup_one "bot")).
Defined.

Lemma list_services_reports_witness :
  list_services (manager_running, world_quiet) =
    (Ok [report bot "crashed"],
     (manager [("bot", set_status "crashed" bot)] [("bot", mkPopen 4242)], world_quiet)).
Proof.
  exact (list_services_reports manager_running world_quiet (nodup_one "bot")).
Defined.

Lemma get_logs_nothing_to_read_witness :
  get_logs (fun _ => "") ascii_codec "ghost" 50 (manager_idle, world_quiet) =
    (Ok "Service 'ghost' not found", (manager_idle, world_quiet)) /\
  get_logs (fun _ => "") ascii_codec "bot" 50 (manager_idle, world_quiet) =
    (Ok "No logs available", (manager_idle, world_quiet)).
Proof.
  split.
  - exact (proj1 (get_logs_nothing_to_read (fun _ => "") ascii_codec "ghost" 50
                    manager_idle world_quiet)
             eq_refl).
  - exact (proj2 (get_logs_nothing_to_read (fun _ => "") ascii_codec "bot" 50
                    manager_idle world_quiet)
             idle_bot "/srv/logs/bot.log" eq_refl eq_refl (or_intror eq_refl)).
Defined.

Lemma get_logs_tail_witness :
  (exists skipped kept,
     get_logs (fun _ => "") ascii_codec "bot" 2 (manager_running, world_logged) =
       (Ok (join kept), (manager_running, world_logged)) /\
     readlines (universal_newlines bot_log) = (skipped ++ kept)%list /\
     List.length skipped = 1%nat) /\
  get_logs (fun _ => "") ascii_codec "bot" 2 (manager_running, world_logged_binary) =
    (Ok "Error reading logs: 'ascii' codec can't decode byte: ordinal not in range(128)",
     (manager_running, world_logged_binary)).
Proof.
  assert (Hpath : "/srv/logs/bot.log" <> "") by discriminate.
  split.
  - destruct (get_logs_tail (fun _ => "") ascii_codec "bot" 2 manager_running world_logged
                bot "/srv/logs/bot.log" bot_log eq_refl eq_refl Hpath eq_refl)
      as (skipped & kept & Hrun & Hsplit & _ & Hpos & _).
    exists skipped, kept. split; [exact Hrun|]. split; [exact Hsplit|].
    exact (Hpos eq_refl).
  - exact (get_logs_tail (fun _ => "") ascii_codec "bot" 2 manager_running
             world_logged_binary bot "/srv/logs/bot.log"
             ("boot" ++ String "255"%char "") eq_refl eq_refl Hpath eq_refl).
Defined.

Lemma stop_all_clears_witness :
  exists results self' w',
    stop_all calm (manager_pair, world_pair_live) = (Ok results, (self', w')) /\
    processes self' = [] /\
    Dict.get "alpha" results =
      Some (VDict [("success", VBool true); ("message", VStr "Service 'alpha' stopped")]) /\
    Dict.get "gamma" results =
      Some (VDict [("success", VBool true); ("message", VStr "Service 'gamma' stopped")]) /\
    option_map status (Dict.get "gamma" (services self')) = Some "stopped".
Proof.
  assert (Hnd : NoDup ["alpha"; "gamma"]).
  { repeat constructor; cbn; intuition discriminate. }
  assert (Hreg : forall k, Dict.mem k (processes manager_pair) = true ->
                           Dict.mem k (services manager_pair) = true).
  { intros k. unfold Dict.mem. cbn.
    destruct (k =? "alpha")%string; [reflexivity|].
    destruct (k =? "gamma")%string; [reflexivity | intros H; exact H]. }
  destruct (stop_all_clears calm manager_pair world_pair_live calm_signals_delivered
              Hnd Hreg)
    as (results & self' & w' & Hrun & Hp & Heach & _).
  exists results, self', w'. split; [exact Hrun|]. split; [exact Hp|].
  split; [exact (proj1 (Heach "alpha" (mkPopen 4000) eq_refl))|].
  split; [exact (proj1 (Heach "gamma" (mkPopen 4001) eq_refl))|].
  exact (proj1 (proj2 (Heach "gamma" (mkPopen 4001) eq_refl))).
Defined.

Lemma tracked_stay_registered_witness :
  tracked_registered
    (fst (final (restart_service no_signal "bot" (manager_running, world_running)))) /\
  tracked_registered
    (fst (final (stop_service calm "bot" (manager_running, world_running)))).
Proof.
  split.
  - exact (proj1 (proj2 (proj2 (proj2
             (tracked_stay_registered no_signal "bot" "" "" true manager_running
                world_running bot_tracked_registered))))).
  - exact (proj1 (proj2 (proj2
             (tracked_stay_registered calm "bot" "" "" true manager_running
                world_running bot_tracked_registered)))).
Defined.

Lemma update_token_usage_adds_witness :
  SessionManager.update_token_usage calm "mistral" 10 None (store_one, world_quiet) =
    (Ok tt, (store_one, world_quiet)) /\
  exists self' w',
    SessionManager.update_token_usage calm "openai" 10 None (store_one, world_quiet) =
      (Ok tt, (self', w')) /\
    option_map APIKey.tokens_used (Dict.get "openai" (SessionManager.api_keys self')) =
      Some (VInt 1510) /\
    option_map APIKey.tokens_remaining (Dict.get "openai" (SessionManager.api_keys self')) =
      Some (VInt (-1)).
Proof.
  destruct (update_token_usage_adds calm "mistral" 10 None store_one world_quiet)
    as (_ & Hnone & _).
  split; [exact (Hnone eq_refl)|].
  destruct (update_token_usage_adds calm "openai" 10 None store_one world_quiet)
    as (Hsome & _ & _).
  do 2 eexists. split; [exact (Hsome openai_key 1500 eq_refl eq_refl)|].
  split; reflexivity.
Defined.

Lemma update_token_usage_twice_witness :
  let st2 := final (SessionManager.update_token_usage calm "openai" 20 (Some 8000)
                      (final (SessionManager.update_token_usage calm "openai" 10 (Some 8490)
                                (store_one, world_quiet)))) in
  option_map APIKey.tokens_used (Dict.get "openai" (SessionManager.api_keys (fst st2))) =
    Some (VInt (1500 + 10 + 20)) /\
  option_map APIKey.tokens_remaining (Dict.get "openai" (SessionManager.api_keys (fst st2))) =
    Some (VInt 8000).
Proof.
  exact (update_token_usage_twice calm "openai" 10 20 8490 8000 store_one world_quiet
           openai_key 1500 eq_refl eq_refl).
Defined.

Lemma active_views_agree_witness :
  exists creds,
    SessionManager.list_platforms (store_three, world_quiet) =
      (Ok ["discord"; "matrix"], (store_three, world_quiet)) /\
    SessionManager.get_all_credentials (store_three, world_quiet) =
      (Ok creds, (store_three, world_quiet)) /\
    Dict.get "discord" creds = Some (VDict [("token", VStr "D")]).
Proof.
  assert (Hnodup : NoDup (Dict.keys (SessionManager.platforms store_three))).
  { repeat constructor; cbn; intuition discriminate. }
  destruct (active_views_agree store_three world_quiet "discord" Hnodup)
    as (listed & creds & active & Hlist & Hcreds & Hhas & _ & Hget).
  exists creds.
  injection Hlist as <-. injection Hhas as <-.
  split; [reflexivity|]. split; [exact Hcreds | exact Hget].
Defined.

Lemma deactivate_platform_keeps_record_witness :
  exists self' w',
    SessionManager.deactivate_platform calm "discord" (store_three, world_quiet) =
      (Ok tt, (self', w')) /\
    answer (SessionManager.get_platform "discord" (self', world_quiet)) =
      Ok (Some (PlatformSession.set_is_active (VBool false) discord_session)) /\
    answer (SessionManager.has_platform "discord" (self', world_quiet)) = Ok false.
Proof.
  destruct (proj1 (deactivate_platform_keeps_record calm "discord" store_three world_quiet)
              discord_session eq_refl)
    as (Hrun & Hget & Hhas & _).
  do 2 eexists. split; [exact Hrun|]. split; [exact Hget | exact Hhas].
Defined.

Lemma delete_platform_removes_witness :
  exists self' w',
    SessionManager.delete_platform calm "discord" (store_three, world_quiet) =
      (Ok tt, (self', w')) /\
    answer (SessionManager.get_platform "discord" (self', world_quiet)) = Ok None /\
    Dict.get "matrix" (SessionManager.platforms self') = Some matrix_session.
Proof.
  destruct (proj1 (delete_platform_removes calm "discord" store_three world_quiet)
              discord_session eq_refl)
    as (Hrun & Hget & _ & Hother).
  do 2 eexists. split; [exact Hrun|]. split; [exact Hget|].
  rewrite (Hother "matrix"); [reflexivity | discriminate].
Defined.

Lemma save_then_get_setting_witness :
  exists self' w',
    SessionManager.save_setting "theme" (VStr "dark") (store_one, world_quiet) =
      (Ok tt, (self', w')) /\
    answer (SessionManager.get_setting "theme" VNone (self', w')) = Ok (VStr "dark") /\
    answer (SessionManager.get_setting "font" (VInt 12) (store_one, world_quiet)) =
      Ok (VInt 12).
Proof.
  destruct (save_then_get_setting "theme" (VStr "dark") store_one world_quiet [] eq_refl)
    as (Hrun & Hget & _ & Hdefault).
  do 2 eexists. split; [exact Hrun|]. split; [exact (Hget VNone)|].
  exact (Hdefault "font" (VInt 12) eq_refl).
Defined.

Lemma store_survives_reload_witness :
  let self := SessionManager.at_dir "/srv" [("telegram", telegram_session)]
                [("openai", openai_key)] (VDict []) in
  let w' := snd (final ((SessionManager._save_platforms calm ;;;
                         SessionManager._save_api_keys calm) (self, world_quiet))) in
  exists st',
    SessionManager.__init__ calm (Some "/srv") w' =
      (Ok (SessionManager.at_dir "/srv" [("telegram", telegram_session)]
             [("openai", openai_key)] st'), w').
Proof.
  exact (store_survives_reload calm "/srv" [("telegram", telegram_session)]
           [("openai", openai_key)] (VDict []) world_quiet
           (fun H : "/srv" = "" => eq_ind "/srv"
              (fun s => match s with EmptyString => False | String _ _ => True end)
              I "" H)
           (nodup_one "telegram") (nodup_one "openai")).
Defined.

Lemma settings_file_not_an_object_witness :
  exists self,
    SessionManager.__init__ calm (Some "/srv") world_settings_list =
      (Ok self, world_settings_list) /\
    SessionManager.settings self = VList [VStr "dark"] /\
    exists msg,
      SessionManager.save_setting "theme" (VStr "light") (self, world_settings_list) =
        (Raise (Error "TypeError" msg), (self, world_settings_list)).
Proof.
  destruct (settings_file_not_an_object calm "/srv" world_settings_list
              (VList [VStr "dark"])
              (fun H : "/srv" = "" => eq_ind "/srv"
                 (fun s => match s with EmptyString => False | String _ _ => True end)
                 I "" H)
              eq_refl eq_refl)
    as (self & Hinit & Hsettings & Hsave & _).
  exists self. split; [exact Hinit|]. split; [exact Hsettings|].
  exact (Hsave "theme" (VStr "light")).
Defined.

Lemma api_keys_load_stops_at_damaged_entry_witness :
  exists self,
    SessionManager.__init__ calm (Some "/srv") world_keys_damaged =
      (Ok self, world_keys_damaged) /\
    SessionManager.api_keys self = [("openai", openai_key)].
Proof.
  exact (api_keys_load_stops_at_damaged_entry calm "/srv" world_keys_damaged
           [("keys", VDict [("openai", APIKey.to_dict openai_key);
                            ("mistral", VDict [("provider", VStr "mistral")]);
                            ("groq", APIKey.to_dict groq_key)])]
           [("openai", openai_key)] "mistral" (VDict [("provider", VStr "mistral")])
           [("groq", APIKey.to_dict groq_key)]
           (fun H : "/srv" = "" => eq_ind "/srv"
              (fun s => match s with EmptyString => False | String _ _ => True end)
              I "" H)
           eq_refl eq_refl (nodup_one "openai")
           (fun kv H => f_equal (fun v => match v with
                                          | VDict d => Dict.get "key" d
                                          | _ => None
                                          end) (eq_sym H))).
Defined.



End MoreEvaluations.
